(** * medusa-paypal: order reconciliation, identifier validation and webhooks

  A shallow embedding of the payment provider
  ([PaypalModuleService], providers/paypal/service.ts), of the remote order
  client it drives ([PaypalService], providers/paypal/paypal-core), of
  utils/security.ts (the identifier helpers, [sanitizeInput],
  [isValidEmail] and the [RateLimiter]) and of the client-token route that
  uses the limiter.

  JavaScript values are kept as the code sees them: an optional property is
  an [option], a string is a [string] tested for truthiness (the empty
  string is falsy), a number is a binary64 [float].  Remote calls go
  through a small state-and-exception monad that records every call made
  to the processor.  Logging ([logger.info], [console.log], ...) has no
  effect on control flow and is left out. *)

From Stdlib Require Import ZArith List String Ascii Bool Lia.
From Stdlib Require Import Floats Uint63 DecimalString DecimalPos DecimalN.
From Stdlib Require Import QArith Qround.
From stdpp Require Import base strings gmap.
Import ListNotations.

Set Warnings "-register-all,-inexact-float".
Local Open Scope string_scope.

(* ===================================================================== *)
(** ** JavaScript values *)
(* ===================================================================== *)

Module Js.

(** An optional string property: [None] is [undefined]. *)
Definition truthy_str (v : option string) : bool :=
  match v with
  | Some s => negb (s =? "")
  | None => false
  end.

(** [v === lit] for an optional string property and a string literal. *)
Definition seq (v : option string) (lit : string) : bool :=
  match v with
  | Some s => s =? lit
  | None => false
  end.

(** Template interpolation [`${v}`] of an optional string. *)
Definition show (v : option string) : string :=
  match v with
  | Some s => s
  | None => "undefined"
  end.

(** [a || b] on optional strings. *)
Definition or_str (a b : option string) : option string :=
  if truthy_str a then a else b.

(** [arr?.[0]] where [arr] may be undefined. *)
Definition first {A} (arr : option (list A)) : option A :=
  match arr with
  | Some (x :: _) => Some x
  | _ => None
  end.

Definition is_nan (x : float) : bool := negb (PrimFloat.eqb x x).

(** Truthiness of a number: [0], [-0] and [NaN] are falsy. *)
Definition truthy_num (v : option float) : bool :=
  match v with
  | Some x => negb (PrimFloat.eqb x 0%float || is_nan x)
  | None => false
  end.

(** Exceptions.  Every one carries a [message]; errors raised by the
    processor's SDK also carry the raw response [body]. *)
Inductive MedusaErrorType := INVALID_DATA | NOT_FOUND | UNEXPECTED_STATE.

Inductive exn :=
| MedusaError (type : MedusaErrorType) (message : string)
| Error (message : string)
| TypeError (message : string)
| SyntaxError (message : string)
| ApiError (message : string) (body : option string).

Definition message (e : exn) : string :=
  match e with
  | MedusaError _ m | Error m | TypeError m | SyntaxError m
  | ApiError m _ => m
  end.

(** [error?.body]. *)
Definition body (e : exn) : option string :=
  match e with
  | ApiError _ b => b
  | _ => None
  end.

(** Values produced by [JSON.parse]. *)
Inductive json : Type :=
| JNull
| JBool (b : bool)
| JNum (n : float)
| JStr (s : string)
| JArr (items : list json)
| JObj (fields : list (string * json)).

Fixpoint assoc (k : string) (fields : list (string * json)) : option json :=
  match fields with
  | [] => None
  | (k', v) :: rest => if k' =? k then Some v else assoc k rest
  end.

(** A possibly undefined value: [None] is [undefined]. *)
Definition value := option json.

Definition truthy (v : value) : bool :=
  match v with
  | None | Some JNull => false
  | Some (JBool b) => b
  | Some (JNum n) => negb (PrimFloat.eqb n 0%float || is_nan n)
  | Some (JStr s) => negb (s =? "")
  | Some (JArr _) | Some (JObj _) => true
  end.

(** [v?.k]: property [k] of [v], short-circuiting on [null]/[undefined].
    Primitives and arrays have no property of the names read here. *)
Definition opt_get (v : value) (k : string) : value :=
  match v with
  | Some (JObj fields) => assoc k fields
  | _ => None
  end.

(** [a || b]. *)
Definition or_else (a b : value) : value := if truthy a then a else b.

(** [v.k]: reading a property of [null] throws. *)
Definition get (v : json) (k : string) : exn + value :=
  match v with
  | JNull =>
      inl (TypeError ("Cannot read properties of null (reading '" ++ k ++ "')"))
  | JObj fields => inr (assoc k fields)
  | _ => inr None
  end.

(** [v === lit] for a string literal. *)
Definition is_str (v : value) (lit : string) : bool :=
  match v with
  | Some (JStr s) => s =? lit
  | _ => false
  end.

(** The parts of the runtime that are not modelled further: [JSON.parse]
    ([None] when it throws a [SyntaxError]), [String(v)] as used by
    template literals, [Number(v)], [Number::toString] for finite numbers
    of magnitude at least 1e21, and [String.prototype.trim]. *)
Record Runtime := {
  JSON_parse : string -> option json;
  ToString : json -> string;
  ToNumber : json -> float;
  Number_toString : float -> string;
  String_trim : string -> string;
}.

End Js.

(* ===================================================================== *)
(** ** Identifier shapes: /^[A-Z0-9]{17}$/ and /^[A-Z0-9]{17,20}$/ *)
(* ===================================================================== *)

Module IdPattern.

(** The character class [[A-Z0-9]]. *)
Definition upper_alnum (c : ascii) : bool :=
  let n := nat_of_ascii c in
  ((65 <=? n)%nat && (n <=? 90)%nat) || ((48 <=? n)%nat && (n <=? 57)%nat).

Fixpoint all_upper_alnum (s : string) : bool :=
  match s with
  | EmptyString => true
  | String c rest => upper_alnum c && all_upper_alnum rest
  end.

(** [/^[A-Z0-9]{lo,hi}$/.test(s)].  Without the [m] flag [$] matches at
    the very end of the input only, so the whole string is the match. *)
Definition test (lo hi : nat) (s : string) : bool :=
  (lo <=? String.length s)%nat && (String.length s <=? hi)%nat
  && all_upper_alnum s.

Definition orderIdPattern : string -> bool := test 17 17.
Definition authIdPattern : string -> bool := test 17 20.
Definition captureIdPattern : string -> bool := test 17 20.

End IdPattern.

(* ===================================================================== *)
(** ** utils/security.ts: validating and trimming identifiers *)
(* ===================================================================== *)

Module Security.

(** The three helpers differ in their pattern and messages only.  The
    argument is [None] for a value that is not a string. *)
Definition validateAndSanitize (rt : Js.Runtime) (pattern : string -> bool)
           (emptyMessage formatMessage : string) (value : option string)
  : Js.exn + string :=
  match value with
  | Some raw =>
      if raw =? "" then inl (Js.MedusaError Js.INVALID_DATA emptyMessage)
      else
        let trimmedId := Js.String_trim rt raw in
        if negb (pattern trimmedId) then
          inl (Js.MedusaError Js.INVALID_DATA formatMessage)
        else inr trimmedId
  | None => inl (Js.MedusaError Js.INVALID_DATA emptyMessage)
  end.

Definition validateAndSanitizeOrderId (rt : Js.Runtime)
  : option string -> Js.exn + string :=
  validateAndSanitize rt IdPattern.orderIdPattern
    "Order ID must be a non-empty string" "Invalid PayPal order ID format".

Definition validateAndSanitizeAuthorizationId (rt : Js.Runtime)
  : option string -> Js.exn + string :=
  validateAndSanitize rt IdPattern.authIdPattern
    "Authorization ID must be a non-empty string"
    "Invalid PayPal authorization ID format".

Definition validateAndSanitizeCaptureId (rt : Js.Runtime)
  : option string -> Js.exn + string :=
  validateAndSanitize rt IdPattern.captureIdPattern
    "Capture ID must be a non-empty string"
    "Invalid PayPal capture ID format".

End Security.

(* ===================================================================== *)
(** ** Numbers: [Math.round] and [Number.prototype.toFixed] *)
(* ===================================================================== *)

Module Num.

(** A finite binary64 number decodes ([Prim2SF]) to a sign, a mantissa [m]
    and an exponent [e]; its exact value is [m * 2^e]. *)

(** The integer nearest to [m * 2^e], the larger one on a tie. *)
Definition round_half_up (m e : Z) : Z :=
  if (0 <=? e)%Z then m * 2 ^ e
  else (2 * m + 2 ^ (- e)) / (2 * 2 ^ (- e)).

(** The float of an integer of magnitude at most 2^53 (exact there). *)
Definition of_Z (k : Z) : float :=
  if (k <? 0)%Z then PrimFloat.opp (PrimFloat.of_uint63 (Uint63.of_Z (- k)))
  else PrimFloat.of_uint63 (Uint63.of_Z k).

(** [Math.round(x)]: [x] itself when it is not finite or already integral,
    otherwise the nearest integer, ties toward +Infinity; a result of zero
    keeps the sign of [x]. *)
Definition Math_round (x : float) : float :=
  match Prim2SF x with
  | S754_finite s m e =>
      if (0 <=? e)%Z then x
      else
        let k := round_half_up (if s then Z.neg m else Z.pos m) e in
        if (k =? 0)%Z then (if s then (-0)%float else 0%float) else of_Z k
  | _ => x
  end.

Fixpoint zeros (k : nat) : string :=
  match k with
  | O => ""
  | S k' => String "0" (zeros k')
  end.

(** The decimal digits of a natural number, ["0"] for zero. *)
Definition digits (n : Z) : string :=
  NilZero.string_of_uint (N.to_uint (Z.to_N n)).

(** Steps 8-10 of [toFixed]: the digits of [n] padded with zeros to at least
    [f + 1] characters, with a point before the last [f]. *)
Definition fixed_digits (n : Z) (f : nat) : string :=
  let m := digits n in
  let m := if (String.length m <=? f)%nat
           then zeros (f + 1 - String.length m) ++ m else m in
  let k := String.length m in
  match f with
  | O => m
  | _ => substring 0 (k - f) m ++ "." ++ substring (k - f) f m
  end.

(** [m * 2^e >= 10^21]. *)
Definition ge_1e21 (m : positive) (e : Z) : bool :=
  if (0 <=? e)%Z then (10 ^ 21 <=? Z.pos m * 2 ^ e)%Z
  else (10 ^ 21 * 2 ^ (- e) <=? Z.pos m)%Z.

(** [x.toFixed(f)]. *)
Definition toFixed (rt : Js.Runtime) (x : float) (f : nat) : string :=
  match Prim2SF x with
  | S754_nan => "NaN"
  | S754_infinity s => if s then "-Infinity" else "Infinity"
  | S754_zero _ => fixed_digits 0 f
  | S754_finite s m e =>
      (if s then "-" else "") ++
      (if ge_1e21 m e then Js.Number_toString rt (PrimFloat.abs x)
       else fixed_digits (round_half_up (Z.pos m * 10 ^ Z.of_nat f) e) f)
  end.

End Num.

(* ===================================================================== *)
(** ** Processor data (the SDK's [Order] and what it nests) *)
(* ===================================================================== *)

Record Authorization := {
  auth_id : option string;
  auth_status : option string;
}.

Record Capture := {
  capture_id : option string;
  capture_status : option string;
  createTime : option string;
}.

Record PaymentCollection := {
  authorizations : option (list Authorization);
  captures : option (list Capture);
}.

Record PurchaseUnit := {
  payments : option PaymentCollection;
}.

Record Order := {
  id : option string;
  status : option string;
  intent : option string;
  purchaseUnits : option (list PurchaseUnit);
}.

(** [order.purchaseUnits?.[0]?.payments]. *)
Definition first_payments (o : Order) : option PaymentCollection :=
  match Js.first (purchaseUnits o) with
  | Some u => payments u
  | None => None
  end.

(** [order.purchaseUnits?.[0]?.payments?.authorizations?.[0]]. *)
Definition first_authorization (o : Order) : option Authorization :=
  match first_payments o with
  | Some p => Js.first (authorizations p)
  | None => None
  end.

(** [order.purchaseUnits?.[0]?.payments?.captures?.[0]]. *)
Definition first_capture (o : Order) : option Capture :=
  match first_payments o with
  | Some p => Js.first (captures p)
  | None => None
  end.

(** [order.purchaseUnits?.[0]?.payments?.captures?.[0]?.createTime]. *)
Definition first_capture_time (o : Order) : option string :=
  match first_capture o with
  | Some c => createTime c
  | None => None
  end.

Record Refund := {
  refund_id : option string;
  refund_status : option string;
}.

(** The body of a webhook: the parsed JSON when the raw data was a string,
    the raw data itself (a [Buffer]) otherwise. *)
Inductive WebhookBody :=
| BodyJson (j : Js.json)
| BodyBuffer (bytes : list Byte.byte).

(** The body sent to /v1/notifications/verify-webhook-signature. *)
Record VerifyRequest := {
  auth_algo : option string;
  cert_url : option string;
  transmission_id : option string;
  transmission_sig : option string;
  transmission_time : option string;
  webhook_id : string;
  webhook_event : WebhookBody;
}.

(** What [fetch] gives back: it rejects, or it resolves to a response with
    its [ok] flag, its [statusText] and the outcome of [json()]. *)
Inductive FetchOutcome :=
| FetchRejected (e : Js.exn)
| FetchResponse (ok : bool) (statusText : string) (json : Js.exn + Js.json).

(* ===================================================================== *)
(** ** Remote calls and the monad that records them *)
(* ===================================================================== *)

Inductive Call :=
| GetOrder (id : string)
| AuthorizeOrder (id : string)
| CaptureOrder (id : string)
| CaptureAuthorizedPayment (authorizationId : string)
| RefundCapturedPayment (captureId : string)
| RequestToken
| VerifyWebhookSignature (req : VerifyRequest).

(** The calls that move funds or change the processor's state. *)
Definition mutating (c : Call) : bool :=
  match c with
  | AuthorizeOrder _ | CaptureOrder _ | CaptureAuthorizedPayment _
  | RefundCapturedPayment _ => true
  | GetOrder _ | RequestToken | VerifyWebhookSignature _ => false
  end.

Definition is_direct_capture (c : Call) : bool :=
  match c with CaptureOrder _ => true | _ => false end.

Definition is_authorization_capture (c : Call) : bool :=
  match c with CaptureAuthorizedPayment _ => true | _ => false end.

(** The processor, over a state [W] of its own.  Reading an order, asking
    for a token and verifying a signature leave that state alone; the other
    calls may change it, also when they fail. *)
Record Remote (W : Type) := {
  ordersController_getOrder : W -> string -> Js.exn + Order;
  ordersController_authorizeOrder : W -> string -> (Js.exn + Order) * W;
  ordersController_captureOrder : W -> string -> (Js.exn + Order) * W;
  paymentsController_captureAuthorizedPayment :
    W -> string -> (Js.exn + Capture) * W;
  paymentsController_refundCapturedPayment :
    W -> string -> (Js.exn + Refund) * W;
  authController_requestToken : W -> Js.exn + option string;
  (** [fetch] on the signature endpoint, with the bearer token and the
      request body. *)
  fetch_verify_webhook_signature :
    W -> string -> VerifyRequest -> FetchOutcome;
}.

Arguments ordersController_getOrder {W}.
Arguments ordersController_authorizeOrder {W}.
Arguments ordersController_captureOrder {W}.
Arguments paymentsController_captureAuthorizedPayment {W}.
Arguments paymentsController_refundCapturedPayment {W}.
Arguments authController_requestToken {W}.
Arguments fetch_verify_webhook_signature {W}.

(** The state threaded through an operation: the processor's state and the
    calls made so far, oldest first. *)
Record St (W : Type) := mkSt {
  world : W;
  calls : list Call;
}.

Arguments mkSt {W}.
Arguments world {W}.
Arguments calls {W}.

Definition M (W A : Type) : Type := St W -> (Js.exn + A) * St W.

Definition ret {W A} (a : A) : M W A := fun s => (inr a, s).

Definition throw {W A} (e : Js.exn) : M W A := fun s => (inl e, s).

Definition bind {W A B} (m : M W A) (k : A -> M W B) : M W B :=
  fun s =>
    match m s with
    | (inr a, s') => k a s'
    | (inl e, s') => (inl e, s')
    end.

(** [try { m } catch (error) { h error }]. *)
Definition try_catch {W A} (m : M W A) (h : Js.exn -> M W A) : M W A :=
  fun s =>
    match m s with
    | (inl e, s') => h e s'
    | r => r
    end.

Notation "'let*' x ':=' m 'in' k" := (bind m (fun x => k))
  (at level 10, x name, m at level 100, k at level 200).

(** A call that reads the processor's state. *)
Definition query {W A} (c : Call) (f : W -> Js.exn + A) : M W A :=
  fun s => (f (world s), mkSt (world s) (calls s ++ [c])).

(** A call that may change it. *)
Definition command {W A} (c : Call) (f : W -> (Js.exn + A) * W) : M W A :=
  fun s => let (r, w') := f (world s) in (r, mkSt w' (calls s ++ [c])).

(** The calls an operation added, given the calls before and after. *)
Definition made (before after : list Call) : list Call :=
  skipn (List.length before) after.

(** A step that only computes, and may throw. *)
Definition lift {W A} (r : Js.exn + A) : M W A := fun s => (r, s).

(* ===================================================================== *)
(** ** [PaypalService]: the remote order client (paypal-core) *)
(* ===================================================================== *)

Module PaypalService.

Section Client.

Context {W : Type}.
Variable R : Remote W.
Variable rt : Js.Runtime.
(** The [webhookId] plugin option. *)
Variable webhookId : option string.

Definition getAccessToken : M W string :=
  try_catch
    (let* accessToken := query RequestToken (authController_requestToken R) in
     match accessToken with
     | Some t =>
         if t =? "" then throw (Js.Error "Failed to get access token")
         else ret t
     | None => throw (Js.Error "Failed to get access token")
     end)
    (fun error =>
       throw (Js.Error ("Failed to get access token: " ++ Js.message error))).

Definition retrieveOrder (id : string) : M W Order :=
  query (GetOrder id) (fun w => ordersController_getOrder R w id).

Definition captureAuthorization (authorizationId : string) : M W Capture :=
  command (CaptureAuthorizedPayment authorizationId)
          (fun w => paymentsController_captureAuthorizedPayment R w authorizationId).

Definition authorizeOrder (id : string) : M W Order :=
  command (AuthorizeOrder id) (fun w => ordersController_authorizeOrder R w id).

Definition captureOrder (id : string) : M W Order :=
  let* orderDetails := retrieveOrder id in
  (* what follows the authorization branch *)
  let otherwise : M W Order :=
    let capture := first_capture orderDetails in
    if match capture with
       | Some c => Js.seq (capture_status c) "COMPLETED"
       | None => false
       end
    then ret orderDetails
    else if Js.seq (intent orderDetails) "CAPTURE"
            && Js.seq (status orderDetails) "APPROVED"
    then command (CaptureOrder id) (fun w => ordersController_captureOrder R w id)
    else throw (Js.Error ("Cannot capture order " ++ id ++ " in status "
                          ++ Js.show (status orderDetails) ++ " with intent "
                          ++ Js.show (intent orderDetails)))
  in
  let authorization := first_authorization orderDetails in
  match authorization with
  | Some a =>
      match auth_id a with
      | Some authorizationId =>
          if negb (authorizationId =? "") && Js.seq (auth_status a) "CREATED"
          then
            let* capturedPayment := captureAuthorization authorizationId in
            let* updatedOrder := retrieveOrder id in
            ret updatedOrder
          else otherwise
      | None => otherwise
      end
  | None => otherwise
  end.

Fixpoint refundPayment (captureIds : list string) : M W (list Refund) :=
  match captureIds with
  | [] => ret []
  | captureId :: rest =>
      let* refund := command (RefundCapturedPayment captureId)
                             (fun w => paymentsController_refundCapturedPayment R w captureId) in
      let* refunds := refundPayment rest in
      ret (refund :: refunds)
  end.

Definition verifyWebhook (headers : gmap string string) (body : WebhookBody)
  : M W (string * WebhookBody) :=
  match webhookId with
  | Some wid =>
      if wid =? "" then
        throw (Js.MedusaError Js.INVALID_DATA "Webhook ID is not set")
      else
        let* accessToken := getAccessToken in
        let req := {| auth_algo := headers !! "paypal-auth-algo";
                      cert_url := headers !! "paypal-cert-url";
                      transmission_id := headers !! "paypal-transmission-id";
                      transmission_sig := headers !! "paypal-transmission-sig";
                      transmission_time := headers !! "paypal-transmission-time";
                      webhook_id := wid;
                      webhook_event := body |} in
        let* verifyWebhookRes :=
          query (VerifyWebhookSignature req)
                (fun w =>
                   match fetch_verify_webhook_signature R w accessToken req with
                   | FetchRejected e => inl e
                   | FetchResponse ok statusText json =>
                       inr (ok, statusText, json)
                   end) in
        let '(ok, statusText, json) := verifyWebhookRes in
        if negb ok then
          throw (Js.Error ("Failed to verify webhook signature: "
                           ++ statusText))
        else
          let* verifyWebhookData := lift json in
          let* verification_status :=
            lift (Js.get verifyWebhookData "verification_status") in
          if negb (Js.is_str verification_status "SUCCESS") then
            throw (Js.Error "Failed to verify webhook signature")
          else ret ("SUCCESS", body)
  | None => throw (Js.MedusaError Js.INVALID_DATA "Webhook ID is not set")
  end.

(** [formatAmount]: [Math.round(amount * 100) / 100] printed by
    [toFixed(2)]. *)
Definition formatAmount (amount : float) : string :=
  let rounded :=
    PrimFloat.div (Num.Math_round (PrimFloat.mul amount 100%float)) 100%float in
  Num.toFixed rt rounded 2.

End Client.

End PaypalService.

(* ===================================================================== *)
(** ** The host framework's enumerations *)
(* ===================================================================== *)

Module PaymentSessionStatus.
Inductive t :=
| AUTHORIZED | CAPTURED | PENDING | REQUIRES_MORE | ERROR | CANCELED.
End PaymentSessionStatus.

Module PaymentActions.
(** [SUCCESSFUL] is the action the host names "captured". *)
Inductive t :=
| AUTHORIZED | SUCCESSFUL | FAILED | PENDING | REQUIRES_MORE | CANCELED
| NOT_SUPPORTED.
End PaymentActions.

(* ===================================================================== *)
(** ** [PaypalModuleService]: the payment provider (service.ts) *)
(* ===================================================================== *)

(** The provider-specific data blob of an inbound call. *)
Record PaymentData := {
  data_id : option string;
  data_amount : option float;
  data_currency_code : option string;
  data_purchaseUnits : option (list PurchaseUnit);
}.

Record PaymentInput := {
  data : option PaymentData;
}.

(** [{ ...input.data, ...order, status, captured_at }]. *)
Record CapturePaymentOutput := {
  capture_input : PaymentData;
  capture_order : Order;
  capture_session_status : PaymentSessionStatus.t;
  captured_at : string;
}.

Record AuthorizePaymentOutput := {
  authorize_data : Order;
  authorize_status : PaymentSessionStatus.t;
}.

Record RefundPaymentOutput := {
  refund_order_id : string;
  refund_session_status : PaymentSessionStatus.t;
  cancelled_at : string;
}.

Inductive RawData :=
| RawString (s : string)
| RawBuffer (bytes : list Byte.byte).

Record WebhookPayload := {
  headers : gmap string string;
  rawData : RawData;
}.

Record WebhookEvent := {
  event_headers : gmap string string;
  event_body : WebhookBody;
}.

Record WebhookData := {
  session_id : Js.value;
  amount : float;
}.

Record WebhookActionResult := {
  action : PaymentActions.t;
  action_data : option WebhookData;
}.

Module PaypalModuleService.

(** [validatePayPalOrderId]. *)
Definition validatePayPalOrderId (orderId : option string) : bool :=
  if negb (Js.truthy_str orderId) then false
  else match orderId with
       | Some s => IdPattern.orderIdPattern s
       | None => false
       end.

(** [validatePayPalCaptureId]. *)
Definition validatePayPalCaptureId (captureId : option string) : bool :=
  if negb (Js.truthy_str captureId) then false
  else match captureId with
       | Some s => IdPattern.captureIdPattern s
       | None => false
       end.

(** [order?.purchaseUnits?.[0].payments]: the element access is not
    guarded, so an empty list of purchase units throws. *)
Definition unit0_payments (o : Order) : Js.exn + option PaymentCollection :=
  match purchaseUnits o with
  | None => inr None
  | Some [] =>
      inl (Js.TypeError
             "Cannot read properties of undefined (reading 'payments')")
  | Some (u :: _) => inr (payments u)
  end.

(** [order?.purchaseUnits?.[0].payments?.authorizations?.[0]]. *)
Definition unit0_authorization (o : Order) : Js.exn + option Authorization :=
  match unit0_payments o with
  | inl e => inl e
  | inr (Some p) => inr (Js.first (authorizations p))
  | inr None => inr None
  end.

(** [order?.purchaseUnits?.[0].payments?.captures?.[0]]. *)
Definition unit0_capture (o : Order) : Js.exn + option Capture :=
  match unit0_payments o with
  | inl e => inl e
  | inr (Some p) => inr (Js.first (captures p))
  | inr None => inr None
  end.

(** The capture identifiers of a refund request:
    [purchaseUnits.flatMap(item => item?.payments?.captures?.map(c => c.id))
     .filter(id => id !== undefined)]. *)
Definition captureIds_of (units : list PurchaseUnit) : list string :=
  let ids : list (option string) :=
    flat_map (fun item =>
                match payments item with
                | Some p =>
                    match captures p with
                    | Some cs => map capture_id cs
                    | None => [None]
                    end
                | None => [None]
                end) units in
  flat_map (fun i => match i with Some s => [s] | None => [] end) ids.

Definition requiredHeaders : list string :=
  [ "paypal-auth-algo";
    "paypal-cert-url";
    "paypal-transmission-id";
    "paypal-transmission-sig";
    "paypal-transmission-time" ].

(** The loop over [requiredHeaders]: the first one that is missing (or
    empty) is reported. *)
Fixpoint check_headers (hs : gmap string string) (names : list string)
  : Js.exn + unit :=
  match names with
  | [] => inr tt
  | header :: rest =>
      if negb (Js.truthy_str (hs !! header)) then
        inl (Js.MedusaError Js.INVALID_DATA
               ("Missing required PayPal webhook header: " ++ header))
      else check_headers hs rest
  end.

(** [body.k] on a webhook body; a [Buffer] has none of the properties read. *)
Definition body_get (b : WebhookBody) (k : string) : Js.exn + Js.value :=
  match b with
  | BodyJson j => Js.get j k
  | BodyBuffer _ => inr None
  end.

(** The [switch (eventType)] of [getWebhookActionAndData]. *)
Definition webhookAction (eventType sessionId : Js.value) (amount : float)
  : WebhookActionResult :=
  let with_data a :=
    {| action := a;
       action_data := Some {| session_id := sessionId; amount := amount |} |} in
  if Js.is_str eventType "PAYMENT.CAPTURE.COMPLETED" then
    with_data PaymentActions.SUCCESSFUL
  else if Js.is_str eventType "PAYMENT.CAPTURE.PENDING" then
    with_data PaymentActions.PENDING
  else if Js.is_str eventType "PAYMENT.CAPTURE.DENIED"
          || Js.is_str eventType "PAYMENT.CAPTURE.FAILED" then
    with_data PaymentActions.FAILED
  else if Js.is_str eventType "PAYMENT.AUTHORIZATION.CREATED" then
    with_data PaymentActions.AUTHORIZED
  else if Js.is_str eventType "PAYMENT.AUTHORIZATION.VOIDED" then
    with_data PaymentActions.CANCELED
  else if Js.is_str eventType "CHECKOUT.ORDER.APPROVED" then
    with_data PaymentActions.REQUIRES_MORE
  else if Js.is_str eventType "CHECKOUT.PAYMENT-APPROVAL.REVERSED" then
    with_data PaymentActions.FAILED
  else if Js.is_str eventType "PAYMENT.CAPTURE.REFUNDED"
          || Js.is_str eventType "PAYMENT.REFUND.COMPLETED" then
    with_data PaymentActions.SUCCESSFUL
  else
    {| action := PaymentActions.NOT_SUPPORTED; action_data := None |}.

Section Provider.

Context {W : Type}.
Variable R : Remote W.
Variable rt : Js.Runtime.
Variable webhookId : option string.

(** [capturePayment]; [now] is what [new Date().toISOString()] returns. *)
Definition capturePayment (now : string) (input : PaymentInput)
  : M W CapturePaymentOutput :=
  try_catch
    (match data input with
     | None =>
         throw (Js.MedusaError Js.INVALID_DATA "Payment data is required")
     | Some input_data =>
         match data_id input_data with
         | Some orderId =>
             if orderId =? "" then
               throw (Js.MedusaError Js.INVALID_DATA
                        "PayPal order ID is required to capture payment")
             else if negb (validatePayPalOrderId (Some orderId)) then
               throw (Js.MedusaError Js.INVALID_DATA
                        "Invalid PayPal order ID format")
             else
               let captured (order : Order) :=
                 {| capture_input := input_data;
                    capture_order := order;
                    capture_session_status := PaymentSessionStatus.CAPTURED;
                    captured_at :=
                      match Js.or_str (first_capture_time order) (Some now)
                      with Some t => t | None => now end |} in
               let* orderDetails := PaypalService.retrieveOrder R orderId in
               if Js.seq (status orderDetails) "COMPLETED" then
                 ret (captured orderDetails)
               else
                 let authorization := first_authorization orderDetails in
                 if match authorization with
                    | Some a => Js.seq (auth_status a) "CREATED"
                    | None => false
                    end
                 then
                   let* capturedOrder :=
                     PaypalService.captureOrder R orderId in
                   ret (captured capturedOrder)
                 else if Js.seq (status orderDetails) "APPROVED" then
                   let* capturedOrder :=
                     PaypalService.captureOrder R orderId in
                   ret (captured capturedOrder)
                 else
                   throw (Js.MedusaError Js.INVALID_DATA
                            ("PayPal order " ++ orderId ++ " is in status "
                             ++ Js.show (status orderDetails)
                             ++ " with no valid authorization, cannot capture"))
         | None =>
             throw (Js.MedusaError Js.INVALID_DATA
                      "PayPal order ID is required to capture payment")
         end
     end)
    (fun error =>
       throw (Js.MedusaError Js.INVALID_DATA
                ("Failed to capture PayPal payment: " ++ Js.message error))).

(** The message of the error raised when the authorize call fails:
    [errorBody?.message || "Failed to authorize payment"], where
    [errorBody] is [JSON.parse(error.body)] when the error has a body. *)
Definition authorize_error_message (error : Js.exn) : Js.exn + string :=
  let described (errorBody : Js.json) : string :=
    match Js.or_else (Js.opt_get (Some errorBody) "message")
                     (Some (Js.JStr "Failed to authorize payment")) with
    | Some (Js.JStr s) => s
    | Some v => Js.ToString rt v
    | None => "undefined"
    end in
  if Js.truthy_str (Js.body error) then
    match Js.JSON_parse rt (Js.show (Js.body error)) with
    | Some errorBody => inr (described errorBody)
    | None => inl (Js.SyntaxError "Unexpected token in JSON")
    end
  else inr (described (Js.JObj [])).

Definition authorizePayment (input : PaymentInput)
  : M W AuthorizePaymentOutput :=
  match data input with
  | None => throw (Js.MedusaError Js.INVALID_DATA "Payment data is required")
  | Some input_data =>
      let amount := data_amount input_data in
      let currencyCode := data_currency_code input_data in
      match data_id input_data with
      | Some orderId =>
          if (orderId =? "") || negb (Js.truthy_num amount)
             || negb (Js.truthy_str currencyCode)
          then
            throw (Js.MedusaError Js.INVALID_DATA
              "PayPal order ID, Amount or Currency is missing, can not authorize order.")
          else
            let* paypalData :=
              try_catch (PaypalService.retrieveOrder R orderId)
                (fun error =>
                   throw (Js.MedusaError Js.INVALID_DATA
                            "Failed to retrieve PayPal order status")) in
            let orderStatus := status paypalData in
            let* authorizationData := lift (unit0_authorization paypalData) in
            let* captureData := lift (unit0_capture paypalData) in
            let answer (order : Order) (s : PaymentSessionStatus.t) :=
              {| authorize_data := order; authorize_status := s |} in
            if Js.seq orderStatus "APPROVED" then
              try_catch
                (let* authorizedOrder :=
                   PaypalService.authorizeOrder R orderId in
                 let* newAuthData :=
                   lift (unit0_authorization authorizedOrder) in
                 if match newAuthData with
                    | Some a => Js.seq (auth_status a) "CREATED"
                    | None => false
                    end
                 then ret (answer authorizedOrder
                                  PaymentSessionStatus.AUTHORIZED)
                 else if match newAuthData with
                         | Some a => Js.seq (auth_status a) "CAPTURED"
                         | None => false
                         end
                 then ret (answer authorizedOrder
                                  PaymentSessionStatus.AUTHORIZED)
                 else
                   let* captureData :=
                     lift (unit0_capture authorizedOrder) in
                   match captureData with
                   | Some _ => ret (answer authorizedOrder
                                           PaymentSessionStatus.AUTHORIZED)
                   | None => ret (answer authorizedOrder
                                         PaymentSessionStatus.ERROR)
                   end)
                (fun error =>
                   let* errorMessage := lift (authorize_error_message error) in
                   throw (Js.MedusaError Js.INVALID_DATA
                            ("PayPal authorization failed: " ++ errorMessage)))
            else if match authorizationData with
                    | Some a => Js.seq (auth_status a) "CREATED"
                    | None => false
                    end
            then ret (answer paypalData PaymentSessionStatus.AUTHORIZED)
            else if Js.seq orderStatus "COMPLETED"
                    || match captureData with
                       | Some c => Js.seq (capture_status c) "COMPLETED"
                       | None => false
                       end
            then ret (answer paypalData PaymentSessionStatus.CAPTURED)
            else if Js.seq orderStatus "CREATED" then
              ret (answer paypalData PaymentSessionStatus.PENDING)
            else ret (answer paypalData PaymentSessionStatus.ERROR)
      | None =>
          throw (Js.MedusaError Js.INVALID_DATA
            "PayPal order ID, Amount or Currency is missing, can not authorize order.")
      end
  end.

Definition refundPayment (now : string) (input : PaymentInput)
  : M W RefundPaymentOutput :=
  try_catch
    (match data input with
     | None =>
         throw (Js.MedusaError Js.INVALID_DATA "Payment data is required")
     | Some input_data =>
         let orderId := data_id input_data in
         let purchaseUnits :=
           match data_purchaseUnits input_data with
           | Some units => units
           | None => []
           end in
         let captureIds := captureIds_of purchaseUnits in
         match orderId, captureIds with
         | Some order_id, _ :: _ =>
             if order_id =? "" then
               throw (Js.MedusaError Js.INVALID_DATA
                 "Refund payment failed! PayPal order ID and capture ID is required to refund payment")
             else if negb (validatePayPalOrderId orderId) then
               throw (Js.MedusaError Js.INVALID_DATA
                        "Invalid PayPal order ID format")
             else if negb (forallb (fun captureId =>
                                      validatePayPalCaptureId (Some captureId))
                                   captureIds) then
               throw (Js.MedusaError Js.INVALID_DATA
                        "Invalid PayPal capture ID format")
             else
               let* _ := PaypalService.refundPayment R captureIds in
               ret {| refund_order_id := order_id;
                      refund_session_status := PaymentSessionStatus.CANCELED;
                      cancelled_at := now |}
         | _, _ =>
             throw (Js.MedusaError Js.INVALID_DATA
               "Refund payment failed! PayPal order ID and capture ID is required to refund payment")
         end
     end)
    (fun error =>
       throw (Js.MedusaError Js.INVALID_DATA "Failed to refund PayPal payment")).

Definition getPaymentStatus (input : PaymentInput)
  : M W PaymentSessionStatus.t :=
  try_catch
    (match data input with
     | None =>
         throw (Js.MedusaError Js.INVALID_DATA "Payment data is required")
     | Some input_data =>
         match data_id input_data with
         | Some order_id =>
             if order_id =? "" then
               throw (Js.MedusaError Js.INVALID_DATA
                        "PayPal order ID is required to get payment status")
             else if negb (validatePayPalOrderId (Some order_id)) then
               throw (Js.MedusaError Js.INVALID_DATA
                        "Invalid PayPal order ID format")
             else
               let* order := PaypalService.retrieveOrder R order_id in
               if negb (Js.truthy_str (status order)) then
                 throw (Js.MedusaError Js.NOT_FOUND
                          ("PayPal order with ID " ++ order_id ++ " not found"))
               else
                 ret (if Js.seq (status order) "COMPLETED"
                      then PaymentSessionStatus.CAPTURED
                      else PaymentSessionStatus.AUTHORIZED)
         | None =>
             throw (Js.MedusaError Js.INVALID_DATA
                      "PayPal order ID is required to get payment status")
         end
     end)
    (fun error => throw error).

(** [retrievePayment]: its input is the data blob itself. *)
Definition retrievePayment (input : PaymentData) : M W Order :=
  try_catch
    (match data_id input with
     | Some id =>
         if (id =? "") || negb (validatePayPalOrderId (Some id)) then
           throw (Js.MedusaError Js.INVALID_DATA "Invalid PayPal order ID")
         else
           let* res := PaypalService.retrieveOrder R id in
           ret res
     | None =>
         throw (Js.MedusaError Js.INVALID_DATA "Invalid PayPal order ID")
     end)
    (fun error => throw error).

Definition constructWebhookEvent (payload : WebhookPayload)
  : Js.exn + WebhookEvent :=
  let hs := headers payload in
  match check_headers hs requiredHeaders with
  | inl e => inl e
  | inr _ =>
      match rawData payload with
      | RawString s =>
          match Js.JSON_parse rt s with
          | Some webhookEvent =>
              inr {| event_headers := hs;
                     event_body := BodyJson webhookEvent |}
          | None =>
              inl (Js.MedusaError Js.INVALID_DATA
                     "Invalid webhook payload format")
          end
      | RawBuffer b =>
          inr {| event_headers := hs; event_body := BodyBuffer b |}
      end
  end.

Definition getWebhookActionAndData (payload : WebhookPayload)
  : M W WebhookActionResult :=
  try_catch
    (let* event := lift (constructWebhookEvent payload) in
     let* _ := PaypalService.verifyWebhook R webhookId
                 (event_headers event) (event_body event) in
     let* eventType := lift (body_get (event_body event) "event_type") in
     let* resource := lift (body_get (event_body event) "resource") in
     let sessionId := Js.or_else (Js.opt_get resource "custom_id")
                                 (Js.opt_get resource "invoice_id") in
     let amount :=
       match Js.opt_get (Js.opt_get resource "amount") "value" with
       | Some v => if Js.truthy (Some v) then Js.ToNumber rt v else 0%float
       | None => 0%float
       end in
     ret (webhookAction eventType sessionId amount))
    (fun error =>
       ret {| action := PaymentActions.FAILED; action_data := None |}).

End Provider.

End PaypalModuleService.

(* ===================================================================== *)
(** ** A small processor to run the operations against *)
(* ===================================================================== *)

Module Fixture.

(** The processor's state: its orders by identifier. *)
Abbreviation World := (gmap string Order).

Definition not_found : Js.exn :=
  Js.ApiError "RESOURCE_NOT_FOUND" None.

Definition unprocessable : Js.exn :=
  Js.ApiError "UNPROCESSABLE_ENTITY" None.

Definition with_payments (o : Order) (st : string) (p : PaymentCollection)
  : Order :=
  {| id := id o; status := Some st; intent := intent o;
     purchaseUnits := Some [ {| payments := Some p |} ] |}.

Definition new_authorization : Authorization :=
  {| auth_id := Some "0AU12345678901234"; auth_status := Some "CREATED" |}.

Definition new_capture : Capture :=
  {| capture_id := Some "0CP12345678901234";
     capture_status := Some "COMPLETED";
     createTime := Some "2025-09-10T10:00:00Z" |}.

(** Does the first authorization of [o] have identifier [authorizationId]
    and status CREATED? *)
Definition holds_open_authorization (authorizationId : string) (o : Order)
  : bool :=
  match first_authorization o with
  | Some a => Js.seq (auth_id a) authorizationId
              && Js.seq (auth_status a) "CREATED"
  | None => false
  end.

Definition settle (authorizationId : string) (o : Order) : Order :=
  if holds_open_authorization authorizationId o then
    with_payments o "COMPLETED"
      {| authorizations :=
           Some [ {| auth_id := Some authorizationId;
                     auth_status := Some "CAPTURED" |} ];
         captures := Some [ new_capture ] |}
  else o.

Definition remote : Remote World := {|
  ordersController_getOrder w id :=
    match w !! id with
    | Some o => inr o
    | None => inl not_found
    end;
  ordersController_authorizeOrder w id :=
    match w !! id with
    | Some o =>
        if Js.seq (status o) "APPROVED" && Js.seq (intent o) "AUTHORIZE" then
          let o' := with_payments o "COMPLETED"
                      {| authorizations := Some [ new_authorization ];
                         captures := None |} in
          (inr o', <[ id := o' ]> w)
        else (inl unprocessable, w)
    | None => (inl not_found, w)
    end;
  ordersController_captureOrder w id :=
    match w !! id with
    | Some o =>
        if Js.seq (status o) "APPROVED" && Js.seq (intent o) "CAPTURE" then
          let o' := with_payments o "COMPLETED"
                      {| authorizations := None;
                         captures := Some [ new_capture ] |} in
          (inr o', <[ id := o' ]> w)
        else (inl unprocessable, w)
    | None => (inl not_found, w)
    end;
  paymentsController_captureAuthorizedPayment w authorizationId :=
    if existsb (fun kv => holds_open_authorization authorizationId kv.2)
               (map_to_list w)
    then (inr new_capture, settle authorizationId <$> w)
    else (inl not_found, w);
  paymentsController_refundCapturedPayment w captureId :=
    (inr {| refund_id := Some "0RF12345678901234";
            refund_status := Some "COMPLETED" |}, w);
  authController_requestToken w := inr (Some "A21AAFexampletoken");
  fetch_verify_webhook_signature w token req :=
    FetchResponse true "OK"
      (inr (Js.JObj
              [ ("verification_status",
                 Js.JStr (if Js.seq (transmission_sig req) "good-signature"
                          then "SUCCESS" else "FAILURE")) ]))
|}.

Definition dq : string := String (ascii_of_nat 34) EmptyString.

Definition quoted (s : string) : string := dq ++ s ++ dq.

(** The raw text of an event of type [event_type] for session [custom_id]
    and the value [JSON.parse] gives for it. *)
Definition event_text (event_type custom_id : string) : string :=
  "{" ++ quoted "event_type" ++ ":" ++ quoted event_type ++ ","
  ++ quoted "resource" ++ ":{" ++ quoted "custom_id" ++ ":"
  ++ quoted custom_id ++ "," ++ quoted "amount" ++ ":{"
  ++ quoted "value" ++ ":" ++ quoted "10.00" ++ "}}}".

Definition event_json (event_type custom_id : string) : Js.json :=
  Js.JObj
    [ ("event_type", Js.JStr event_type);
      ("resource",
       Js.JObj [ ("custom_id", Js.JStr custom_id);
                 ("amount", Js.JObj [ ("value", Js.JStr "10.00") ]) ]) ].

Definition known_event_types : list string :=
  [ "PAYMENT.CAPTURE.COMPLETED"; "PAYMENT.CAPTURE.DENIED";
    "PAYMENT.AUTHORIZATION.CREATED"; "CHECKOUT.ORDER.CANCELLED";
    "UNKNOWN.EVENT.TYPE" ].

(** A runtime that parses the events above (for session "payses_01") and
    the text [null], and rejects every other text. *)
Definition rt : Js.Runtime := {|
  Js.JSON_parse s :=
    if s =? "null" then Some Js.JNull
    else
      match find (fun t => event_text t "payses_01" =? s) known_event_types
      with
      | Some t => Some (event_json t "payses_01")
      | None => None
      end;
  Js.ToString v := "[object Object]";
  Js.ToNumber v :=
    match v with
    | Js.JNum n => n
    | Js.JStr s => if s =? "10.00" then 10%float else nan
    | _ => nan
    end;
  Js.Number_toString x := "1e+21";
  Js.String_trim s := s
|}.

Definition signed_headers (signature : string) : gmap string string :=
  <[ "paypal-auth-algo" := "SHA256withRSA" ]>
  (<[ "paypal-cert-url" := "https://api.sandbox.paypal.com/cert.pem" ]>
  (<[ "paypal-transmission-id" := "test-transmission-id" ]>
  (<[ "paypal-transmission-sig" := signature ]>
  (<[ "paypal-transmission-time" := "2024-01-01T00:00:00Z" ]> ∅)))).

Definition webhook (signature event_type : string) : WebhookPayload :=
  {| headers := signed_headers signature;
     rawData := RawString (event_text event_type "payses_01") |}.

Definition order_id : string := "5O190127TN364715T".

Definition order (st it : string) (auths : option (list Authorization))
           (caps : option (list Capture)) : Order :=
  {| id := Some order_id; status := Some st; intent := Some it;
     purchaseUnits :=
       Some [ {| payments := Some {| authorizations := auths;
                                     captures := caps |} |} ] |}.

(** A processor state holding one order, and no call made yet. *)
Definition start (o : Order) : St World :=
  mkSt (<[ order_id := o ]> ∅) [].

Definition input_for (orderId : string) : PaymentInput :=
  {| data := Some {| data_id := Some orderId;
                     data_amount := Some 10%float;
                     data_currency_code := Some "USD";
                     data_purchaseUnits := None |} |}.

(** The order as the processor reports it once it has been authorized: an
    authorization with status CREATED under an order that is COMPLETED. *)
Definition authorized_order : Order :=
  order "COMPLETED" "AUTHORIZE" (Some [ new_authorization ]) None.



Definition approved_order : Order := order "APPROVED" "AUTHORIZE" None None.

Definition created_order : Order := order "CREATED" "AUTHORIZE" None None.

Definition voided_order : Order := order "VOIDED" "AUTHORIZE" None None.

Definition completed_order : Order :=
  order "COMPLETED" "CAPTURE" None (Some [ new_capture ]).

End Fixture.

(* ===================================================================== *)
(** ** Vocabulary of the statements *)
(* ===================================================================== *)

(** What [capturePayment] reports for [order] at clock reading [now]. *)
Definition captured_report (input_data : PaymentData) (order : Order)
           (now : string) : CapturePaymentOutput :=
  {| capture_input := input_data;
     capture_order := order;
     capture_session_status := PaymentSessionStatus.CAPTURED;
     captured_at := if Js.truthy_str (first_capture_time order)
                    then Js.show (first_capture_time order) else now |}.

(** No call of the list moves funds or changes the processor's state. *)
Definition read_only (cs : list Call) : bool :=
  forallb (fun c => negb (mutating c)) cs.

(** The identifier of the authorization [captureOrder] would capture: the
    first authorization of the first purchase unit, when it has a non-empty
    identifier and status CREATED. *)
Definition capturable_authorization (o : Order) : option string :=
  match first_authorization o with
  | Some a =>
      if Js.truthy_str (auth_id a) && Js.seq (auth_status a) "CREATED"
      then auth_id a else None
  | None => None
  end.

(** The signature endpoint answered with an explicit SUCCESS. *)
Definition verified (out : FetchOutcome) : bool :=
  match out with
  | FetchResponse true _ (inr j) =>
      match Js.get j "verification_status" with
      | inr v => Js.is_str v "SUCCESS"
      | inl _ => false
      end
  | _ => false
  end.

(** The first authorization of the first purchase unit has status CREATED. *)
Definition has_open_authorization (o : Order) : bool :=
  match first_authorization o with
  | Some a => Js.seq (auth_status a) "CREATED"
  | None => false
  end.

(** The first capture of the first purchase unit has status COMPLETED. *)
Definition has_completed_capture (o : Order) : bool :=
  match first_capture o with
  | Some c => Js.seq (capture_status c) "COMPLETED"
  | None => false
  end.

(** The status [authorizePayment] reports for a retrieved order that is
    not APPROVED. *)
Definition reconciled_status (o : Order) : PaymentSessionStatus.t :=
  if has_open_authorization o then PaymentSessionStatus.AUTHORIZED
  else if Js.seq (status o) "COMPLETED" || has_completed_capture o
  then PaymentSessionStatus.CAPTURED
  else if Js.seq (status o) "CREATED" then PaymentSessionStatus.PENDING
  else PaymentSessionStatus.ERROR.

(** The status [authorizePayment] reports for what the authorize call
    returned. *)
Definition authorized_status (o' : Order) : PaymentSessionStatus.t :=
  match first_authorization o' with
  | Some a =>
      if Js.seq (auth_status a) "CREATED" || Js.seq (auth_status a) "CAPTURED"
      then PaymentSessionStatus.AUTHORIZED
      else match first_capture o' with
           | Some _ => PaymentSessionStatus.AUTHORIZED
           | None => PaymentSessionStatus.ERROR
           end
  | None =>
      match first_capture o' with
      | Some _ => PaymentSessionStatus.AUTHORIZED
      | None => PaymentSessionStatus.ERROR
      end
  end.

(** What the [catch] around the authorize call throws for the error [e]. *)
Definition authorize_failure {W} (rt : Js.Runtime) (e : Js.exn) (s : St W)
  : (Js.exn + AuthorizePaymentOutput) * St W :=
  match PaypalModuleService.authorize_error_message rt e with
  | inl thrown => (inl thrown, s)
  | inr errorMessage =>
      (inl (Js.MedusaError Js.INVALID_DATA
              ("PayPal authorization failed: " ++ errorMessage)), s)
  end.

(** The event types the [switch] of [getWebhookActionAndData] names. *)
Definition switch_cases : list string :=
  [ "PAYMENT.CAPTURE.COMPLETED"; "PAYMENT.CAPTURE.PENDING";
    "PAYMENT.CAPTURE.DENIED"; "PAYMENT.CAPTURE.FAILED";
    "PAYMENT.AUTHORIZATION.CREATED"; "PAYMENT.AUTHORIZATION.VOIDED";
    "CHECKOUT.ORDER.APPROVED"; "CHECKOUT.PAYMENT-APPROVAL.REVERSED";
    "PAYMENT.CAPTURE.REFUNDED"; "PAYMENT.REFUND.COMPLETED" ].

(** What the [catch] of [getWebhookActionAndData] returns. *)
Definition webhook_failed : WebhookActionResult :=
  {| action := PaymentActions.FAILED; action_data := None |}.

(** [resource?.custom_id || resource?.invoice_id]. *)
Definition session_of (resource : Js.value) : Js.value :=
  Js.or_else (Js.opt_get resource "custom_id")
             (Js.opt_get resource "invoice_id").

(** [resource?.amount?.value ? Number(resource.amount.value) : 0]. *)
Definition amount_of (rt : Js.Runtime) (resource : Js.value) : float :=
  match Js.opt_get (Js.opt_get resource "amount") "value" with
  | Some v => if Js.truthy (Some v) then Js.ToNumber rt v else 0%float
  | None => 0%float
  end.

(** The request [verifyWebhook] sends for the headers [hs] and the body
    [body] under the configured webhook identifier [wid]. *)
Definition verify_request (wid : string) (hs : gmap string string)
           (body : WebhookBody) : VerifyRequest :=
  {| auth_algo := hs !! "paypal-auth-algo";
     cert_url := hs !! "paypal-cert-url";
     transmission_id := hs !! "paypal-transmission-id";
     transmission_sig := hs !! "paypal-transmission-sig";
     transmission_time := hs !! "paypal-transmission-time";
     webhook_id := wid;
     webhook_event := body |}.

(** The number is finite and of magnitude below 1e21: [toFixed] prints it
    digit by digit. *)
Definition below_1e21 (x : float) : bool :=
  match Prim2SF x with
  | S754_zero _ => true
  | S754_finite _ m e => negb (Num.ge_1e21 m e)
  | _ => false
  end.

Fixpoint has_char (c : ascii) (s : string) : bool :=
  match s with
  | EmptyString => false
  | String c' rest => Ascii.eqb c' c || has_char c rest
  end.

Definition is_digit (c : ascii) : bool :=
  let n := nat_of_ascii c in (48 <=? n)%nat && (n <=? 57)%nat.

Fixpoint all_digits (s : string) : bool :=
  match s with
  | EmptyString => true
  | String c rest => is_digit c && all_digits rest
  end.

(** A decimal numeral with exactly two digits after the point. *)
Definition two_decimals (s : string) : Prop :=
  exists sign whole cents,
    s = sign ++ whole ++ "." ++ cents
    /\ (sign = "" \/ sign = "-")
    /\ whole <> "" /\ all_digits whole = true
    /\ String.length cents = 2%nat /\ all_digits cents = true.

(* ===================================================================== *)
(** ** [RateLimiter] (utils/security.ts) *)
(* ===================================================================== *)

Module RateLimiter.

(** Times are [Date.now()] readings in milliseconds and counts are request
    counts: integers, kept as [Z]; so is the window, a whole number of
    milliseconds. *)
Record ClientData := {
  count : Z;
  resetTime : Z;
}.

(** The limit is any number.  A number is kept by its value: a rational
    when it is finite (every finite double is one), an infinity or NaN. *)
Inductive Number :=
| Finite (q : Q)
| PlusInfinity
| MinusInfinity
| NotANumber.

(** The number of an integer. *)
Definition whole (z : Z) : Number := Finite (inject_Z z).

(** [count >= n] for an integer [count]. *)
Definition ge (count : Z) (n : Number) : bool :=
  match n with
  | Finite q => Qle_bool q (inject_Z count)
  | MinusInfinity => true
  | PlusInfinity | NotANumber => false
  end.

Record t := {
  store : gmap string ClientData;
  limit : Number;
  windowMs : Z;
}.

(** [new RateLimiter(limit, windowMs)]; the defaults are 10 and 60000. *)
Definition create (limit : Number) (windowMs : Z) : t :=
  {| store := ∅; limit := limit; windowMs := windowMs |}.

Definition with_store (rl : t) (m : gmap string ClientData) : t :=
  {| store := m; limit := limit rl; windowMs := windowMs rl |}.

(** [isRateLimited(clientId)] at the clock reading [now]: the answer and
    the limiter afterwards. *)
Definition isRateLimited (now : Z) (clientId : string) (rl : t) : bool * t :=
  let opened := {| count := 1; resetTime := now + windowMs rl |} in
  match store rl !! clientId with
  | None => (false, with_store rl (<[ clientId := opened ]> (store rl)))
  | Some clientData =>
      if (resetTime clientData <? now)%Z then
        (false, with_store rl (<[ clientId := opened ]> (store rl)))
      else if ge (count clientData) (limit rl) then (true, rl)
      else
        (false,
         with_store rl
           (<[ clientId := {| count := count clientData + 1;
                              resetTime := resetTime clientData |} ]>
              (store rl)))
  end.

(** [cleanup()] at the clock reading [now]: the entries whose window has
    passed are deleted. *)
Definition cleanup (now : Z) (rl : t) : t :=
  with_store rl (filter (fun kv => (now <= resetTime kv.2)%Z) (store rl)).

(** A history of uses of one limiter. *)
Inductive Use :=
| Hit (now : Z) (clientId : string)
| Sweep (now : Z).

(** The limiter after the history [uses], and the answers it gave to the
    requests of [clientId], in order. *)
Fixpoint answers (clientId : string) (uses : list Use) (rl : t)
  : list bool * t :=
  match uses with
  | [] => ([], rl)
  | Hit now c :: rest =>
      let (limited, rl') := isRateLimited now c rl in
      let (later, rl'') := answers clientId rest rl' in
      (if String.eqb c clientId then limited :: later else later, rl'')
  | Sweep now :: rest => answers clientId rest (cleanup now rl)
  end.

(** How many requests of [clientId] the history holds. *)
Fixpoint hits (clientId : string) (uses : list Use) : nat :=
  match uses with
  | [] => 0
  | Hit _ c :: rest =>
      if String.eqb c clientId then S (hits clientId rest)
      else hits clientId rest
  | Sweep _ :: rest => hits clientId rest
  end.

(** Every use that can touch the window of [clientId] (a request of its
    own, a sweep) happens no later than [deadline]. *)
Fixpoint within (clientId : string) (deadline : Z) (uses : list Use) : bool :=
  match uses with
  | [] => true
  | Hit now c :: rest =>
      (negb (String.eqb c clientId) || (now <=? deadline)%Z)
      && within clientId deadline rest
  | Sweep now :: rest => (now <=? deadline)%Z && within clientId deadline rest
  end.

(** What every stored entry satisfies, for a limiter created with the
    limit [l] and the window [w] whose requests so far are among [known]:
    its count is at least 1 and, for a finite limit, at most the least
    integer that is not below the limit (or 1, if that is less); and its
    window ends [w] after a request of its client. *)
Definition entry_ok (l : Number) (w : Z) (known : list Use) (c : string)
           (e : ClientData) : Prop :=
  (1 <= count e)%Z
  /\ match l with
     | Finite q => (count e <= Z.max 1 (Qceiling q))%Z
     | MinusInfinity => count e = 1%Z
     | PlusInfinity | NotANumber => True
     end
  /\ exists now, In (Hit now c) known /\ resetTime e = (now + w)%Z.

End RateLimiter.

(* ===================================================================== *)
(** ** [PaypalModuleService]: the operations that make no remote call *)
(* ===================================================================== *)

(** An error as [checkPaymentStatus] builds it; a field is [None] when the
    object has no such property. *)
Record PaypalPaymentError := {
  error_code : option string;
  error_message : option string;
  error_retryable : option bool;
  error_avsCode : option string;
  error_cvvCode : option string;
}.

Record ProcessorResponse := {
  response_avsCode : option string;
  response_cvvCode : option string;
  response_responseCode : option string;
}.

Record PaymentStatusCheck := {
  checked_status : string;
  checked_error : option PaypalPaymentError;
}.

(** The plugin options as [validateOptions] receives them. *)
Record PluginOptions := {
  option_clientId : option string;
  option_clientSecret : option string;
  option_isSandbox : option bool;
  option_webhookId : option string;
  option_includeShippingData : option bool;
  option_includeCustomerData : option bool;
}.

Module PaypalModuleServiceRest.

(** [cancelPayment]; the output has the shape of a refund's. *)
Definition cancelPayment {W} (now : string) (input : PaymentInput)
  : M W RefundPaymentOutput :=
  try_catch
    (match data input with
     | None =>
         throw (Js.MedusaError Js.INVALID_DATA "Payment data is required")
     | Some input_data =>
         match data_id input_data with
         | Some orderId =>
             if orderId =? "" then
               throw (Js.MedusaError Js.INVALID_DATA
                 "Cancel payment failed! PayPal order ID and capture ID is required to cancel payment")
             else
               ret {| refund_order_id := orderId;
                      refund_session_status := PaymentSessionStatus.CANCELED;
                      cancelled_at := now |}
         | None =>
             throw (Js.MedusaError Js.INVALID_DATA
               "Cancel payment failed! PayPal order ID and capture ID is required to cancel payment")
         end
     end)
    (fun error =>
       throw (Js.MedusaError Js.INVALID_DATA "Failed to cancel PayPal payment")).

Definition deletePayment {W} (now : string) (input : PaymentInput)
  : M W RefundPaymentOutput :=
  try_catch
    (match data input with
     | None =>
         throw (Js.MedusaError Js.INVALID_DATA "Payment data is required")
     | Some input_data =>
         match data_id input_data with
         | Some orderId =>
             if orderId =? "" then
               throw (Js.MedusaError Js.INVALID_DATA
                 "Delete payment failed! PayPal order ID and capture ID is required to cancel payment")
             else
               ret {| refund_order_id := orderId;
                      refund_session_status := PaymentSessionStatus.CANCELED;
                      cancelled_at := now |}
         | None =>
             throw (Js.MedusaError Js.INVALID_DATA
               "Delete payment failed! PayPal order ID and capture ID is required to cancel payment")
         end
     end)
    (fun error => throw error).

Definition updatePayment {W} (input : PaymentInput) : M W unit :=
  throw (Js.MedusaError Js.INVALID_DATA "Not implemented").

(** [processorResponseMap]. *)
Definition processorResponseMap : list (string * PaypalPaymentError) :=
  let entry c m r :=
    {| error_code := Some c; error_message := Some m;
       error_retryable := Some r;
       error_avsCode := None; error_cvvCode := None |} in
  [ ("0500", entry "0500 - DO_NOT_HONOR"
       "Card refused by issuer. Please try again or use a different card."
       false);
    ("9500", entry "9500 - SUSPECTED_FRAUD"
       "Suspected fraudulent card. Please try again and use a different card."
       false);
    ("5400", entry "5400 - EXPIRED_CARD"
       "Card has expired. Please try again and use a different card."
       false);
    ("5120", entry "5120 - INSUFFICIENT_FUNDS"
       "Insufficient funds. Please try again or use a different card."
       true);
    ("00N7", entry "00N7 - CVV_FAILURE"
       "Incorrect security code. Please try again or use a different card."
       true);
    ("1330", entry "1330 - INVALID_ACCOUNT"
       "Card not valid. Please try again or use a different card."
       true);
    ("5100", entry "5100 - GENERIC_DECLINE"
       "Card is declined. Please try again or use a different card."
       true) ].

(** The property names every object literal inherits from
    [Object.prototype]: [processorResponseMap[name]] is a truthy value for
    them too, one without enumerable properties of its own. *)
Definition inherited_names : list string :=
  [ "constructor"; "__defineGetter__"; "__defineSetter__"; "hasOwnProperty";
    "__lookupGetter__"; "__lookupSetter__"; "isPrototypeOf";
    "propertyIsEnumerable"; "toString"; "valueOf"; "__proto__";
    "toLocaleString" ].

Fixpoint lookup_response (name : string)
         (table : list (string * PaypalPaymentError))
  : option PaypalPaymentError :=
  match table with
  | [] => None
  | (k, v) :: rest => if k =? name then Some v else lookup_response name rest
  end.

(** [processorResponseMap[responseCode] || { code: responseCode, ... }],
    as the properties that the spread of it copies. *)
Definition errorDetails (responseCode : string) : PaypalPaymentError :=
  match lookup_response responseCode processorResponseMap with
  | Some details => details
  | None =>
      if existsb (String.eqb responseCode) inherited_names then
        {| error_code := None; error_message := None;
           error_retryable := None;
           error_avsCode := None; error_cvvCode := None |}
      else
        {| error_code := Some responseCode;
           error_message :=
             Some "Payment declined. Please try again or use a different card.";
           error_retryable := Some false;
           error_avsCode := None; error_cvvCode := None |}
  end.

Definition checkPaymentStatus (status : string)
           (processorResponse : option ProcessorResponse)
  : PaymentStatusCheck :=
  let declined :=
    {| error_code := Some "DECLINED";
       error_message :=
         Some "Payment declined. Please try again or use a different card.";
       error_retryable := Some false;
       error_avsCode := None; error_cvvCode := None |} in
  if status =? "COMPLETED" then
    {| checked_status := status; checked_error := None |}
  else if status =? "DECLINED" then
    match processorResponse with
    | Some response =>
        if Js.truthy_str (response_responseCode response) then
          let details :=
            errorDetails (Js.show (response_responseCode response)) in
          {| checked_status := status;
             checked_error :=
               Some {| error_code := error_code details;
                       error_message := error_message details;
                       error_retryable := error_retryable details;
                       error_avsCode := response_avsCode response;
                       error_cvvCode := response_cvvCode response |} |}
        else
          {| checked_status := status; checked_error := Some declined |}
    | None =>
        {| checked_status := status; checked_error := Some declined |}
    end
  else
    {| checked_status := status;
       checked_error :=
         Some {| error_code := Some "UNKNOWN_STATUS";
                 error_message :=
                   Some ("Unknown payment status: " ++ status
                         ++ ". Please try again or use a different card.");
                 error_retryable := Some false;
                 error_avsCode := None; error_cvvCode := None |} |}.

(** What [optionsSchema] asks of a property: [z.string().min(1)],
    [z.string().optional()] and [z.boolean().default(false)].  An absent
    property is [None]. *)
Definition z_string_min1 (v : Js.value) : bool :=
  match v with
  | Some (Js.JStr s) => (1 <=? String.length s)%nat
  | _ => false
  end.

Definition z_string_optional (v : Js.value) : bool :=
  match v with
  | None | Some (Js.JStr _) => true
  | _ => false
  end.

Definition z_boolean_default (v : Js.value) : bool :=
  match v with
  | None | Some (Js.JBool _) => true
  | _ => false
  end.

(** [optionsSchema.safeParse(options).success]: the options must be an
    object; properties the schema does not name are ignored. *)
Definition optionsSchema_success (options : Js.value) : bool :=
  match options with
  | Some (Js.JObj fields) =>
      z_string_min1 (Js.assoc "clientId" fields)
      && z_string_min1 (Js.assoc "clientSecret" fields)
      && z_boolean_default (Js.assoc "isSandbox" fields)
      && z_string_optional (Js.assoc "webhookId" fields)
      && z_boolean_default (Js.assoc "includeShippingData" fields)
      && z_boolean_default (Js.assoc "includeCustomerData" fields)
  | _ => false
  end.

(** [validateOptions], on the options as they are written in the
    configuration.  [describe] stands for the message of the schema
    library's error. *)
Definition validateOptions (describe : Js.value -> string)
           (options : Js.value) : Js.exn + unit :=
  if negb (optionsSchema_success options) then
    inl (Js.MedusaError Js.INVALID_DATA
           ("Invalid PayPal plugin options: " ++ describe options))
  else inr tt.

End PaypalModuleServiceRest.

(* ===================================================================== *)
(** ** Regular expressions, matched by derivatives *)
(* ===================================================================== *)

Module Regex.

Inductive t :=
| Never
| Empty
| Class (cls : ascii -> bool)
| Seq (r1 r2 : t)
| Alt (r1 r2 : t)
| Star (r : t).

(** [r+]. *)
Definition Plus (r : t) : t := Seq r (Star r).

Fixpoint nullable (r : t) : bool :=
  match r with
  | Never => false
  | Empty => true
  | Class _ => false
  | Seq r1 r2 => nullable r1 && nullable r2
  | Alt r1 r2 => nullable r1 || nullable r2
  | Star _ => true
  end.

Fixpoint derive (c : ascii) (r : t) : t :=
  match r with
  | Never => Never
  | Empty => Never
  | Class cls => if cls c then Empty else Never
  | Seq r1 r2 =>
      if nullable r1 then Alt (Seq (derive c r1) r2) (derive c r2)
      else Seq (derive c r1) r2
  | Alt r1 r2 => Alt (derive c r1) (derive c r2)
  | Star r => Seq (derive c r) (Star r)
  end.

(** [/^r$/.test(s)]: without the [m] flag the anchors are the two ends of
    the input, so the whole string is the match. *)
Fixpoint test (r : t) (s : string) : bool :=
  match s with
  | EmptyString => nullable r
  | String c rest => test (derive c r) rest
  end.

(** The strings an expression denotes. *)
Inductive matches : t -> string -> Prop :=
| MEmpty : matches Empty ""
| MClass cls c : cls c = true -> matches (Class cls) (String c "")
| MSeq r1 r2 s1 s2 :
    matches r1 s1 -> matches r2 s2 -> matches (Seq r1 r2) (s1 ++ s2)
| MAltL r1 r2 s : matches r1 s -> matches (Alt r1 r2) s
| MAltR r1 r2 s : matches r2 s -> matches (Alt r1 r2) s
| MStarNil r : matches (Star r) ""
| MStarApp r s1 s2 :
    matches r s1 -> matches (Star r) s2 -> matches (Star r) (s1 ++ s2).

End Regex.

(* ===================================================================== *)
(** ** utils/security.ts: sanitizing text and checking e-mail addresses *)
(* ===================================================================== *)

(** A [string] is read as the sequence of its code units, each below 256. *)
Module Text.

Fixpoint all (p : ascii -> bool) (s : string) : bool :=
  match s with
  | EmptyString => true
  | String c rest => p c && all p rest
  end.

Fixpoint count_char (c : ascii) (s : string) : nat :=
  match s with
  | EmptyString => 0
  | String c' rest =>
      if Ascii.eqb c' c then S (count_char c rest) else count_char c rest
  end.

(** A character class given by its members: [[abc]]. *)
Definition in_class (members : list ascii) (c : ascii) : bool :=
  existsb (Ascii.eqb c) members.

(** [s.replace(/[...]/g, r)]: every character of the class becomes [r]. *)
Fixpoint replace_class (cls : ascii -> bool) (r : string) (s : string)
  : string :=
  match s with
  | EmptyString => EmptyString
  | String c rest =>
      if cls c then r ++ replace_class cls r rest
      else String c (replace_class cls r rest)
  end.

Definition double_quote : ascii := ascii_of_nat 34.
Definition CR : ascii := ascii_of_nat 13.
Definition LF : ascii := ascii_of_nat 10.

(** The visible ASCII characters, codes 33 to 126. *)
Definition visible (c : ascii) : bool :=
  let n := nat_of_ascii c in (33 <=? n)%nat && (n <=? 126)%nat.

(** The white space of [\s] and [trim] among the code units below 256:
    tab, line feed, vertical tab, form feed, carriage return, space and
    the no-break space. *)
Definition white_space (c : ascii) : bool :=
  let n := nat_of_ascii c in
  ((9 <=? n)%nat && (n <=? 13)%nat) || (n =? 32)%nat || (n =? 160)%nat.

(** Every ampersand starts [&amp;]. *)
Fixpoint amp_escaped (s : string) : bool :=
  match s with
  | EmptyString => true
  | String c rest =>
      (if Ascii.eqb c "&" then String.prefix "amp;" rest else true)
      && amp_escaped rest
  end.

(** What is assumed of [String.prototype.trim]: it takes characters off
    the two ends, none of them a visible ASCII character. *)
Definition trim_strips_ends (rt : Js.Runtime) : Prop :=
  forall s, exists a b,
      s = a ++ Js.String_trim rt s ++ b
      /\ all (fun c => negb (visible c)) a = true
      /\ all (fun c => negb (visible c)) b = true.

End Text.

Module SecurityText.

(** [sanitizeInput]; the argument is [None] for a value that is not a
    string. *)
Definition sanitizeInput (rt : Js.Runtime) (input : option string) : string :=
  match input with
  | None => ""
  | Some input =>
      Js.String_trim rt
        (Text.replace_class (Text.in_class [Text.CR; Text.LF]) " "
           (Text.replace_class (Text.in_class ["&"%char]) "&amp;"
              (Text.replace_class
                 (Text.in_class ["'"%char; Text.double_quote]) ""
                 (Text.replace_class (Text.in_class ["<"%char; ">"%char]) ""
                    input))))
  end.

(** The characters [sanitizeInput] acts on. *)
Definition special : ascii -> bool :=
  Text.in_class ["<"%char; ">"%char; "'"%char; Text.double_quote; "&"%char;
                 Text.CR; Text.LF].

(** The class [[^\s@]]. *)
Definition not_space_or_at (c : ascii) : bool :=
  negb (Text.white_space c || Ascii.eqb c "@").

(** [/^[^\s@]+@[^\s@]+\.[^\s@]+$/]. *)
Definition emailPattern : Regex.t :=
  let part := Regex.Plus (Regex.Class not_space_or_at) in
  Regex.Seq part
    (Regex.Seq (Regex.Class (Ascii.eqb "@"))
       (Regex.Seq part
          (Regex.Seq (Regex.Class (Ascii.eqb ".")) part))).

Definition isValidEmail (email : string) : bool :=
  Regex.test emailPattern email.

(** A non-empty run of characters that are neither white space nor [@]. *)
Definition plain (s : string) : bool :=
  negb (s =? "") && Text.all not_space_or_at s.

End SecurityText.

(* ===================================================================== *)
(** ** The client-token route (POST) *)
(* ===================================================================== *)

Module ClientTokenRoute.

(** [res.status(status).json(json)]. *)
Record Response := {
  status : Z;
  json : list (string * Js.json);
}.

Record Provider := {
  provider_id : string;
  provider_options : PluginOptions;
}.

Record ModuleDeclaration := {
  providers : option (list Provider);
}.

Record PaymentModule := {
  moduleDeclaration : option ModuleDeclaration;
}.

(** A request, with what the handler reads while it serves it: the clock
    ([Date.now()], once in [isRateLimited] and once in [cleanup]) and
    [Math.random()]. *)
Record Request := {
  body_session_id : Js.value;
  scope_resolve_payment : Js.exn + PaymentModule;
  clock : Z;
  random : float;
  clock_cleanup : Z;
}.

(** [const rateLimiter = new RateLimiter(10, 60000)]. *)
Definition rateLimiter : RateLimiter.t :=
  RateLimiter.create (RateLimiter.whole 10) 60000.

Definition reply (status : Z) (key : string) (value : Js.json) : Response :=
  {| status := status; json := [(key, value)] |}.

Definition invalid_session : Response :=
  reply 400 "error" (Js.JStr "Invalid session ID").

Definition too_many_requests : Response :=
  reply 429 "error" (Js.JStr "Too many requests. Please try again later.").



(** The session identifier of a request that passes the session check. *)
Definition session_of_request (req : Request) : option string :=
  match body_session_id req with
  | Some (Js.JStr sessionId) =>
      if (sessionId =? "") || (String.length sessionId <? 10)%nat then None
      else Some sessionId
  | _ => None
  end.

Definition clientKey (sessionId : string) : string := "session_" ++ sessionId.

(** The handler up to its first [await]: the session check, the rate
    limiter and the occasional sweep.  [inl] is the response that ends the
    request there. *)
Definition guard (req : Request) (rl : RateLimiter.t)
  : (Response + unit) * RateLimiter.t :=
  match session_of_request req with
  | None => (inl invalid_session, rl)
  | Some sessionId =>
      let (limited, rl1) :=
        RateLimiter.isRateLimited (clock req) (clientKey sessionId) rl in
      if limited then (inl too_many_requests, rl1)
      else if PrimFloat.ltb (random req) 0.01%float then
        (inr tt, RateLimiter.cleanup (clock_cleanup req) rl1)
      else (inr tt, rl1)
  end.


Section Route.

Context {W : Type}.
(** [new PaypalService(options)]: the processor as that client reaches it. *)
Variable service : PluginOptions -> Remote W.
(** [fetch] on the token endpoint of a base URL with a bearer token: it
    rejects, or resolves to a response with its [ok] flag and the outcome
    of [json()]. *)
Variable fetch_generate_token :
  string -> string -> M W (bool * (Js.exn + Js.json)).



End Route.

(** The requests of a list are served one after the other as far as the
    limiter goes: a handler runs up to its first [await] without
    interruption.  The outcome of [guard] for each, and the limiter at the
    end. *)
Fixpoint guards (reqs : list Request) (rl : RateLimiter.t)
  : list (Response + unit) * RateLimiter.t :=
  match reqs with
  | [] => ([], rl)
  | req :: rest =>
      let (outcome, rl') := guard req rl in
      let (outcomes, rl'') := guards rest rl' in
      (outcome :: outcomes, rl'')
  end.

Definition refused (outcome : Response + unit) : bool :=
  match outcome with
  | inl response => (status response =? 429)%Z
  | inr _ => false
  end.

(** The outcomes of the requests of one session, in order. *)
Fixpoint outcomes_of (sessionId : string) (reqs : list Request)
         (outcomes : list (Response + unit)) : list (Response + unit) :=
  match reqs, outcomes with
  | req :: reqs', outcome :: outcomes' =>
      match session_of_request req with
      | Some sid =>
          if sid =? sessionId then
            outcome :: outcomes_of sessionId reqs' outcomes'
          else outcomes_of sessionId reqs' outcomes'
      | None => outcomes_of sessionId reqs' outcomes'
      end
  | _, _ => []
  end.

(** Every clock reading made for the requests is at most [deadline]. *)
Definition all_by (deadline : Z) (reqs : list Request) : bool :=
  forallb (fun req => (clock req <=? deadline)%Z
                      && (clock_cleanup req <=? deadline)%Z) reqs.

(** How many requests of a list are made for one session. *)
Definition requests_of (sessionId : string) (reqs : list Request) : nat :=
  List.length
    (List.filter (fun req => match session_of_request req with
                             | Some sid => sid =? sessionId
                             | None => false
                             end) reqs).

End ClientTokenRoute.

(** Requests to try the route on: one session, a container without the
    payment module, a sweep on every request. *)
Module RouteFixture.

Definition request_at (t : Z) : ClientTokenRoute.Request :=
  {| ClientTokenRoute.body_session_id := Some (Js.JStr "payses_0123456789");
     ClientTokenRoute.scope_resolve_payment :=
       inl (Js.Error "payment module not registered");
     ClientTokenRoute.clock := t;
     ClientTokenRoute.random := 0.005%float;
     ClientTokenRoute.clock_cleanup := t |}.

(** Eleven more requests, 1 ms apart, after the one at [t]. *)
Definition burst_after (t : Z) : list ClientTokenRoute.Request :=
  map (fun i => request_at (t + Z.of_nat i)%Z) (seq 1 11).

End RouteFixture.

(* ===================================================================== *)
(** ** [PaypalService.createOrder] and the data it sends *)
(* ===================================================================== *)

Module CreateOrder.

(** The fields of a cart address that are read. *)
Record CartAddress := {
  first_name : option string;
  last_name : option string;
  phone : option string;
  country_code : option string;
  postal_code : option string;
  province : option string;
  city : option string;
  address_1 : option string;
}.

(** A line item; quantity and unit price are numbers, strings or big-number
    objects. *)
Record CartLineItem := {
  title : string;
  item_quantity : Js.json;
  unit_price : Js.json;
}.

Record PaypalCreateOrderInput := {
  amount : float;
  currency : string;
  sessionId : option string;
  shipping_info : option CartAddress;
  items : option (list CartLineItem);
  email : option string;
}.

(** What [parsePhoneNumberFromString] returns. *)
Record ParsedPhoneNumber := {
  countryCallingCode : string;
  parsed_nationalNumber : string;
}.

Record Money := {
  currencyCode : string;
  value : string;
}.

Record Item := {
  name : string;
  quantity : string;
  unitAmount : Money;
}.

Record PhoneNumber := {
  countryCode : string;
  nationalNumber : string;
}.

Record Address := {
  address_countryCode : option string;
  postalCode : option string;
  adminArea1 : option string;
  adminArea2 : option string;
  addressLine1 : option string;
}.

(** What [mapCustomerData] returns. *)
Record CustomerData := {
  customer_fullName : string;
  customer_emailAddress : option string;
  customer_phoneNumber : option PhoneNumber;
}.

(** The [shipping] object; a field is [None] when the object has no such
    property. *)
Record ShippingDetails := {
  fullName : option string;
  emailAddress : option string;
  phoneNumber : option PhoneNumber;
  address : option Address;
  type : string;
}.

Record AmountWithBreakdown := {
  amount_currencyCode : string;
  amount_value : string;
  breakdown_itemTotal : option Money;
}.

Record PurchaseUnitRequest := {
  unit_amount : AmountWithBreakdown;
  customId : option string;
  unit_items : option (list Item);
  shipping : option ShippingDetails;
}.

Record OrderRequest := {
  intent : string;
  purchaseUnits : list PurchaseUnitRequest;
  shippingPreference : option string;
  userAction : string;
}.

(** [v.toString()]: reading the method of [null] throws. *)
Definition toString (rt : Js.Runtime) (v : Js.json) : Js.exn + string :=
  match v with
  | Js.JNull =>
      inl (Js.TypeError
             "Cannot read properties of null (reading 'toString')")
  | Js.JStr s => inr s
  | _ => inr (Js.ToString rt v)
  end.

(** [Number(v)]. *)
Definition Number (rt : Js.Runtime) (v : Js.json) : float :=
  match v with
  | Js.JNum n => n
  | _ => Js.ToNumber rt v
  end.

(** [arr.map(f)] for an [f] that may throw. *)
Fixpoint map_throwing {A B} (f : A -> Js.exn + B) (l : list A)
  : Js.exn + list B :=
  match l with
  | [] => inr []
  | x :: rest =>
      match f x with
      | inl e => inl e
      | inr y =>
          match map_throwing f rest with
          | inl e => inl e
          | inr ys => inr (y :: ys)
          end
      end
  end.

Section Service.

Context {W : Type}.
Variable rt : Js.Runtime.
Variable parsePhoneNumberFromString : string -> option ParsedPhoneNumber.
(** [ordersController.createOrder({ body })]; [None] when the answer has no
    [result]. *)
Variable ordersController_createOrder : OrderRequest -> M W (option Order).
(** [this.includeCustomerData] and [this.includeShippingData]. *)
Variable includeCustomerData includeShippingData : bool.

Definition mapCustomerData (email : option string)
           (shipping_info : option CartAddress) : option CustomerData :=
  if negb includeCustomerData then None
  else
    match shipping_info with
    | None => None
    | Some info =>
        let parsedPhoneNumber :=
          match phone info with
          | Some p => if p =? "" then None else parsePhoneNumberFromString p
          | None => None
          end in
        Some {| customer_fullName :=
                  Js.show (first_name info) ++ " " ++ Js.show (last_name info);
                customer_emailAddress :=
                  if Js.truthy_str email then email else None;
                customer_phoneNumber :=
                  match parsedPhoneNumber with
                  | Some parsed =>
                      Some {| countryCode := countryCallingCode parsed;
                              nationalNumber := parsed_nationalNumber parsed |}
                  | None => None
                  end |}
    end.

Definition mapShippingData (shipping_info : option CartAddress)
  : option Address :=
  if negb includeShippingData then None
  else
    match shipping_info with
    | None => None
    | Some info =>
        if negb (Js.truthy_str (country_code info)) then None
        else
          Some {| address_countryCode := country_code info;
                  postalCode := postal_code info;
                  adminArea1 := province info;
                  adminArea2 := city info;
                  addressLine1 := address_1 info |}
    end.

(** The [body] handed to [ordersController.createOrder]; building it throws
    when the quantity of an item is [null]. *)
Definition request (input : PaypalCreateOrderInput) : Js.exn + OrderRequest :=
  let formattedAmount := PaypalService.formatAmount rt (amount input) in
  let mapped :=
    match items input with
    | Some its =>
        map_throwing
          (fun item =>
             match toString rt (item_quantity item) with
             | inl e => inl e
             | inr q =>
                 inr {| name := title item;
                        quantity := q;
                        unitAmount :=
                          {| currencyCode := currency input;
                             value :=
                               PaypalService.formatAmount
                                 rt (Number rt (unit_price item)) |} |}
             end) its
    | None => inr []
    end in
  match mapped with
  | inl e => inl e
  | inr paypalItems =>
      let hasItems := negb (Nat.eqb (List.length paypalItems) 0) in
      let itemTotal :=
        match items input with
        | Some its =>
            if hasItems then
              fold_left
                (fun sum item =>
                   PrimFloat.add sum
                     (PrimFloat.mul (Number rt (unit_price item))
                                    (Number rt (item_quantity item))))
                its 0%float
            else amount input
        | None => amount input
        end in
      let formattedItemTotal := PaypalService.formatAmount rt itemTotal in
      let shippingData :=
        match shipping_info input with
        | None => None
        | Some _ =>
            let customer :=
              if includeCustomerData
              then mapCustomerData (email input) (shipping_info input)
              else None in
            let shipping_address :=
              if includeShippingData
              then mapShippingData (shipping_info input)
              else None in
            Some {| fullName := option_map customer_fullName customer;
                    emailAddress :=
                      match customer with
                      | Some c => customer_emailAddress c
                      | None => None
                      end;
                    phoneNumber :=
                      match customer with
                      | Some c => customer_phoneNumber c
                      | None => None
                      end;
                    address := shipping_address;
                    type := "SHIPPING" |}
        end in
      inr {| intent := "AUTHORIZE";
             purchaseUnits :=
               [ {| unit_amount :=
                      {| amount_currencyCode := currency input;
                         amount_value := formattedAmount;
                         breakdown_itemTotal :=
                           if hasItems
                           then Some {| currencyCode := currency input;
                                        value := formattedItemTotal |}
                           else None |};
                    customId := sessionId input;
                    unit_items := if hasItems then Some paypalItems else None;
                    shipping := shippingData |} ];
             shippingPreference :=
               match shippingData with
               | Some _ =>
                   if includeShippingData then Some "SET_PROVIDED_ADDRESS"
                   else None
               | None => None
               end;
             userAction := "PAY_NOW" |}
  end.

Definition createOrder (input : PaypalCreateOrderInput) : M W Order :=
  let* body := lift (request input) in
  let* createdOrder := ordersController_createOrder body in
  match createdOrder with
  | Some result =>
      if Js.truthy_str (id result) then ret result
      else throw (Js.Error "Failed to create order")
  | None => throw (Js.Error "Failed to create order")
  end.

End Service.

(** An input with the personal data taken out: no e-mail address, and an
    address without names and phone number. *)
Definition without_customer (input : PaypalCreateOrderInput)
  : PaypalCreateOrderInput :=
  {| amount := amount input;
     currency := currency input;
     sessionId := sessionId input;
     shipping_info :=
       option_map (fun info =>
                     {| first_name := None; last_name := None; phone := None;
                        country_code := country_code info;
                        postal_code := postal_code info;
                        province := province info;
                        city := city info;
                        address_1 := address_1 info |})
                  (shipping_info input);
     items := items input;
     email := None |}.

(** An input with the postal address taken out. *)
Definition without_address (input : PaypalCreateOrderInput)
  : PaypalCreateOrderInput :=
  {| amount := amount input;
     currency := currency input;
     sessionId := sessionId input;
     shipping_info :=
       option_map (fun info =>
                     {| first_name := first_name info;
                        last_name := last_name info;
                        phone := phone info;
                        country_code := None; postal_code := None;
                        province := None; city := None; address_1 := None |})
                  (shipping_info input);
     items := items input;
     email := email input |}.

End CreateOrder.

(* ===================================================================== *)
(** ** [PaypalModuleService.initiatePayment] *)
(* ===================================================================== *)

Module InitiatePayment.

(** The properties of [input.data] that are read. *)
Record Data := {
  data_items : option (list CreateOrder.CartLineItem);
  data_shipping_info : option CreateOrder.CartAddress;
  data_email : option string;
}.

Record Context := {
  idempotency_key : option string;
}.

Record Input := {
  input_data : option Data;
  input_amount : Js.value;
  input_currency_code : option string;
  input_context : option Context;
}.

(** The object [{ ...data, ...order, ...context, amount, currency_code }],
    kept as the parts it is spread from, in that order. *)
Record OutputData := {
  from_data : Data;
  from_order : Order;
  from_context : option Context;
  out_amount : Js.json;
  out_currency_code : string;
}.

Record Output := {
  out_data : OutputData;
  out_id : option string;
}.

Section Provider.

Context {W : Type}.
(** [this.client.createOrder]. *)
Variable client_createOrder : CreateOrder.PaypalCreateOrderInput -> M W Order.
Variable rt : Js.Runtime.

Definition initiatePayment (input : Input) : M W Output :=
  try_catch
    (match input_data input with
     | None =>
         throw (Js.MedusaError Js.INVALID_DATA "Payment data is required")
     | Some data =>
         match input_amount input, input_currency_code input with
         | Some amount, Some currency_code =>
             if negb (Js.truthy (Some amount)) || (currency_code =? "") then
               throw (Js.MedusaError Js.INVALID_DATA
                        "Amount and currency code are required")
             else
               let* order :=
                 client_createOrder
                   {| CreateOrder.amount := CreateOrder.Number rt amount;
                      CreateOrder.currency := currency_code;
                      CreateOrder.sessionId :=
                        match input_context input with
                        | Some context => idempotency_key context
                        | None => None
                        end;
                      CreateOrder.shipping_info := data_shipping_info data;
                      CreateOrder.items := data_items data;
                      CreateOrder.email := data_email data |} in
               ret {| out_data :=
                        {| from_data := data;
                           from_order := order;
                           from_context := input_context input;
                           out_amount := amount;
                           out_currency_code := currency_code |};
                      out_id := id order |}
         | _, _ =>
             throw (Js.MedusaError Js.INVALID_DATA
                      "Amount and currency code are required")
         end
     end)
    (fun error => throw error).

End Provider.

End InitiatePayment.

(* ===================================================================== *)
(** ** A stricter processor *)
(* ===================================================================== *)

(** Like [Fixture.remote], except that a signature is verified only for the
    webhook identifier registered with the processor and the token it
    issued, that the refund of one capture is declined, and that a refund
    that goes through is recorded in the processor's state. *)
Module StrictProcessor.

Definition registered_webhook : string := "WH-2WR32451HC0233532".

Definition declined_capture : string := "0CP00000000000BAD".

Definition refunded : Order :=
  {| id := None; status := Some "REFUNDED"; intent := None;
     purchaseUnits := None |}.

Definition remote : Remote Fixture.World := {|
  ordersController_getOrder := ordersController_getOrder Fixture.remote;
  ordersController_authorizeOrder :=
    ordersController_authorizeOrder Fixture.remote;
  ordersController_captureOrder :=
    ordersController_captureOrder Fixture.remote;
  paymentsController_captureAuthorizedPayment :=
    paymentsController_captureAuthorizedPayment Fixture.remote;
  paymentsController_refundCapturedPayment w captureId :=
    if captureId =? declined_capture then (inl Fixture.unprocessable, w)
    else (inr {| refund_id := Some "0RF12345678901234";
                 refund_status := Some "COMPLETED" |},
          <[ captureId := refunded ]> w);
  authController_requestToken w := inr (Some "A21AAFexampletoken");
  fetch_verify_webhook_signature w token req :=
    if negb (token =? "A21AAFexampletoken") then
      FetchResponse false "Unauthorized"
                    (inl (Js.SyntaxError "Unexpected end of JSON input"))
    else
      FetchResponse true "OK"
        (inr (Js.JObj
                [ ("verification_status",
                   Js.JStr (if Js.seq (transmission_sig req) "good-signature"
                               && (webhook_id req =? registered_webhook)
                            then "SUCCESS" else "FAILURE")) ]))
|}.

(** A unit with the captures of the given identifiers. *)
Definition unit_with (captureIds : list string) : PurchaseUnit :=
  {| payments :=
       Some {| authorizations := None;
               captures :=
                 Some (map (fun captureId =>
                              {| capture_id := Some captureId;
                                 capture_status := Some "COMPLETED";
                                 createTime := None |}) captureIds) |} |}.

End StrictProcessor.

(* ===================================================================== *)
(** ** Running the monad *)
(* ===================================================================== *)

Lemma bind_inr {W A B} (m : M W A) (k : A -> M W B) s a s' :
  m s = (inr a, s') -> bind m k s = k a s'.
Proof. intros H. unfold bind. now rewrite H. Qed.

Lemma bind_inl {W A B} (m : M W A) (k : A -> M W B) s e s' :
  m s = (inl e, s') -> bind m k s = (inl e, s').
Proof. intros H. unfold bind. now rewrite H. Qed.

Lemma retrieveOrder_run {W} (R : Remote W) orderId (s : St W) :
  PaypalService.retrieveOrder R orderId s
  = (ordersController_getOrder R (world s) orderId,
     mkSt (world s) (calls s ++ [GetOrder orderId])).
Proof. reflexivity. Qed.

Lemma made_app (before extra : list Call) :
  made before (before ++ extra) = extra.
Proof.
  unfold made. induction before as [|c before IH]; simpl; auto.
Qed.

Lemma validatePayPalOrderId_nonempty orderId :
  PaypalModuleService.validatePayPalOrderId (Some orderId) = true ->
  (orderId =? "") = false.
Proof.
  unfold PaypalModuleService.validatePayPalOrderId. simpl.
  destruct (orderId =? "") eqn:E; simpl; congruence.
Qed.

(* ===================================================================== *)
(** ** Capture *)
(* ===================================================================== *)

Section Capture.

Context {W : Type}.
Variable R : Remote W.

(** What [capturePayment] does once its input is accepted and the order is
    retrieved with status COMPLETED. *)
Lemma capturePayment_completed now input input_data orderId o (s : St W) :
  data input = Some input_data ->
  data_id input_data = Some orderId ->
  PaypalModuleService.validatePayPalOrderId (Some orderId) = true ->
  ordersController_getOrder R (world s) orderId = inr o ->
  status o = Some "COMPLETED" ->
  PaypalModuleService.capturePayment R now input s
  = (inr (captured_report input_data o now),
     mkSt (world s) (calls s ++ [GetOrder orderId])).
Proof.
  intros Hd Hid Hv Hget Hst.
  pose proof (validatePayPalOrderId_nonempty _ Hv) as Hne.
  unfold PaypalModuleService.capturePayment, try_catch.
  rewrite Hd, Hid, Hne, Hv. cbn [negb].
  rewrite (bind_inr _ _ s o (mkSt (world s) (calls s ++ [GetOrder orderId])))
    by (rewrite retrieveOrder_run, Hget; reflexivity).
  rewrite Hst. cbn.
  unfold captured_report, Js.or_str.
  destruct (Js.truthy_str (first_capture_time o)) eqn:E.
  - destruct (first_capture_time o); [reflexivity | discriminate].
  - reflexivity.
Qed.

(** C1.  Whenever the order retrieved for a capture request has status
    COMPLETED, [capturePayment] reports the captured state of that order,
    the only call it makes is the retrieval (no authorization capture, no
    direct order capture, the processor's state is untouched), and a second
    capture request does the same again and reports the same state.  This
    holds whatever else the order carries, an authorization with status
    CREATED included: the completed check comes first. *)
Theorem capture_completed_is_idempotent
  now1 now2 input input_data orderId o (s : St W) :
  data input = Some input_data ->
  data_id input_data = Some orderId ->
  PaypalModuleService.validatePayPalOrderId (Some orderId) = true ->
  ordersController_getOrder R (world s) orderId = inr o ->
  status o = Some "COMPLETED" ->
  exists out1 out2 s1 s2,
    PaypalModuleService.capturePayment R now1 input s = (inr out1, s1)
    /\ PaypalModuleService.capturePayment R now2 input s1 = (inr out2, s2)
    /\ capture_session_status out1 = PaymentSessionStatus.CAPTURED
    /\ capture_order out1 = o
    /\ capture_session_status out2 = capture_session_status out1
    /\ capture_order out2 = capture_order out1
    /\ capture_input out2 = capture_input out1
    /\ (Js.truthy_str (first_capture_time o) = true \/ now1 = now2 ->
        out2 = out1)
    /\ made (calls s) (calls s1) = [GetOrder orderId]
    /\ made (calls s1) (calls s2) = [GetOrder orderId]
    /\ read_only (made (calls s) (calls s2)) = true
    /\ world s1 = world s /\ world s2 = world s.
Proof.
  intros Hd Hid Hv Hget Hst.
  set (s1 := mkSt (world s) (calls s ++ [GetOrder orderId])).
  set (s2 := mkSt (world s1) (calls s1 ++ [GetOrder orderId])).
  exists (captured_report input_data o now1),
         (captured_report input_data o now2), s1, s2.
  split; [ now apply capturePayment_completed | ].
  split; [ now apply capturePayment_completed | ].
  repeat split; try reflexivity.
  - intros [Ht | ->]; [ | reflexivity ].
    unfold captured_report. now rewrite Ht.
  - apply made_app.
  - apply made_app.
  - subst s2 s1. cbn [calls]. rewrite <- app_assoc, made_app. reflexivity.
Qed.

End Capture.

Section CaptureOrder.

Context {W : Type}.
Variable R : Remote W.

(** [captureOrder] in normal form: which calls it makes, in which state it
    leaves the processor and what it returns, by cases on the order it
    retrieves. *)
Lemma captureOrder_run id (s : St W) :
  PaypalService.captureOrder R id s =
  match ordersController_getOrder R (world s) id with
  | inl e => (inl e, mkSt (world s) (calls s ++ [GetOrder id]))
  | inr o =>
      match capturable_authorization o with
      | Some authorizationId =>
          match paymentsController_captureAuthorizedPayment
                  R (world s) authorizationId with
          | (inr _, w') =>
              (ordersController_getOrder R w' id,
               mkSt w' (calls s ++ [GetOrder id;
                                    CaptureAuthorizedPayment authorizationId;
                                    GetOrder id]))
          | (inl e, w') =>
              (inl e,
               mkSt w' (calls s ++ [GetOrder id;
                                    CaptureAuthorizedPayment authorizationId]))
          end
      | None =>
          if match first_capture o with
             | Some c => Js.seq (capture_status c) "COMPLETED"
             | None => false
             end
          then (inr o, mkSt (world s) (calls s ++ [GetOrder id]))
          else if Js.seq (intent o) "CAPTURE" && Js.seq (status o) "APPROVED"
          then
            let (r, w') := ordersController_captureOrder R (world s) id in
            (r, mkSt w' (calls s ++ [GetOrder id; CaptureOrder id]))
          else
            (inl (Js.Error ("Cannot capture order " ++ id ++ " in status "
                            ++ Js.show (status o) ++ " with intent "
                            ++ Js.show (intent o))),
             mkSt (world s) (calls s ++ [GetOrder id]))
      end
  end.
Proof.
  unfold PaypalService.captureOrder, bind at 1.
  rewrite retrieveOrder_run.
  destruct (ordersController_getOrder R (world s) id) as [e|o]; [reflexivity|].
  unfold capturable_authorization.
  assert (Hrest :
    forall s1 : St W, world s1 = world s ->
      calls s1 = (calls s ++ [GetOrder id])%list ->
      (if match first_capture o with
          | Some c => Js.seq (capture_status c) "COMPLETED"
          | None => false
          end
       then ret o
       else if Js.seq (intent o) "CAPTURE" && Js.seq (status o) "APPROVED"
       then command (CaptureOrder id)
                    (fun w => ordersController_captureOrder R w id)
       else throw (Js.Error ("Cannot capture order " ++ id ++ " in status "
                             ++ Js.show (status o) ++ " with intent "
                             ++ Js.show (intent o)))) s1
      = (if match first_capture o with
            | Some c => Js.seq (capture_status c) "COMPLETED"
            | None => false
            end
         then (inr o, mkSt (world s) (calls s ++ [GetOrder id]))
         else if Js.seq (intent o) "CAPTURE" && Js.seq (status o) "APPROVED"
         then
           let (r, w') := ordersController_captureOrder R (world s) id in
           (r, mkSt w' (calls s ++ [GetOrder id; CaptureOrder id]))
         else
           (inl (Js.Error ("Cannot capture order " ++ id ++ " in status "
                           ++ Js.show (status o) ++ " with intent "
                           ++ Js.show (intent o))),
            mkSt (world s) (calls s ++ [GetOrder id])))).
  { intros [w1 c1] Hw Hc. cbn in Hw, Hc. subst w1 c1.
    destruct (match first_capture o with
              | Some c => Js.seq (capture_status c) "COMPLETED"
              | None => false
              end); [reflexivity|].
    destruct (Js.seq (intent o) "CAPTURE" && Js.seq (status o) "APPROVED");
      [|reflexivity].
    unfold command. cbn [world calls].
    destruct (ordersController_captureOrder R (world s) id) as [r w'].
    now rewrite <- app_assoc. }
  destruct (first_authorization o) as [a|]; [|now apply Hrest].
  destruct (auth_id a) as [authorizationId|] eqn:Ea; cbn [Js.truthy_str];
    [|now apply Hrest].
  destruct (negb (authorizationId =? "") && Js.seq (auth_status a) "CREATED")
    eqn:Ec; [|now apply Hrest].
  unfold bind, PaypalService.captureAuthorization, command. cbn [world calls].
  destruct (paymentsController_captureAuthorizedPayment
              R (world s) authorizationId) as [[e|c] w'].
  - now rewrite <- app_assoc.
  - rewrite retrieveOrder_run. cbn [world calls].
    destruct (ordersController_getOrder R w' id);
      unfold ret; now rewrite <- !app_assoc.
Qed.

End CaptureOrder.

Lemma seq_true v lit : Js.seq v lit = true <-> v = Some lit.
Proof.
  destruct v as [x|]; simpl.
  - rewrite String.eqb_eq. split; congruence.
  - split; discriminate.
Qed.

Lemma seq_false v lit : Js.seq v lit = false <-> v <> Some lit.
Proof.
  rewrite <- seq_true. destruct (Js.seq v lit); split; congruence.
Qed.


Section CapturePayment.

Context {W : Type}.
Variable R : Remote W.

(** [capturePayment] in normal form, once its input is accepted. *)
Lemma capturePayment_run now input input_data orderId (s : St W) :
  data input = Some input_data ->
  data_id input_data = Some orderId ->
  PaypalModuleService.validatePayPalOrderId (Some orderId) = true ->
  let s1 := mkSt (world s) (calls s ++ [GetOrder orderId]) in
  let failed e :=
    Js.MedusaError Js.INVALID_DATA
      ("Failed to capture PayPal payment: " ++ Js.message e) in
  PaypalModuleService.capturePayment R now input s =
  match ordersController_getOrder R (world s) orderId with
  | inl e => (inl (failed e), s1)
  | inr o =>
      if Js.seq (status o) "COMPLETED" then
        (inr (captured_report input_data o now), s1)
      else if match first_authorization o with
              | Some a => Js.seq (auth_status a) "CREATED"
              | None => false
              end
              || Js.seq (status o) "APPROVED"
      then
        match PaypalService.captureOrder R orderId s1 with
        | (inr o', s') => (inr (captured_report input_data o' now), s')
        | (inl e, s') => (inl (failed e), s')
        end
      else
        (inl (failed (Js.MedusaError Js.INVALID_DATA
                        ("PayPal order " ++ orderId ++ " is in status "
                         ++ Js.show (status o)
                         ++ " with no valid authorization, cannot capture"))),
         s1)
  end.
Proof.
  intros Hd Hid Hv s1 failed.
  pose proof (validatePayPalOrderId_nonempty _ Hv) as Hne.
  assert (Hrep : forall o',
    {| capture_input := input_data;
       capture_order := o';
       capture_session_status := PaymentSessionStatus.CAPTURED;
       captured_at :=
         match Js.or_str (first_capture_time o') (Some now) with
         | Some t => t
         | None => now
         end |} = captured_report input_data o' now).
  { intros o'. unfold captured_report, Js.or_str.
    destruct (Js.truthy_str (first_capture_time o')) eqn:E; [|reflexivity].
    destruct (first_capture_time o'); [reflexivity|discriminate]. }
  unfold PaypalModuleService.capturePayment, try_catch.
  rewrite Hd, Hid, Hne, Hv. cbn [negb].
  unfold bind at 1. rewrite retrieveOrder_run. fold s1.
  destruct (ordersController_getOrder R (world s) orderId) as [e|o];
    [reflexivity|].
  destruct (Js.seq (status o) "COMPLETED"); [unfold ret; now rewrite Hrep|].
  destruct (match first_authorization o with
            | Some a => Js.seq (auth_status a) "CREATED"
            | None => false
            end); cbn [orb].
  - unfold bind.
    destruct (PaypalService.captureOrder R orderId s1) as [[e|o'] s'];
      [reflexivity|]. unfold ret. now rewrite Hrep.
  - destruct (Js.seq (status o) "APPROVED"); [|reflexivity].
    unfold bind.
    destruct (PaypalService.captureOrder R orderId s1) as [[e|o'] s'];
      [reflexivity|]. unfold ret. now rewrite Hrep.
Qed.


End CapturePayment.



Lemma capture_completed_is_idempotent_witness :
  exists out1 out2 s1 s2,
    PaypalModuleService.capturePayment Fixture.remote "2025-09-10T12:00:00Z"
      (Fixture.input_for Fixture.order_id)
      (Fixture.start Fixture.authorized_order) = (inr out1, s1)
    /\ PaypalModuleService.capturePayment Fixture.remote "2025-09-10T12:05:00Z"
         (Fixture.input_for Fixture.order_id) s1 = (inr out2, s2)
    /\ capture_session_status out1 = PaymentSessionStatus.CAPTURED
    /\ capture_session_status out2 = PaymentSessionStatus.CAPTURED
    /\ capture_order out2 = capture_order out1
    /\ read_only (made [] (calls s2)) = true.
Proof.
  destruct (capture_completed_is_idempotent Fixture.remote
              "2025-09-10T12:00:00Z" "2025-09-10T12:05:00Z"
              (Fixture.input_for Fixture.order_id)
              {| data_id := Some Fixture.order_id;
                 data_amount := Some 10%float;
                 data_currency_code := Some "USD";
                 data_purchaseUnits := None |}
              Fixture.order_id Fixture.authorized_order
              (Fixture.start Fixture.authorized_order)
              eq_refl eq_refl eq_refl eq_refl eq_refl)
    as (out1 & out2 & s1 & s2 & H1 & H2 & H3 & H4 & H5 & H6 & H7 & H8 & H9
        & H10 & H11 & H12 & H13).
  exists out1, out2, s1, s2.
  repeat split; auto; congruence.
Defined.

(* ===================================================================== *)
(** ** Authorize *)
(* ===================================================================== *)

Lemma unit0_authorization_first o :
  purchaseUnits o <> Some [] ->
  PaypalModuleService.unit0_authorization o = inr (first_authorization o).
Proof.
  unfold PaypalModuleService.unit0_authorization,
    PaypalModuleService.unit0_payments, first_authorization, first_payments,
    Js.first.
  destruct (purchaseUnits o) as [[|u us]|]; intros Hpu;
    [congruence | | reflexivity].
  destruct (payments u); reflexivity.
Qed.

Lemma unit0_capture_first o :
  purchaseUnits o <> Some [] ->
  PaypalModuleService.unit0_capture o = inr (first_capture o).
Proof.
  unfold PaypalModuleService.unit0_capture,
    PaypalModuleService.unit0_payments, first_capture, first_payments,
    Js.first.
  destruct (purchaseUnits o) as [[|u us]|]; intros Hpu;
    [congruence | | reflexivity].
  destruct (payments u); reflexivity.
Qed.

Section Authorize.

Context {W : Type}.
Variable R : Remote W.
Variable rt : Js.Runtime.

(** [authorizePayment] in normal form, once its input is accepted and the
    order retrieved. *)
Lemma authorizePayment_run input input_data orderId o (s : St W) :
  data input = Some input_data ->
  data_id input_data = Some orderId ->
  orderId <> "" ->
  Js.truthy_num (data_amount input_data) = true ->
  Js.truthy_str (data_currency_code input_data) = true ->
  ordersController_getOrder R (world s) orderId = inr o ->
  purchaseUnits o <> Some [] ->
  PaypalModuleService.authorizePayment R rt input s =
  if Js.seq (status o) "APPROVED" then
    match ordersController_authorizeOrder R (world s) orderId with
    | (inl e, w') =>
        authorize_failure rt e
          (mkSt w' (calls s ++ [GetOrder orderId; AuthorizeOrder orderId]))
    | (inr o', w') =>
        match PaypalModuleService.unit0_authorization o' with
        | inl e =>
            authorize_failure rt e
              (mkSt w' (calls s ++ [GetOrder orderId; AuthorizeOrder orderId]))
        | inr _ =>
            (inr {| authorize_data := o';
                    authorize_status := authorized_status o' |},
             mkSt w' (calls s ++ [GetOrder orderId; AuthorizeOrder orderId]))
        end
    end
  else
    (inr {| authorize_data := o; authorize_status := reconciled_status o |},
     mkSt (world s) (calls s ++ [GetOrder orderId])).
Proof.
  intros Hd Hid Hne Hamt Hcur Hget Hpu.
  assert (Hne' : (orderId =? "") = false) by now apply String.eqb_neq.
  unfold PaypalModuleService.authorizePayment.
  rewrite Hd, Hid, Hne', Hamt, Hcur. cbn [negb orb].
  unfold bind at 1, try_catch at 1. rewrite retrieveOrder_run, Hget.
  unfold bind at 1, lift at 1. rewrite (unit0_authorization_first o Hpu).
  unfold bind at 1, lift at 1. rewrite (unit0_capture_first o Hpu).
  cbv zeta.
  destruct (Js.seq (status o) "APPROVED").
  - unfold try_catch, bind at 1, PaypalService.authorizeOrder, command.
    cbn [world calls].
    destruct (ordersController_authorizeOrder R (world s) orderId)
      as [[e|o'] w']; rewrite <- app_assoc; cbn [app].
    + reflexivity.
    + unfold bind at 1, lift at 1.
      unfold PaypalModuleService.unit0_authorization,
        PaypalModuleService.unit0_capture, authorized_status,
        first_authorization, first_capture, first_payments, Js.first,
        PaypalModuleService.unit0_payments, bind, lift, ret.
      destruct (purchaseUnits o') as [[|u us]|]; try reflexivity.
      destruct (payments u) as [p|]; [|reflexivity].
      destruct (authorizations p) as [[|a l]|];
        try (destruct (captures p) as [[|c l']|]; reflexivity).
      destruct (Js.seq (auth_status a) "CREATED"); [reflexivity|].
      destruct (Js.seq (auth_status a) "CAPTURED"); [reflexivity|].
      destruct (captures p) as [[|c l']|]; reflexivity.
  - unfold reconciled_status, has_open_authorization, has_completed_capture.
    destruct (match first_authorization o with
              | Some a => Js.seq (auth_status a) "CREATED"
              | None => false
              end); [reflexivity|].
    destruct (Js.seq (status o) "COMPLETED" || _); [reflexivity|].
    destruct (Js.seq (status o) "CREATED"); reflexivity.
Qed.

(** C3, as the code has it.  For an accepted authorize request whose order
    was retrieved (with a purchase unit to look at): when the order status
    is APPROVED the authorize endpoint is called, and an authorization that
    comes back with status CREATED or CAPTURED is reported as authorized;
    when it is not APPROVED nothing but the retrieval is done, and the
    order is reported as authorized if its first authorization has status
    CREATED, else as captured if its status is COMPLETED (or its first
    capture is), else as pending if its status is CREATED, else as an error
    state. *)
Theorem authorize_reconciles_order_state input input_data orderId o
        (s : St W) :
  data input = Some input_data ->
  data_id input_data = Some orderId ->
  orderId <> "" ->
  Js.truthy_num (data_amount input_data) = true ->
  Js.truthy_str (data_currency_code input_data) = true ->
  ordersController_getOrder R (world s) orderId = inr o ->
  purchaseUnits o <> Some [] ->
  let r := PaypalModuleService.authorizePayment R rt input s in
  (status o = Some "APPROVED" ->
   made (calls s) (calls r.2) = [GetOrder orderId; AuthorizeOrder orderId]
   /\ forall o' w',
       ordersController_authorizeOrder R (world s) orderId = (inr o', w') ->
       purchaseUnits o' <> Some [] ->
       r.1 = inr {| authorize_data := o';
                    authorize_status := authorized_status o' |}
       /\ (forall a, first_authorization o' = Some a ->
                     auth_status a = Some "CREATED"
                     \/ auth_status a = Some "CAPTURED" ->
                     authorized_status o' = PaymentSessionStatus.AUTHORIZED))
  /\ (status o <> Some "APPROVED" ->
      made (calls s) (calls r.2) = [GetOrder orderId]
      /\ r.1 = inr {| authorize_data := o;
                      authorize_status := reconciled_status o |}
      /\ (has_open_authorization o = true ->
          reconciled_status o = PaymentSessionStatus.AUTHORIZED)
      /\ (has_open_authorization o = false ->
          (status o = Some "COMPLETED" ->
           reconciled_status o = PaymentSessionStatus.CAPTURED)
          /\ (status o = Some "CREATED" ->
              has_completed_capture o = false ->
              reconciled_status o = PaymentSessionStatus.PENDING)
          /\ (status o <> Some "COMPLETED" -> status o <> Some "CREATED" ->
              has_completed_capture o = false ->
              reconciled_status o = PaymentSessionStatus.ERROR))).
Proof.
  intros Hd Hid Hne Hamt Hcur Hget Hpu r. subst r.
  rewrite (authorizePayment_run input input_data orderId o s
             Hd Hid Hne Hamt Hcur Hget Hpu).
  split.
  - intros Hst. apply seq_true in Hst. rewrite Hst.
    destruct (ordersController_authorizeOrder R (world s) orderId)
      as [[e|o'] w'].
    + split.
      * unfold authorize_failure.
        destruct (PaypalModuleService.authorize_error_message rt e);
          cbn [snd calls]; apply made_app.
      * intros o' w'' Heq. discriminate.
    + split.
      * destruct (PaypalModuleService.unit0_authorization o');
          [unfold authorize_failure;
           destruct (PaypalModuleService.authorize_error_message rt e)|];
          cbn [snd calls]; apply made_app.
      * intros o'' w'' Heq Hpu'. injection Heq as <- <-.
        rewrite (unit0_authorization_first o' Hpu'). split; [reflexivity|].
        unfold authorized_status.
        intros a -> [Ha | Ha]; apply seq_true in Ha; rewrite Ha;
          [reflexivity | now rewrite orb_true_r].
  - intros Hst. apply seq_false in Hst. rewrite Hst.
    cbn [fst snd calls]. split; [apply made_app|]. split; [reflexivity|].
    unfold reconciled_status. split.
    + now intros ->.
    + intros ->. split; [|split].
      * intros Hc. apply seq_true in Hc. now rewrite Hc.
      * intros Hc Hcap.
        assert (Hx : Js.seq (status o) "COMPLETED" = false).
        { apply seq_false. rewrite Hc. discriminate. }
        apply seq_true in Hc. now rewrite Hx, Hcap, Hc.
      * intros Hn1 Hn2 Hcap. apply seq_false in Hn1, Hn2.
        now rewrite Hn1, Hn2, Hcap.
Qed.

End Authorize.

(** C3 does not hold as stated: the order the processor reports after an
    authorization (status COMPLETED, first authorization CREATED) is
    reported as authorized, not as captured. *)
Lemma authorize_completed_order_reports_authorized :
  status Fixture.authorized_order = Some "COMPLETED"
  /\ (PaypalModuleService.authorizePayment Fixture.remote Fixture.rt
        (Fixture.input_for Fixture.order_id)
        (Fixture.start Fixture.authorized_order)).1
     = inr {| authorize_data := Fixture.authorized_order;
              authorize_status := PaymentSessionStatus.AUTHORIZED |}.
Proof. split; [reflexivity | vm_compute; reflexivity]. Qed.

Lemma authorize_reconciles_order_state_witness :
  (PaypalModuleService.authorizePayment Fixture.remote Fixture.rt
     (Fixture.input_for Fixture.order_id)
     (Fixture.start Fixture.created_order)).1
  = inr {| authorize_data := Fixture.created_order;
           authorize_status := PaymentSessionStatus.PENDING |}
  /\ made [] (calls (PaypalModuleService.authorizePayment Fixture.remote
                       Fixture.rt (Fixture.input_for Fixture.order_id)
                       (Fixture.start Fixture.approved_order)).2)
     = [GetOrder Fixture.order_id; AuthorizeOrder Fixture.order_id].
Proof.
  split.
  - assert (Hne : Fixture.order_id <> "") by discriminate.
    assert (Hpu : purchaseUnits Fixture.created_order <> Some [])
      by discriminate.
    assert (Hst : status Fixture.created_order <> Some "APPROVED")
      by discriminate.
    pose proof (authorize_reconciles_order_state Fixture.remote Fixture.rt
                  (Fixture.input_for Fixture.order_id) _ Fixture.order_id
                  Fixture.created_order (Fixture.start Fixture.created_order)
                  eq_refl eq_refl Hne eq_refl eq_refl eq_refl Hpu)
      as [_ H].
    destruct (H Hst) as (_ & Hr & _ & Hc).
    destruct (Hc eq_refl) as (_ & Hp & _).
    rewrite Hr, (Hp eq_refl eq_refl). reflexivity.
  - assert (Hne : Fixture.order_id <> "") by discriminate.
    assert (Hpu : purchaseUnits Fixture.approved_order <> Some [])
      by discriminate.
    pose proof (authorize_reconciles_order_state Fixture.remote Fixture.rt
                  (Fixture.input_for Fixture.order_id) _ Fixture.order_id
                  Fixture.approved_order
                  (Fixture.start Fixture.approved_order)
                  eq_refl eq_refl Hne eq_refl eq_refl eq_refl Hpu)
      as [H _].
    exact (proj1 (H eq_refl)).
Defined.

(* ===================================================================== *)
(** ** Webhooks *)
(* ===================================================================== *)

Lemma check_headers_missing hs names :
  (exists header, In header names /\ Js.truthy_str (hs !! header) = false) ->
  exists missing,
    In missing names
    /\ Js.truthy_str (hs !! missing) = false
    /\ PaypalModuleService.check_headers hs names
       = inl (Js.MedusaError Js.INVALID_DATA
                ("Missing required PayPal webhook header: " ++ missing)).
Proof.
  induction names as [|name names IH]; intros (header & Hin & Hmiss).
  - destruct Hin.
  - simpl. destruct (Js.truthy_str (hs !! name)) eqn:E; cbn [negb].
    + destruct Hin as [-> | Hin]; [congruence|].
      destruct IH as (missing & Hin' & Hm & Heq); [eauto|].
      exists missing. auto.
    + exists name. auto.
Qed.

Lemma check_headers_present hs names :
  (forall header, In header names -> Js.truthy_str (hs !! header) = true) ->
  PaypalModuleService.check_headers hs names = inr tt.
Proof.
  induction names as [|name names IH]; intros Hall; [reflexivity|].
  simpl. rewrite (Hall name) by now left. cbn [negb].
  apply IH. intros header Hin. apply Hall. now right.
Qed.


(** C6.  When one of the five required transmission headers is absent,
    [constructWebhookEvent] fails with the missing-header error naming a
    required header that is missing; the raw body and what [JSON.parse]
    would make of it play no part, the headers being checked first. *)
Theorem construct_webhook_event_requires_headers rt payload header :
  In header ["paypal-auth-algo"; "paypal-cert-url"; "paypal-transmission-id";
             "paypal-transmission-sig"; "paypal-transmission-time"] ->
  headers payload !! header = None ->
  exists missing,
    In missing ["paypal-auth-algo"; "paypal-cert-url";
                "paypal-transmission-id"; "paypal-transmission-sig";
                "paypal-transmission-time"]
    /\ Js.truthy_str (headers payload !! missing) = false
    /\ PaypalModuleService.constructWebhookEvent rt payload
       = inl (Js.MedusaError Js.INVALID_DATA
                ("Missing required PayPal webhook header: " ++ missing))
    /\ forall rt' body,
        PaypalModuleService.constructWebhookEvent rt'
          {| headers := headers payload; rawData := body |}
        = PaypalModuleService.constructWebhookEvent rt payload.
Proof.
  intros Hin Habs.
  destruct (check_headers_missing (headers payload)
              PaypalModuleService.requiredHeaders) as (missing & Hm & Ht & Hc).
  { exists header. split; [exact Hin|]. now rewrite Habs. }
  exists missing. split; [exact Hm|]. split; [exact Ht|].
  unfold PaypalModuleService.constructWebhookEvent. cbn [headers].
  rewrite Hc. split; [reflexivity|]. intros rt' body. reflexivity.
Qed.

Lemma construct_webhook_event_requires_headers_witness :
  exists missing,
    PaypalModuleService.constructWebhookEvent Fixture.rt
      {| headers := <[ "paypal-auth-algo" := "SHA256withRSA" ]> ∅;
         rawData := RawString
                      (Fixture.event_text "CHECKOUT.ORDER.APPROVED"
                                          "payses_01") |}
    = inl (Js.MedusaError Js.INVALID_DATA
             ("Missing required PayPal webhook header: " ++ missing)).
Proof.
  destruct (construct_webhook_event_requires_headers Fixture.rt
              {| headers := <[ "paypal-auth-algo" := "SHA256withRSA" ]> ∅;
                 rawData := RawString
                              (Fixture.event_text "CHECKOUT.ORDER.APPROVED"
                                                  "payses_01") |}
              "paypal-cert-url")
    as (missing & _ & _ & H & _).
  - vm_compute. auto.
  - vm_compute. reflexivity.
  - exists missing. exact H.
Defined.

Section Webhook.

Context {W : Type}.
Variable R : Remote W.
Variable rt : Js.Runtime.
Variable webhookId : option string.

Lemma getAccessToken_run (s : St W) :
  PaypalService.getAccessToken R s =
  (match authController_requestToken R (world s) with
   | inr (Some t) =>
       if t =? "" then
         inl (Js.Error
                "Failed to get access token: Failed to get access token")
       else inr t
   | inr None =>
       inl (Js.Error "Failed to get access token: Failed to get access token")
   | inl e => inl (Js.Error ("Failed to get access token: " ++ Js.message e))
   end,
   mkSt (world s) (calls s ++ [RequestToken])).
Proof.
  unfold PaypalService.getAccessToken, try_catch, bind, query.
  destruct (authController_requestToken R (world s)) as [e|[t|]];
    try reflexivity.
  destruct (t =? ""); reflexivity.
Qed.

(** [verifyWebhook] only reads, and it returns normally only on a verified
    answer of the signature endpoint. *)
Lemma verifyWebhook_run hs body (s : St W) :
  exists r s',
    PaypalService.verifyWebhook R webhookId hs body s = (r, s')
    /\ world s' = world s
    /\ read_only (made (calls s) (calls s')) = true
    /\ (forall x, r = inr x ->
        exists wid token,
          verified (fetch_verify_webhook_signature R (world s) token
                      (verify_request wid hs body))
          = true).
Proof.
  unfold PaypalService.verifyWebhook.
  destruct webhookId as [wid|].
  2:{ eexists _, s. split; [reflexivity|]. split; [reflexivity|].
      unfold made. rewrite skipn_all. split; [reflexivity | discriminate]. }
  destruct (wid =? "").
  { eexists _, s. split; [reflexivity|]. split; [reflexivity|].
    unfold made. rewrite skipn_all. split; [reflexivity | discriminate]. }
  unfold bind at 1. rewrite getAccessToken_run.
  match goal with
  | |- context [match ?tok with inl _ => _ | inr _ => _ end] =>
      destruct tok as [e|token] eqn:Htok
  end.
  { eexists _, _. split; [reflexivity|]. cbn [world calls].
    split; [reflexivity|]. rewrite made_app.
    split; [reflexivity | discriminate]. }
  unfold bind at 1, query at 1. cbn [world calls].
  match goal with
  | |- context [fetch_verify_webhook_signature R (world s) token ?q] =>
      set (req := q)
  end.
  destruct (fetch_verify_webhook_signature R (world s) token req)
    as [e | ok statusText json] eqn:Hfetch.
  { eexists _, _. split; [reflexivity|]. cbn [world calls].
    split; [reflexivity|]. rewrite <- app_assoc, made_app.
    split; [reflexivity | discriminate]. }
  destruct ok; cbn [negb].
  2:{ eexists _, _. split; [reflexivity|]. cbn [world calls].
      split; [reflexivity|]. rewrite <- app_assoc, made_app.
      split; [reflexivity | discriminate]. }
  unfold bind, lift.
  destruct json as [e|j].
  { eexists _, _. split; [reflexivity|]. cbn [world calls].
    split; [reflexivity|]. rewrite <- app_assoc, made_app.
    split; [reflexivity | discriminate]. }
  destruct (Js.get j "verification_status") as [e|v] eqn:Hv.
  { eexists _, _. split; [reflexivity|]. cbn [world calls].
    split; [reflexivity|]. rewrite <- app_assoc, made_app.
    split; [reflexivity | discriminate]. }
  destruct (Js.is_str v "SUCCESS") eqn:Hs; cbn [negb].
  - eexists _, _. split; [reflexivity|]. cbn [world calls].
    split; [reflexivity|]. rewrite <- app_assoc, made_app.
    split; [reflexivity|]. intros x _. exists wid, token.
    unfold verified, verify_request. fold req. rewrite Hfetch. cbv iota.
    now rewrite Hv.
  - eexists _, _. split; [reflexivity|]. cbn [world calls].
    split; [reflexivity|]. rewrite <- app_assoc, made_app.
    split; [reflexivity | discriminate].
Qed.

(** When [verifyWebhook] returns, a request was sent for the configured
    webhook identifier with the token obtained, and it was verified. *)
Lemma verifyWebhook_returns hs body (s : St W) x s' :
  PaypalService.verifyWebhook R webhookId hs body s = (inr x, s') ->
  exists wid token,
    webhookId = Some wid /\ wid <> ""
    /\ authController_requestToken R (world s) = inr (Some token)
    /\ token <> ""
    /\ verified (fetch_verify_webhook_signature R (world s) token
                   (verify_request wid hs body)) = true.
Proof.
  unfold PaypalService.verifyWebhook.
  destruct webhookId as [wid|]; [|discriminate].
  destruct (wid =? "") eqn:Hwid; [discriminate|].
  apply String.eqb_neq in Hwid.
  unfold bind at 1. rewrite getAccessToken_run.
  destruct (authController_requestToken R (world s)) as [e|[token|]] eqn:Htok;
    try discriminate.
  destruct (token =? "") eqn:Htne; [discriminate|].
  apply String.eqb_neq in Htne.
  unfold bind at 1, query at 1. cbn [world calls].
  match goal with
  | |- context [fetch_verify_webhook_signature R (world s) token ?q] =>
      set (req := q)
  end.
  destruct (fetch_verify_webhook_signature R (world s) token req)
    as [e | ok statusText json] eqn:Hfetch; [discriminate|].
  destruct ok; cbn [negb]; [|discriminate].
  unfold bind, lift.
  destruct json as [e|j]; [discriminate|].
  destruct (Js.get j "verification_status") as [e|v] eqn:Hv; [discriminate|].
  destruct (Js.is_str v "SUCCESS") eqn:Hs; cbn [negb]; [|discriminate].
  intros _. exists wid, token. repeat split; auto.
  unfold verified, verify_request. fold req. rewrite Hfetch. cbv iota.
  now rewrite Hv.
Qed.

(** [getWebhookActionAndData] in normal form: whatever is thrown on the
    way becomes the failed action without data; otherwise the event type
    of the verified event is mapped. *)
Lemma getWebhookActionAndData_run payload (s : St W) :
  PaypalModuleService.getWebhookActionAndData R rt webhookId payload s =
  match PaypalModuleService.constructWebhookEvent rt payload with
  | inl _ => (inr webhook_failed, s)
  | inr event =>
      match PaypalService.verifyWebhook R webhookId (event_headers event)
                                        (event_body event) s with
      | (inl _, s') => (inr webhook_failed, s')
      | (inr _, s') =>
          match PaypalModuleService.body_get (event_body event) "event_type",
                PaypalModuleService.body_get (event_body event) "resource"
          with
          | inr eventType, inr resource =>
              (inr (PaypalModuleService.webhookAction
                      eventType (session_of resource)
                      (amount_of rt resource)), s')
          | _, _ => (inr webhook_failed, s')
          end
      end
  end.
Proof.
  unfold PaypalModuleService.getWebhookActionAndData, try_catch.
  unfold bind at 1, lift at 1.
  destruct (PaypalModuleService.constructWebhookEvent rt payload)
    as [e|event]; [reflexivity|].
  unfold bind at 1.
  destruct (PaypalService.verifyWebhook R webhookId (event_headers event)
              (event_body event) s) as [[e|r] s']; [reflexivity|].
  unfold bind at 1, lift at 1.
  destruct (PaypalModuleService.body_get (event_body event) "event_type")
    as [e|eventType]; [reflexivity|].
  unfold bind at 1, lift at 1.
  destruct (PaypalModuleService.body_get (event_body event) "resource")
    as [e|resource]; reflexivity.
Qed.

(** The mapping never yields the failed action without data. *)
Lemma webhookAction_not_failed eventType sessionId amount :
  PaypalModuleService.webhookAction eventType sessionId amount
  <> webhook_failed.
Proof.
  unfold PaypalModuleService.webhookAction, webhook_failed.
  repeat match goal with
         | |- context [if ?b then _ else _] => destruct b
         end; discriminate.
Qed.

(** C5.  When the signature endpoint gives no explicit SUCCESS to the
    request [verifyWebhook] sends (the one for the configured webhook
    identifier, with the token just obtained): it rejects the call, answers
    with a failure status, or reports another verification status, then
    [verifyWebhook] throws, for a well-formed answer with the message
    "Failed to verify webhook signature"; and [getWebhookActionAndData]
    returns the failed action without data, which no event type maps to:
    the mapping is not applied to the event.  Nothing but reading calls are
    made.  What the endpoint would answer for another identifier or token
    plays no part. *)
Theorem webhook_verification_fails_closed hs body (s : St W) :
  (forall wid token,
      webhookId = Some wid -> wid <> "" ->
      authController_requestToken R (world s) = inr (Some token) ->
      token <> "" ->
      verified (fetch_verify_webhook_signature R (world s) token
                  (verify_request wid hs body)) = false) ->
  (exists e s', PaypalService.verifyWebhook R webhookId hs body s
                = (inl e, s'))
  /\ (forall payload,
         PaypalModuleService.constructWebhookEvent rt payload
         = inr {| event_headers := hs; event_body := body |} ->
         exists s',
           PaypalModuleService.getWebhookActionAndData R rt webhookId
             payload s = (inr webhook_failed, s')
           /\ read_only (made (calls s) (calls s')) = true)
  /\ (forall eventType sessionId amount,
         PaypalModuleService.webhookAction eventType sessionId amount
         <> webhook_failed)
  /\ (forall wid token ok statusText json,
         webhookId = Some wid -> wid <> "" ->
         authController_requestToken R (world s) = inr (Some token) ->
         token <> "" ->
         fetch_verify_webhook_signature R (world s) token
           (verify_request wid hs body)
         = FetchResponse ok statusText json ->
         (ok = false ->
          (PaypalService.verifyWebhook R webhookId hs body s).1
          = inl (Js.Error ("Failed to verify webhook signature: "
                           ++ statusText)))
         /\ (forall j v, ok = true -> json = inr j ->
                         Js.get j "verification_status" = inr v ->
             (PaypalService.verifyWebhook R webhookId hs body s).1
             = inl (Js.Error "Failed to verify webhook signature"))).
Proof.
  intros Hnot.
  assert (Hfail :
             exists e s', PaypalService.verifyWebhook R webhookId hs body s
                          = (inl e, s')
                          /\ read_only (made (calls s) (calls s')) = true).
  { destruct (verifyWebhook_run hs body s) as (r & s' & Hrun & _ & Hro & _).
    destruct r as [e|x].
    - eauto.
    - destruct (verifyWebhook_returns hs body s x s' Hrun)
        as (wid & token & Hw & Hwne & Htok & Htne & Hv).
      rewrite (Hnot wid token Hw Hwne Htok Htne) in Hv. discriminate. }
  split.
  { destruct Hfail as (e & s' & H & _). eauto. }
  split.
  { intros payload Hev. rewrite getWebhookActionAndData_run, Hev.
    cbn [event_headers event_body].
    destruct Hfail as (e & s' & H & Hro).
    rewrite H. eauto. }
  split; [apply webhookAction_not_failed|].
  intros wid token ok statusText json Hw Hwne Htok Htne Hfetch.
  pose proof (Hnot wid token Hw Hwne Htok Htne) as Hno.
  unfold verify_request in Hfetch.
  apply String.eqb_neq in Hwne, Htne.
  split.
  - intros ->. unfold PaypalService.verifyWebhook. rewrite Hw, Hwne.
    unfold bind at 1. rewrite getAccessToken_run, Htok, Htne.
    unfold bind at 1, query at 1. cbn [world calls]. rewrite Hfetch.
    reflexivity.
  - intros j v -> -> Hv. unfold PaypalService.verifyWebhook.
    rewrite Hw, Hwne.
    unfold bind at 1. rewrite getAccessToken_run, Htok, Htne.
    unfold bind at 1, query at 1. cbn [world calls]. rewrite Hfetch.
    cbv beta iota. cbn [negb]. unfold bind, lift. rewrite Hv.
    unfold verified, verify_request in Hno.
    rewrite Hfetch in Hno. cbv iota in Hno. rewrite Hv in Hno.
    rewrite Hno. reflexivity.
Qed.

End Webhook.

Lemma webhook_verification_fails_closed_witness :
  exists s',
    PaypalModuleService.getWebhookActionAndData StrictProcessor.remote
      Fixture.rt (Some "WH-0000000000000000")
      (Fixture.webhook "good-signature" "PAYMENT.CAPTURE.COMPLETED")
      (Fixture.start Fixture.completed_order)
    = (inr webhook_failed, s')
    /\ read_only (made [] (calls s')) = true.
Proof.
  destruct (webhook_verification_fails_closed StrictProcessor.remote
              Fixture.rt (Some "WH-0000000000000000")
              (Fixture.signed_headers "good-signature")
              (BodyJson (Fixture.event_json "PAYMENT.CAPTURE.COMPLETED"
                                            "payses_01"))
              (Fixture.start Fixture.completed_order))
    as (_ & H & _).
  - intros wid token [= <-] _ [= <-] _. vm_compute. reflexivity.
  - apply (H (Fixture.webhook "good-signature" "PAYMENT.CAPTURE.COMPLETED")).
    vm_compute. reflexivity.
Defined.

Lemma is_str_false eventType lit :
  (forall t, eventType = Some (Js.JStr t) -> t <> lit) ->
  Js.is_str eventType lit = false.
Proof.
  destruct eventType as [[ | | | t | | ]|]; try reflexivity.
  intros H. simpl. apply String.eqb_neq. now apply H.
Qed.

Lemma webhookAction_default eventType sessionId amount :
  (forall t, eventType = Some (Js.JStr t) -> ~ In t switch_cases) ->
  PaypalModuleService.webhookAction eventType sessionId amount
  = {| action := PaymentActions.NOT_SUPPORTED; action_data := None |}.
Proof.
  intros H. unfold PaypalModuleService.webhookAction.
  rewrite !is_str_false; [reflexivity|..];
    intros t Ht ->; apply (H _ Ht); unfold switch_cases; simpl; tauto.
Qed.

Section WebhookMapping.

Context {W : Type}.
Variable R : Remote W.
Variable rt : Js.Runtime.
Variable webhookId : option string.

(** C4, evaluated on the code.  For a verified event the action is looked
    up from the event type: PAYMENT.AUTHORIZATION.CREATED gives the
    authorized action, PAYMENT.CAPTURE.COMPLETED the successful one,
    PAYMENT.CAPTURE.DENIED the failed one, and every event type the switch
    does not name gives the not-supported action without an error.  The
    switch does not name CHECKOUT.ORDER.CANCELLED, which therefore gives
    the not-supported action as well, not the canceled one. *)
Theorem webhook_event_mapping payload event eventType resource verification
        (s s' : St W) :
  PaypalModuleService.constructWebhookEvent rt payload = inr event ->
  PaypalService.verifyWebhook R webhookId (event_headers event)
                              (event_body event) s
  = (inr verification, s') ->
  PaypalModuleService.body_get (event_body event) "event_type"
  = inr eventType ->
  PaypalModuleService.body_get (event_body event) "resource"
  = inr resource ->
  exists result,
    PaypalModuleService.getWebhookActionAndData R rt webhookId payload s
    = (inr result, s')
    /\ (eventType = Some (Js.JStr "PAYMENT.AUTHORIZATION.CREATED") ->
        action result = PaymentActions.AUTHORIZED)
    /\ (eventType = Some (Js.JStr "PAYMENT.CAPTURE.COMPLETED") ->
        action result = PaymentActions.SUCCESSFUL)
    /\ (eventType = Some (Js.JStr "PAYMENT.CAPTURE.DENIED") ->
        action result = PaymentActions.FAILED)
    /\ (eventType = Some (Js.JStr "CHECKOUT.ORDER.CANCELLED") ->
        result = {| action := PaymentActions.NOT_SUPPORTED;
                    action_data := None |})
    /\ ((forall t, eventType = Some (Js.JStr t) -> ~ In t switch_cases) ->
        result = {| action := PaymentActions.NOT_SUPPORTED;
                    action_data := None |}).
Proof.
  intros Hev Hver Hty Hres.
  eexists. split.
  { rewrite getWebhookActionAndData_run, Hev, Hver, Hty, Hres. reflexivity. }
  split; [now intros ->|]. split; [now intros ->|]. split; [now intros ->|].
  split; [now intros ->|]. apply webhookAction_default.
Qed.


End WebhookMapping.

Lemma webhook_event_mapping_witness :
  exists s',
    PaypalModuleService.getWebhookActionAndData Fixture.remote Fixture.rt
      (Some "WH-2WR32451HC0233532")
      (Fixture.webhook "good-signature" "CHECKOUT.ORDER.CANCELLED")
      (Fixture.start Fixture.completed_order)
    = (inr {| action := PaymentActions.NOT_SUPPORTED; action_data := None |},
       s').
Proof.
  destruct (webhook_event_mapping Fixture.remote Fixture.rt
              (Some "WH-2WR32451HC0233532")
              (Fixture.webhook "good-signature" "CHECKOUT.ORDER.CANCELLED")
              {| event_headers := Fixture.signed_headers "good-signature";
                 event_body :=
                   BodyJson (Fixture.event_json "CHECKOUT.ORDER.CANCELLED"
                                                "payses_01") |}
              (Some (Js.JStr "CHECKOUT.ORDER.CANCELLED"))
              (Js.assoc "resource"
                 match Fixture.event_json "CHECKOUT.ORDER.CANCELLED"
                                          "payses_01" with
                 | Js.JObj fields => fields
                 | _ => []
                 end)
              ("SUCCESS",
               BodyJson (Fixture.event_json "CHECKOUT.ORDER.CANCELLED"
                                            "payses_01"))
              (Fixture.start Fixture.completed_order)
              (mkSt (world (Fixture.start Fixture.completed_order))
                    [RequestToken;
                     VerifyWebhookSignature
                       (verify_request "WH-2WR32451HC0233532"
                          (Fixture.signed_headers "good-signature")
                          (BodyJson
                             (Fixture.event_json "CHECKOUT.ORDER.CANCELLED"
                                                 "payses_01")))]))
    as (result & Hrun & _ & _ & _ & Hc & _);
    try (vm_compute; reflexivity).
  rewrite Hrun, (Hc eq_refl). eexists. reflexivity.
Defined.


(* ===================================================================== *)
(** ** Payment status *)
(* ===================================================================== *)

Ltac break_match :=
  match goal with
  | |- context [match ?x with _ => _ end] =>
      lazymatch x with
      | context [match _ with _ => _ end] => fail
      | _ => destruct x eqn:?
      end
  end.

Section Status.

Context {W : Type}.
Variable R : Remote W.

Lemma getPaymentStatus_run input input_data order_id (s : St W) :
  data input = Some input_data ->
  data_id input_data = Some order_id ->
  PaypalModuleService.validatePayPalOrderId (Some order_id) = true ->
  PaypalModuleService.getPaymentStatus R input s =
  (match ordersController_getOrder R (world s) order_id with
   | inl e => inl e
   | inr order =>
       if Js.truthy_str (status order) then
         inr (if Js.seq (status order) "COMPLETED"
              then PaymentSessionStatus.CAPTURED
              else PaymentSessionStatus.AUTHORIZED)
       else
         inl (Js.MedusaError Js.NOT_FOUND
                ("PayPal order with ID " ++ order_id ++ " not found"))
   end,
   mkSt (world s) (calls s ++ [GetOrder order_id])).
Proof.
  intros Hd Hid Hv.
  pose proof (validatePayPalOrderId_nonempty _ Hv) as Hne.
  unfold PaypalModuleService.getPaymentStatus, try_catch.
  rewrite Hd, Hid, Hne, Hv. cbn [negb].
  unfold bind. rewrite retrieveOrder_run.
  destruct (ordersController_getOrder R (world s) order_id) as [e|order];
    [reflexivity|].
  destruct (Js.truthy_str (status order)); reflexivity.
Qed.

(** C9.  [getPaymentStatus] answers with one of two statuses only.  For an
    accepted request whose order is retrieved with a status, it reports
    captured exactly when that status is COMPLETED and authorized for any
    other status (CREATED and VOIDED included), after the single
    retrieval; no request is ever answered pending, canceled, requiring
    more or error. *)
Theorem payment_status_is_two_way input (s : St W) :
  (forall out,
      (PaypalModuleService.getPaymentStatus R input s).1 = inr out ->
      out = PaymentSessionStatus.CAPTURED
      \/ out = PaymentSessionStatus.AUTHORIZED)
  /\ (forall input_data order_id order st,
         data input = Some input_data ->
         data_id input_data = Some order_id ->
         PaypalModuleService.validatePayPalOrderId (Some order_id) = true ->
         ordersController_getOrder R (world s) order_id = inr order ->
         status order = Some st -> st <> "" ->
         let r := PaypalModuleService.getPaymentStatus R input s in
         (r.1 = inr PaymentSessionStatus.CAPTURED <-> st = "COMPLETED")
         /\ (st <> "COMPLETED" -> r.1 = inr PaymentSessionStatus.AUTHORIZED)
         /\ made (calls s) (calls r.2) = [GetOrder order_id]).
Proof.
  split.
  - intros out.
    unfold PaypalModuleService.getPaymentStatus, try_catch, bind, throw, ret.
    repeat break_match; cbn [fst]; intros H; try discriminate;
      repeat match goal with
             | H : (_, _) = (_, _) |- _ => injection H as ? ?; subst
             end; try discriminate;
      injection H as <-; auto.
  - intros input_data order_id order st Hd Hid Hv Hget Hst Hne r. subst r.
    rewrite (getPaymentStatus_run input input_data order_id s Hd Hid Hv),
      Hget, Hst.
    apply String.eqb_neq in Hne. cbn [Js.truthy_str Js.seq fst snd calls].
    rewrite Hne. cbn [negb]. rewrite made_app.
    destruct (st =? "COMPLETED") eqn:E.
    + apply String.eqb_eq in E.
      split; [tauto|]. split; [congruence | reflexivity].
    + apply String.eqb_neq in E.
      split; [split; [discriminate | contradiction]|].
      split; reflexivity.
Qed.

End Status.

Lemma payment_status_is_two_way_witness :
  (PaypalModuleService.getPaymentStatus Fixture.remote
     (Fixture.input_for Fixture.order_id)
     (Fixture.start Fixture.created_order)).1
  = inr PaymentSessionStatus.AUTHORIZED
  /\ (PaypalModuleService.getPaymentStatus Fixture.remote
        (Fixture.input_for Fixture.order_id)
        (Fixture.start Fixture.voided_order)).1
     = inr PaymentSessionStatus.AUTHORIZED
  /\ (PaypalModuleService.getPaymentStatus Fixture.remote
        (Fixture.input_for Fixture.order_id)
        (Fixture.start Fixture.completed_order)).1
     = inr PaymentSessionStatus.CAPTURED.
Proof.
  split; [|split].
  - assert (Hne : "CREATED" <> "") by discriminate.
    assert (Hnc : "CREATED" <> "COMPLETED") by discriminate.
    destruct (payment_status_is_two_way Fixture.remote
                (Fixture.input_for Fixture.order_id)
                (Fixture.start Fixture.created_order)) as [_ H].
    exact (proj1 (proj2 (H _ Fixture.order_id Fixture.created_order "CREATED"
                           eq_refl eq_refl eq_refl eq_refl eq_refl Hne)) Hnc).
  - assert (Hne : "VOIDED" <> "") by discriminate.
    assert (Hnc : "VOIDED" <> "COMPLETED") by discriminate.
    destruct (payment_status_is_two_way Fixture.remote
                (Fixture.input_for Fixture.order_id)
                (Fixture.start Fixture.voided_order)) as [_ H].
    exact (proj1 (proj2 (H _ Fixture.order_id Fixture.voided_order "VOIDED"
                           eq_refl eq_refl eq_refl eq_refl eq_refl Hne)) Hnc).
  - assert (Hne : "COMPLETED" <> "") by discriminate.
    destruct (payment_status_is_two_way Fixture.remote
                (Fixture.input_for Fixture.order_id)
                (Fixture.start Fixture.completed_order)) as [_ H].
    exact (proj2 (proj1 (H _ Fixture.order_id Fixture.completed_order
                           "COMPLETED"
                           eq_refl eq_refl eq_refl eq_refl eq_refl Hne))
                 eq_refl).
Defined.

(* ===================================================================== *)
(** ** Identifier validation *)
(* ===================================================================== *)

Lemma test_shape lo hi id :
  IdPattern.test lo hi id = true
  <-> (lo <= String.length id <= hi)%nat
      /\ IdPattern.all_upper_alnum id = true.
Proof.
  unfold IdPattern.test.
  rewrite !andb_true_iff, !Nat.leb_le. tauto.
Qed.

Lemma validatePayPalOrderId_shape id :
  PaypalModuleService.validatePayPalOrderId (Some id) = true
  <-> String.length id = 17%nat /\ IdPattern.all_upper_alnum id = true.
Proof.
  unfold PaypalModuleService.validatePayPalOrderId, IdPattern.orderIdPattern.
  destruct id as [|c id]; simpl Js.truthy_str; cbn [negb].
  - split; [discriminate | intros [H _]; discriminate].
  - rewrite test_shape. split; intros [H1 H2]; split; auto; lia.
Qed.

Lemma validatePayPalCaptureId_shape id :
  PaypalModuleService.validatePayPalCaptureId (Some id) = true
  <-> (17 <= String.length id <= 20)%nat
      /\ IdPattern.all_upper_alnum id = true.
Proof.
  unfold PaypalModuleService.validatePayPalCaptureId,
    IdPattern.captureIdPattern.
  destruct id as [|c id]; simpl Js.truthy_str; cbn [negb].
  - split; [discriminate | intros [[H _] _]; simpl in H; lia].
  - apply test_shape.
Qed.

(** The helpers of utils/security.ts return only identifiers of the
    shape, namely the trimmed argument. *)
Lemma validateAndSanitizeOrderId_shape rt value id :
  Security.validateAndSanitizeOrderId rt value = inr id ->
  String.length id = 17%nat /\ IdPattern.all_upper_alnum id = true
  /\ exists raw, value = Some raw /\ id = Js.String_trim rt raw.
Proof.
  unfold Security.validateAndSanitizeOrderId, Security.validateAndSanitize.
  destruct value as [raw|]; [|discriminate].
  destruct (raw =? ""); [discriminate|].
  destruct (IdPattern.orderIdPattern (Js.String_trim rt raw)) eqn:E;
    [|discriminate].
  cbn [negb]. intros [= <-].
  apply test_shape in E as [Hlen Hall].
  split; [lia|]. split; [exact Hall|]. eauto.
Qed.

Section Validation.

Context {W : Type}.
Variable R : Remote W.
Variable rt : Js.Runtime.

(** C7, evaluated on the code.  An order identifier passes validation
    exactly when it is 17 characters of [A-Z0-9] (17 to 20 for a capture
    identifier).  With an order identifier that does not pass, capture,
    status, retrieve and refund fail with an invalid-data error and make
    no remote call, and so does refund for a capture identifier that does
    not pass.  Authorize has no such check: given an amount and a
    currency, it sends whatever non-empty identifier it received to the
    processor. *)
Theorem identifier_validation now input input_data badId (s : St W) :
  data input = Some input_data ->
  data_id input_data = Some badId ->
  PaypalModuleService.validatePayPalOrderId (Some badId) = false ->
  (forall id,
      PaypalModuleService.validatePayPalOrderId (Some id) = true
      <-> String.length id = 17%nat /\ IdPattern.all_upper_alnum id = true)
  /\ (forall id,
         PaypalModuleService.validatePayPalCaptureId (Some id) = true
         <-> (17 <= String.length id <= 20)%nat
             /\ IdPattern.all_upper_alnum id = true)
  /\ (exists m, PaypalModuleService.capturePayment R now input s
                = (inl (Js.MedusaError Js.INVALID_DATA m), s))
  /\ (exists m, PaypalModuleService.getPaymentStatus R input s
                = (inl (Js.MedusaError Js.INVALID_DATA m), s))
  /\ (exists m, PaypalModuleService.retrievePayment R input_data s
                = (inl (Js.MedusaError Js.INVALID_DATA m), s))
  /\ (exists m, PaypalModuleService.refundPayment R now input s
                = (inl (Js.MedusaError Js.INVALID_DATA m), s))
  /\ (forall input' input_data' units captureId,
         data input' = Some input_data' ->
         data_purchaseUnits input_data' = Some units ->
         In captureId (PaypalModuleService.captureIds_of units) ->
         PaypalModuleService.validatePayPalCaptureId (Some captureId)
         = false ->
         exists m, PaypalModuleService.refundPayment R now input' s
                   = (inl (Js.MedusaError Js.INVALID_DATA m), s))
  /\ (badId <> "" ->
      Js.truthy_num (data_amount input_data) = true ->
      Js.truthy_str (data_currency_code input_data) = true ->
      exists rest,
        made (calls s)
             (calls (PaypalModuleService.authorizePayment R rt input s).2)
        = GetOrder badId :: rest).
Proof.
  intros Hd Hid Hbad.
  split; [apply validatePayPalOrderId_shape|].
  split; [apply validatePayPalCaptureId_shape|].
  split.
  { unfold PaypalModuleService.capturePayment, try_catch.
    rewrite Hd, Hid, Hbad.
    destruct (badId =? ""); eexists; reflexivity. }
  split.
  { unfold PaypalModuleService.getPaymentStatus, try_catch.
    rewrite Hd, Hid, Hbad.
    destruct (badId =? ""); eexists; reflexivity. }
  split.
  { unfold PaypalModuleService.retrievePayment, try_catch.
    rewrite Hid, Hbad.
    destruct (badId =? ""); eexists; reflexivity. }
  split.
  { unfold PaypalModuleService.refundPayment, try_catch.
    rewrite Hd, Hid, Hbad.
    destruct (PaypalModuleService.captureIds_of _);
      [|destruct (badId =? "")]; eexists; reflexivity. }
  split.
  { intros input' input_data' units captureId Hd' Hu Hin Hc.
    unfold PaypalModuleService.refundPayment, try_catch.
    rewrite Hd', Hu.
    assert (Hall : forallb
                     (fun c => PaypalModuleService.validatePayPalCaptureId
                                 (Some c))
                     (PaypalModuleService.captureIds_of units) = false).
    { apply not_true_is_false. intros Hall.
      rewrite forallb_forall in Hall. rewrite (Hall _ Hin) in Hc.
      discriminate. }
    destruct (data_id input_data') as [order_id|];
      destruct (PaypalModuleService.captureIds_of units) as [|c cs] eqn:Ec;
      try (eexists; reflexivity).
    rewrite Hall.
    destruct (order_id =? "");
      [|destruct (PaypalModuleService.validatePayPalOrderId (Some order_id))];
      eexists; reflexivity. }
  intros Hne Hamt Hcur.
  apply String.eqb_neq in Hne.
  unfold PaypalModuleService.authorizePayment.
  rewrite Hd, Hid, Hne, Hamt, Hcur. cbn [negb orb].
  unfold bind at 1, try_catch at 1. rewrite retrieveOrder_run.
  destruct (ordersController_getOrder R (world s) badId) as [e|o].
  { cbn [snd calls throw]. unfold throw. cbn [snd calls].
    rewrite made_app. eauto. }
  unfold bind, lift, try_catch, PaypalService.authorizeOrder, command, throw,
    ret.
  cbn [world calls].
  repeat break_match;
    repeat match goal with
           | H : (_, _) = (_, _) |- _ => injection H as ? ?; subst
           end;
    cbn [snd calls]; rewrite <- ?app_assoc, made_app; eauto.
Qed.

End Validation.

(** The failing input of C7: an identifier that is anything but 17
    characters of [A-Z0-9] reaches the processor through authorize, while
    the status operation rejects it without a call. *)
Lemma identifier_validation_witness :
  PaypalModuleService.validatePayPalOrderId (Some "../../v1/invoices")
  = false
  /\ (exists rest,
         calls (PaypalModuleService.authorizePayment Fixture.remote Fixture.rt
                  (Fixture.input_for "../../v1/invoices")
                  (Fixture.start Fixture.approved_order)).2
         = GetOrder "../../v1/invoices" :: rest)
  /\ (exists m,
         PaypalModuleService.getPaymentStatus Fixture.remote
           (Fixture.input_for "../../v1/invoices")
           (Fixture.start Fixture.approved_order)
         = (inl (Js.MedusaError Js.INVALID_DATA m),
            Fixture.start Fixture.approved_order)).
Proof.
  assert (Hbad : PaypalModuleService.validatePayPalOrderId
                   (Some "../../v1/invoices") = false) by reflexivity.
  assert (Hne : "../../v1/invoices" <> "") by discriminate.
  destruct (identifier_validation Fixture.remote Fixture.rt
              "2025-09-10T12:00:00Z" (Fixture.input_for "../../v1/invoices")
              _ "../../v1/invoices" (Fixture.start Fixture.approved_order)
              eq_refl eq_refl Hbad)
    as (_ & _ & _ & Hstatus & _ & _ & _ & Hauth).
  split; [exact Hbad|]. split; [|exact Hstatus].
  exact (Hauth Hne eq_refl eq_refl).
Defined.

(* ===================================================================== *)
(** ** Amount formatting *)
(* ===================================================================== *)

Lemma append_cons (c : ascii) (a b : string) :
  String c a ++ b = String c (a ++ b).
Proof. reflexivity. Qed.

Lemma append_nil_l (s : string) : "" ++ s = s.
Proof. reflexivity. Qed.

Lemma append_nil_r (s : string) : s ++ "" = s.
Proof.
  induction s as [|c s IH]; [reflexivity | now rewrite append_cons, IH].
Qed.

Lemma append_assoc (a b c : string) : (a ++ b) ++ c = a ++ (b ++ c).
Proof.
  induction a as [|x a IH]; [reflexivity | now rewrite !append_cons, IH].
Qed.

Lemma all_digits_app a b :
  all_digits (a ++ b) = all_digits a && all_digits b.
Proof.
  induction a as [|c a IH]; simpl; [reflexivity|].
  now rewrite IH, andb_assoc.
Qed.

Lemma has_char_app c a b :
  has_char c (a ++ b) = has_char c a || has_char c b.
Proof.
  induction a as [|c' a IH]; simpl; [reflexivity|].
  now rewrite IH, orb_assoc.
Qed.

Lemma length_app_string (a b : string) :
  String.length (a ++ b) = (String.length a + String.length b)%nat.
Proof. induction a as [|c a IH]; simpl; auto. Qed.

Lemma zeros_digits k :
  all_digits (Num.zeros k) = true /\ String.length (Num.zeros k) = k.
Proof. induction k as [|k [IH1 IH2]]; simpl; auto. Qed.

Lemma string_of_uint_digits d :
  all_digits (NilEmpty.string_of_uint d) = true.
Proof. induction d; simpl; auto. Qed.

Lemma digits_spec n :
  all_digits (Num.digits n) = true /\ Num.digits n <> "".
Proof.
  unfold Num.digits, NilZero.string_of_uint.
  destruct (N.to_uint (Z.to_N n)) eqn:E;
    try (split; [apply (string_of_uint_digits (_ u)) | discriminate]).
  split; [reflexivity | discriminate].
Qed.

Lemma substring_whole (m : string) : substring 0 (String.length m) m = m.
Proof. induction m as [|c m IH]; simpl; [reflexivity | now rewrite IH]. Qed.

(** Cutting a string at position [j]. *)
Lemma substring_split (m : string) :
  forall j, (j <= String.length m)%nat ->
    m = substring 0 j m ++ substring j (String.length m - j) m
    /\ String.length (substring 0 j m) = j
    /\ String.length (substring j (String.length m - j) m)
       = (String.length m - j)%nat.
Proof.
  induction m as [|c m IH]; intros j Hj.
  - simpl in Hj. assert (j = 0)%nat as -> by lia. simpl. auto.
  - destruct j as [|j].
    + rewrite Nat.sub_0_r, substring_whole. simpl. auto.
    + simpl in Hj. destruct (IH j) as (H1 & H2 & H3); [lia|].
      simpl. rewrite H2, H3. split; [|auto].
      change (String c m
              = String c (substring 0 j m
                          ++ substring j (String.length m - j) m)).
      now rewrite <- H1.
Qed.

(** [fixed_digits n 2] is a numeral with two decimals. *)
Lemma fixed_digits_two n :
  exists whole cents,
    Num.fixed_digits n 2 = whole ++ "." ++ cents
    /\ whole <> "" /\ all_digits whole = true
    /\ String.length cents = 2%nat /\ all_digits cents = true.
Proof.
  unfold Num.fixed_digits.
  destruct (digits_spec n) as [Hd Hne].
  set (m0 := Num.digits n) in *.
  set (m := if (String.length m0 <=? 2)%nat
            then Num.zeros (2 + 1 - String.length m0) ++ m0 else m0).
  assert (Hm : all_digits m = true /\ (3 <= String.length m)%nat).
  { subst m. destruct (String.length m0 <=? 2)%nat eqn:E.
    - apply Nat.leb_le in E.
      destruct (zeros_digits (2 + 1 - String.length m0)) as [Hz Hl].
      rewrite all_digits_app, Hz, Hd, length_app_string, Hl.
      split; [reflexivity | lia].
    - apply Nat.leb_gt in E. split; [exact Hd | lia]. }
  destruct Hm as [Hall Hlen].
  destruct (substring_split m (String.length m - 2)) as (Hs & Ha & Hb);
    [lia|].
  replace (String.length m - (String.length m - 2))%nat with 2%nat in Hs, Hb
    by lia.
  exists (substring 0 (String.length m - 2) m),
         (substring (String.length m - 2) 2 m).
  rewrite Hs, all_digits_app in Hall. apply andb_prop in Hall as [H1 H2].
  repeat split; auto.
  intros Hempty. rewrite Hempty in Ha. simpl in Ha. lia.
Qed.

Lemma round_half_up_nearest m e :
  (e < 0)%Z ->
  let k := Num.round_half_up m e in
  ((2 * k - 1) * 2 ^ (- e) <= 2 * m < (2 * k + 1) * 2 ^ (- e))%Z.
Proof.
  intros He k. subst k. unfold Num.round_half_up.
  destruct (0 <=? e)%Z eqn:E; [apply Z.leb_le in E; lia|].
  assert (Hd : (0 < 2 ^ (- e))%Z) by (apply Z.pow_pos_nonneg; lia).
  set (d := (2 ^ (- e))%Z) in *.
  pose proof (Z.div_mod (2 * m + d) (2 * d) ltac:(lia)) as Hdm.
  pose proof (Z.mod_pos_bound (2 * m + d) (2 * d) ltac:(lia)) as Hb.
  nia.
Qed.

(** *** Doubles: rounding, division, and the double of an integer *)

Lemma digits2_pos_bounds p :
  (2 ^ (Z.pos (digits2_pos p) - 1) <= Z.pos p < 2 ^ Z.pos (digits2_pos p))%Z.
Proof.
  induction p as [p IH | p IH |]; cbn [digits2_pos].
  - rewrite Pos2Z.inj_succ.
    replace (Z.succ (Z.pos (digits2_pos p)) - 1)%Z
      with (Z.succ (Z.pos (digits2_pos p) - 1)) by lia.
    rewrite !Z.pow_succ_r by lia. lia.
  - rewrite Pos2Z.inj_succ.
    replace (Z.succ (Z.pos (digits2_pos p)) - 1)%Z
      with (Z.succ (Z.pos (digits2_pos p) - 1)) by lia.
    rewrite !Z.pow_succ_r by lia. lia.
  - cbn. lia.
Qed.

(** The number of binary digits is fixed by the power of two bounds. *)
Lemma digits2_pos_unique p d :
  (0 < d)%Z -> (2 ^ (d - 1) <= Z.pos p < 2 ^ d)%Z ->
  Z.pos (digits2_pos p) = d.
Proof.
  intros Hd [Hlo Hhi]. pose proof (digits2_pos_bounds p) as [Hlo' Hhi'].
  set (d' := Z.pos (digits2_pos p)) in *.
  assert (Hd' : (0 < d')%Z) by (subst d'; lia).
  destruct (Z.lt_trichotomy d' d) as [Hlt | [Heq | Hgt]]; [|exact Heq|].
  - assert (2 ^ d' <= 2 ^ (d - 1))%Z by (apply Z.pow_le_mono_r; lia). lia.
  - assert (2 ^ d <= 2 ^ (d' - 1))%Z by (apply Z.pow_le_mono_r; lia). lia.
Qed.

Lemma iter_xO m d : Z.pos (Pos.iter xO m d) = (Z.pos m * 2 ^ Z.pos d)%Z.
Proof.
  induction d as [|d IH] using Pos.peano_ind.
  - cbn. lia.
  - rewrite Pos.iter_succ, Pos2Z.inj_xO, IH, Pos2Z.inj_succ,
      Z.pow_succ_r by lia. lia.
Qed.

(** Shifting a record by one binary digit halves its mantissa. *)
Lemma shr_1_m mrs :
  (0 <= shr_m mrs)%Z -> shr_m (shr_1 mrs) = Z.div2 (shr_m mrs).
Proof.
  destruct mrs as [m r s]. cbn [shr_m]. intros Hm.
  destruct m as [|p|p]; [reflexivity | | lia].
  destruct p; reflexivity.
Qed.

Lemma shr_record_of_loc_m m l : shr_m (shr_record_of_loc m l) = m.
Proof. destruct l as [|[]]; reflexivity. Qed.

Lemma round_nearest_even_bounds m l :
  (m <= round_nearest_even m l <= m + 1)%Z.
Proof.
  unfold round_nearest_even. destruct l as [|[]]; try lia.
  destruct (Z.even m); lia.
Qed.

Lemma Zdigits2_unique m d :
  (0 < d)%Z -> (2 ^ (d - 1) <= m < 2 ^ d)%Z -> Zdigits2 m = d.
Proof.
  intros Hd Hm. assert (0 < 2 ^ (d - 1))%Z by (apply Z.pow_pos_nonneg; lia).
  destruct m as [|p|p]; try lia. cbn. now apply digits2_pos_unique.
Qed.

(** Rounding a mantissa that carries 53 or 54 binary digits: at most one digit
    is dropped, and what is kept is within two units of the input. *)
Lemma shr_fexp_round q E l :
  (2 ^ 52 <= q < 2 ^ 54)%Z -> (SpecFloat.emin prec emax <= E)%Z ->
  exists N e,
    (let '(mrs, e') := shr_fexp prec emax q E l in
     (round_nearest_even (shr_m mrs) (loc_of_shr_record mrs), e')) = (N, e)
    /\ (E <= e <= E + 1)%Z
    /\ (2 ^ 52 <= N <= 2 ^ 53)%Z
    /\ (q - 1 <= N * 2 ^ (e - E) <= q + 2)%Z.
Proof.
  intros Hq HE. unfold shr_fexp.
  destruct (Z_lt_le_dec q (2 ^ 53)) as [Hlt | Hge].
  - rewrite (Zdigits2_unique q 53) by lia.
    unfold fexp. replace (Z.max (53 + E - prec) (SpecFloat.emin prec emax) - E)%Z
      with 0%Z by (unfold prec in *; lia).
    cbn [shr].
    eexists _, _. split; [reflexivity|].
    pose proof (round_nearest_even_bounds
                  (shr_m (shr_record_of_loc q l))
                  (loc_of_shr_record (shr_record_of_loc q l))) as Hb.
    rewrite shr_record_of_loc_m in Hb |- *.
    rewrite Z.sub_diag. cbn [Z.pow]. lia.
  - rewrite (Zdigits2_unique q 54) by lia.
    unfold fexp. replace (Z.max (54 + E - prec) (SpecFloat.emin prec emax) - E)%Z
      with 1%Z by (unfold prec in *; lia).
    cbn [shr]. cbv [SpecFloat.iter_pos].
    eexists _, _. split; [reflexivity|].
    pose proof (round_nearest_even_bounds
                  (shr_m (shr_1 (shr_record_of_loc q l)))
                  (loc_of_shr_record (shr_1 (shr_record_of_loc q l)))) as Hb.
    rewrite shr_1_m in Hb |- * by (rewrite shr_record_of_loc_m; lia).
    rewrite shr_record_of_loc_m in Hb |- *.
    replace (E + 1 - E)%Z with 1%Z by lia.
    rewrite Z.div2_div in *.
    pose proof (Z.div_mod q 2 ltac:(lia)).
    pose proof (Z.mod_pos_bound q 2 ltac:(lia)).
    change (2 ^ 1)%Z with 2%Z. change (2 ^ 52)%Z with 4503599627370496%Z in *.
    change (2 ^ 53)%Z with 9007199254740992%Z in *.
    change (2 ^ 54)%Z with 18014398509481984%Z in *.
    lia.
Qed.

(** A mantissa of 53 digits, or the power of two just above, is kept as it
    is or with one digit shifted out. *)
Lemma shr_fexp_final s N E :
  (2 ^ 52 <= N <= 2 ^ 53)%Z ->
  (SpecFloat.emin prec emax <= E)%Z -> (E + 1 <= emax - prec)%Z ->
  exists m e,
    (let '(mrs, e') := shr_fexp prec emax N E loc_Exact in
     match shr_m mrs with
     | Z0 => S754_zero s
     | Zpos m => if Z.leb e' (emax - prec) then S754_finite s m e'
                 else S754_infinity s
     | _ => S754_nan
     end) = S754_finite s m e
    /\ (E <= e <= E + 1)%Z /\ (Z.pos m * 2 ^ (e - E) = N)%Z.
Proof.
  intros HN HE Hmax. unfold shr_fexp.
  destruct (Z_lt_le_dec N (2 ^ 53)) as [Hlt | Hge].
  - rewrite (Zdigits2_unique N 53) by lia.
    unfold fexp. replace (Z.max (53 + E - prec) (SpecFloat.emin prec emax) - E)%Z
      with 0%Z by (unfold prec in *; lia).
    cbn [shr shr_record_of_loc shr_m].
    destruct N as [|p|p]; try lia.
    replace (E <=? emax - prec)%Z with true by (symmetry; apply Z.leb_le; lia).
    exists p, E. split; [reflexivity|]. rewrite Z.sub_diag. cbn [Z.pow]. lia.
  - assert (N = 2 ^ 53)%Z as -> by lia.
    change (Zdigits2 (2 ^ 53)) with 54%Z.
    unfold fexp. replace (Z.max (54 + E - prec) (SpecFloat.emin prec emax) - E)%Z
      with 1%Z by (unfold prec in *; lia).
    cbn [shr]. cbv [SpecFloat.iter_pos].
    change (shr_m (shr_1 (shr_record_of_loc (2 ^ 53) loc_Exact)))
      with (Z.pos (4503599627370496)).
    cbv iota beta.
    replace (E + 1 <=? emax - prec)%Z with true
      by (symmetry; apply Z.leb_le; lia).
    eexists _, _. split; [reflexivity|].
    replace (E + 1 - E)%Z with 1%Z by lia. split; [lia | reflexivity].
Qed.

Lemma binary_round_aux_bounds s q E l :
  (2 ^ 52 <= q < 2 ^ 54)%Z ->
  (SpecFloat.emin prec emax <= E)%Z -> (E + 2 <= emax - prec)%Z ->
  exists m e,
    binary_round_aux prec emax s q E l = S754_finite s m e
    /\ (E <= e <= E + 2)%Z
    /\ (q - 1 <= Z.pos m * 2 ^ (e - E) <= q + 2)%Z.
Proof.
  intros Hq HE Hmax. unfold binary_round_aux.
  destruct (shr_fexp_round q E l Hq HE) as (N & e1 & Hr & He1 & HN & Hv).
  destruct (shr_fexp prec emax q E l) as [mrs' e'].
  injection Hr as -> ->.
  destruct (shr_fexp_final s N e1 HN ltac:(lia) ltac:(lia))
    as (m & e & -> & He & Hm).
  exists m, e. split; [reflexivity|]. split; [lia|].
  replace (e - E)%Z with ((e - e1) + (e1 - E))%Z by lia.
  rewrite Z.pow_add_r by lia. rewrite Z.mul_assoc, Hm. exact Hv.
Qed.

(** A mantissa of exactly 53 digits is not rounded. *)
Lemma binary_round_aux_exact s M E :
  (2 ^ 52 <= Z.pos M < 2 ^ 53)%Z ->
  (SpecFloat.emin prec emax <= E <= emax - prec)%Z ->
  binary_round_aux prec emax s (Z.pos M) E loc_Exact = S754_finite s M E.
Proof.
  intros HM HE. unfold binary_round_aux, shr_fexp.
  rewrite (Zdigits2_unique (Z.pos M) 53) by lia.
  unfold fexp. replace (Z.max (53 + E - prec) (SpecFloat.emin prec emax) - E)%Z
    with 0%Z by (unfold prec in *; lia).
  cbn [shr shr_record_of_loc shr_m loc_of_shr_record round_nearest_even].
  rewrite (Zdigits2_unique (Z.pos M) 53) by lia.
  replace (Z.max (53 + E - prec) (SpecFloat.emin prec emax) - E)%Z
    with 0%Z by (unfold prec in *; lia).
  cbn [shr shr_record_of_loc shr_m].
  now replace (E <=? emax - prec)%Z with true by (symmetry; apply Z.leb_le; lia).
Qed.

(** The quotient of two doubles with full mantissas, away from overflow and
    underflow: a finite double within two units of the last place of the
    exact quotient. *)
Lemma SFdiv_bounds s1 m1 e1 s2 m2 e2 :
  (2 ^ 52 <= Z.pos m1 < 2 ^ 53)%Z -> (2 ^ 52 <= Z.pos m2 < 2 ^ 53)%Z ->
  (SpecFloat.emin prec emax <= e1 - e2 - 53)%Z ->
  (e1 - e2 - 53 + 2 <= emax - prec)%Z ->
  exists m e,
    SFdiv prec emax (S754_finite s1 m1 e1) (S754_finite s2 m2 e2)
    = S754_finite (xorb s1 s2) m e
    /\ (e1 - e2 - 53 <= e <= e1 - e2 - 53 + 2)%Z
    /\ (- 2 * Z.pos m2
        < Z.pos m * 2 ^ (e - (e1 - e2 - 53)) * Z.pos m2 - Z.pos m1 * 2 ^ 53
        <= 2 * Z.pos m2)%Z.
Proof.
  intros H1 H2 HE Hmax. unfold SFdiv, SFdiv_core_binary. cbv zeta.
  rewrite !(Zdigits2_unique _ 53) by lia.
  assert (He' : Z.min (fexp prec emax (53 + e1 - (53 + e2))) (e1 - e2)
                = (e1 - e2 - 53)%Z)
    by (unfold fexp, prec in *; lia).
  rewrite He'.
  replace (e1 - e2 - (e1 - e2 - 53))%Z with 53%Z by lia.
  cbv iota beta. rewrite Z.shiftl_mul_pow2 by lia.
  pose proof (Z_div_mod (Z.pos m1 * 2 ^ 53) (Z.pos m2) ltac:(lia)) as Hdiv.
  destruct (Z.div_eucl (Z.pos m1 * 2 ^ 53) (Z.pos m2)) as [q r].
  destruct Hdiv as [Hq Hr].
  change (2 ^ 52)%Z with 4503599627370496%Z in *.
  change (2 ^ 53)%Z with 9007199254740992%Z in *.
  assert (Hqb : (2 ^ 52 <= q < 2 ^ 54)%Z).
  { change (2 ^ 52)%Z with 4503599627370496%Z.
    change (2 ^ 54)%Z with 18014398509481984%Z. nia. }
  destruct (binary_round_aux_bounds (xorb s1 s2) q (e1 - e2 - 53)
              (new_location (Z.pos m2) r) Hqb HE Hmax)
    as (m & e & -> & He & Hv).
  exists m, e. split; [reflexivity|]. split; [exact He|]. nia.
Qed.

(** Only one integer is nearest (ties going up). *)
Lemma round_half_up_unique m e k :
  (e < 0)%Z ->
  ((2 * k - 1) * 2 ^ (- e) <= 2 * m < (2 * k + 1) * 2 ^ (- e))%Z ->
  Num.round_half_up m e = k.
Proof.
  intros He Hk. pose proof (round_half_up_nearest m e He) as Hr.
  cbv zeta in Hr.
  assert (Hd : (0 < 2 ^ (- e))%Z) by (apply Z.pow_pos_nonneg; lia).
  set (d := (2 ^ (- e))%Z) in *. set (r := Num.round_half_up m e) in *.
  nia.
Qed.

(** The double of a positive integer below 2^52: the integer itself, with a
    full mantissa. *)
Lemma of_uint63_exact K :
  (0 < K < 2 ^ 52)%Z ->
  exists m a,
    Prim2SF (of_uint63 (Uint63.of_Z K)) = S754_finite false m (- a)
    /\ (1 <= a <= 52)%Z
    /\ Z.pos m = (K * 2 ^ a)%Z
    /\ (2 ^ 52 <= Z.pos m < 2 ^ 53)%Z.
Proof.
  intros HK. rewrite of_uint63_spec, Uint63.of_Z_spec.
  rewrite Z.mod_small
    by (change (2 ^ 52)%Z with 4503599627370496%Z in HK;
        change wB with 9223372036854775808%Z; lia).
  destruct K as [|p|p]; try lia.
  unfold binary_normalize, binary_round.
  pose proof (digits2_pos_bounds p) as Hd.
  set (d := Z.pos (digits2_pos p)) in *.
  assert (Hd1 : (1 <= d)%Z) by (subst d; lia).
  assert (Hd52 : (d <= 52)%Z).
  { destruct (Z_le_gt_dec d 52) as [|Hgt]; [assumption|].
    assert (2 ^ 52 <= 2 ^ (d - 1))%Z by (apply Z.pow_le_mono_r; lia). lia. }
  assert (Hf : fexp prec emax (d + 0) = (d - 53)%Z)
    by (unfold fexp, SpecFloat.emin, prec, emax; lia).
  rewrite Hf. unfold shl_align.
  destruct (d - 53 - 0)%Z as [|x|x] eqn:Hx; try lia.
  assert (Hm : Z.pos (Pos.iter xO p x) = (Z.pos p * 2 ^ (53 - d))%Z).
  { rewrite iter_xO. f_equal. f_equal. lia. }
  assert (Hb : (2 ^ 52 <= Z.pos (Pos.iter xO p x) < 2 ^ 53)%Z).
  { rewrite Hm.
    assert (H52 : (2 ^ 52 = 2 ^ (d - 1) * 2 ^ (53 - d))%Z)
      by (rewrite <- Z.pow_add_r by lia; f_equal; lia).
    assert (H53 : (2 ^ 53 = 2 ^ d * 2 ^ (53 - d))%Z)
      by (rewrite <- Z.pow_add_r by lia; f_equal; lia).
    rewrite H52, H53.
    assert (0 < 2 ^ (53 - d))%Z by (apply Z.pow_pos_nonneg; lia).
    nia. }
  rewrite binary_round_aux_exact;
    [| exact Hb | unfold SpecFloat.emin, prec, emax; lia].
  exists (Pos.iter xO p x), (53 - d)%Z.
  split; [f_equal; lia|]. split; [lia|]. split; [exact Hm | exact Hb].
Qed.

(** *** Decimal digits *)

Lemma string_of_revapp u : forall v,
  NilEmpty.string_of_uint (Decimal.revapp u v)
  = NilEmpty.string_of_uint (Decimal.rev u) ++ NilEmpty.string_of_uint v.
Proof.
  unfold Decimal.rev.
  induction u as [|u IH|u IH|u IH|u IH|u IH|u IH|u IH|u IH|u IH|u IH];
    intros v; [reflexivity|..];
    cbn [Decimal.revapp]; rewrite IH;
    match goal with
    | |- context [Decimal.revapp u (?D Decimal.Nil)] =>
        rewrite (IH (D Decimal.Nil))
    end; rewrite append_assoc; reflexivity.
Qed.

Lemma to_uint_rev_lu n :
  n <> 0%N -> N.to_uint n = Decimal.rev (DecimalPos.Unsigned.to_lu n).
Proof. destruct n; [congruence | reflexivity]. Qed.

Lemma string_of_to_uint n :
  n <> 0%N ->
  NilZero.string_of_uint (N.to_uint n)
  = NilEmpty.string_of_uint (N.to_uint n).
Proof.
  destruct n as [|p]; [congruence|]. intros _. cbn [N.to_uint].
  pose proof (DecimalPos.Unsigned.to_uint_nonnil p) as H.
  unfold NilZero.string_of_uint. now destruct (Pos.to_uint p).
Qed.

Lemma to_lu_add k n :
  DecimalPos.Unsigned.to_lu (n + N.of_nat k)
  = Nat.iter k Decimal.Little.succ (DecimalPos.Unsigned.to_lu n).
Proof.
  induction k as [|k IH]; [now rewrite N.add_0_r|].
  rewrite Nat2N.inj_succ, N.add_succ_r, DecimalPos.Unsigned.to_lu_succ, IH.
  reflexivity.
Qed.

(** The decimal digits of a number of two digits or more: those of its
    tenth, then the digit of the units. *)
Lemma digits_snoc n :
  (10 <= n)%N ->
  NilZero.string_of_uint (N.to_uint n)
  = NilZero.string_of_uint (N.to_uint (n / 10))
    ++ String (ascii_of_nat (48 + N.to_nat (n mod 10))) "".
Proof.
  intros Hn.
  pose proof (N.div_mod n 10 ltac:(lia)) as Hdm.
  pose proof (N.mod_lt n 10 ltac:(lia)) as Hr.
  set (q := (n / 10)%N) in *. set (r := (n mod 10)%N) in *.
  assert (Hq : q <> 0%N) by lia.
  rewrite !string_of_to_uint by lia.
  rewrite (to_uint_rev_lu n), (to_uint_rev_lu q) by lia.
  assert (Hlu : exists d,
             DecimalPos.Unsigned.to_lu n = d (DecimalPos.Unsigned.to_lu q)
             /\ (forall u, Decimal.rev (d u)
                           = Decimal.revapp u (d Decimal.Nil))
             /\ NilEmpty.string_of_uint (d Decimal.Nil)
                = String (ascii_of_nat (48 + N.to_nat r)) "").
  { destruct q as [|p]; [congruence|].
    pose proof (DecimalPos.Unsigned.to_ldec_tenfold p) as H10.
    rewrite Hdm, <- (N2Nat.id r), to_lu_add, H10, Nat2N.id.
    assert (Hk : (N.to_nat r < 10)%nat) by lia.
    destruct (N.to_nat r) as [|[|[|[|[|[|[|[|[|[|k]]]]]]]]]]; [..|lia];
      eexists; (split; [reflexivity | split; reflexivity]). }
  destruct Hlu as (d & -> & Hrev & <-).
  rewrite Hrev. apply string_of_revapp.
Qed.

Lemma digits_snoc_Z n :
  (10 <= n)%Z ->
  Num.digits n
  = Num.digits (n / 10)
    ++ String (ascii_of_nat (48 + Z.to_nat (n mod 10))) "".
Proof.
  intros Hn. unfold Num.digits.
  rewrite (digits_snoc (Z.to_N n)) by lia.
  rewrite Z2N.inj_div by lia.
  replace (N.to_nat (Z.to_N n mod 10)) with (Z.to_nat (n mod 10));
    [reflexivity|].
  rewrite <- Z_N_nat, Z2N.inj_mod by lia. reflexivity.
Qed.

Lemma substring_app_l (a b : string) :
  substring 0 (String.length a) (a ++ b) = a.
Proof.
  induction a as [|c a IH].
  - cbn. now destruct b.
  - rewrite append_cons. cbn [String.length substring]. now rewrite IH.
Qed.

Lemma substring_app_r (a b : string) :
  substring (String.length a) (String.length b) (a ++ b) = b.
Proof.
  induction a as [|c a IH].
  - rewrite append_nil_l. cbn [String.length].
    induction b as [|c b IHb]; [reflexivity|].
    cbn [String.length substring]. now rewrite IHb.
  - rewrite append_cons. cbn [String.length substring]. exact IH.
Qed.

Lemma digits_nonempty n : (1 <= String.length (Num.digits n))%nat.
Proof.
  unfold Num.digits, NilZero.string_of_uint.
  destruct (N.to_uint (Z.to_N n)); cbn; lia.
Qed.

(** [fixed_digits n 2] spelled out: the digits of the hundreds, a point, the
    digit of the tens and the digit of the units. *)
Lemma fixed_digits_cents n :
  (0 <= n)%Z ->
  Num.fixed_digits n 2
  = NilZero.string_of_uint (N.to_uint (Z.to_N (n / 100)))
    ++ "."
    ++ String (ascii_of_nat (48 + Z.to_nat (n / 10 mod 10)))
         (String (ascii_of_nat (48 + Z.to_nat (n mod 10))) "").
Proof.
  intros Hn.
  destruct (Z_lt_le_dec n 10) as [H10 | H10].
  - assert (Hk : (Z.to_nat n < 10)%nat) by lia.
    rewrite <- (Z2Nat.id n Hn). revert Hk. generalize (Z.to_nat n) as units.
    intros units Hk.
    do 10 (destruct units as [|units]; [reflexivity|]). lia.
  - pose proof (digits_snoc_Z n H10) as Hs.
    assert (Hdiv : (n / 10 / 10 = n / 100)%Z)
      by (rewrite Z.div_div by lia; reflexivity).
    pose proof (Z.mod_pos_bound n 10 ltac:(lia)) as Hu.
    set (units := ascii_of_nat (48 + Z.to_nat (n mod 10))) in *.
    destruct (Z_lt_le_dec n 100) as [H100 | H100].
    + assert (Ht : (1 <= n / 10 < 10)%Z)
        by (split; [apply Z.div_le_lower_bound | apply Z.div_lt_upper_bound];
            lia).
      rewrite (Z.mod_small (n / 10) 10) by lia.
      rewrite (Z.div_small n 100) by lia.
      unfold Num.fixed_digits. rewrite Hs.
      assert (Hk : (Z.to_nat (n / 10) < 10)%nat) by lia.
      rewrite <- (Z2Nat.id (n / 10)) by lia. revert Hk.
      generalize (Z.to_nat (n / 10)) as tens. intros tens Hk.
      do 10 (destruct tens as [|tens]; [reflexivity|]). lia.
    + assert (Ht : (10 <= n / 10)%Z) by (apply Z.div_le_lower_bound; lia).
      pose proof (digits_snoc_Z (n / 10) Ht) as Ht'.
      rewrite Hdiv in Ht'.
      set (tens := ascii_of_nat (48 + Z.to_nat (n / 10 mod 10))) in *.
      set (whole := Num.digits (n / 100)) in *.
      assert (Hm : Num.digits n = whole ++ String tens (String units ""))
        by (rewrite Hs, Ht', append_assoc; reflexivity).
      pose proof (digits_nonempty (n / 100)) as Hw. fold whole in Hw.
      unfold Num.fixed_digits. cbv zeta. rewrite Hm.
      rewrite !length_app_string. cbn [String.length].
      replace (String.length whole + 2 <=? 2)%nat with false
        by (symmetry; apply Nat.leb_gt; lia).
      rewrite !length_app_string. cbn [String.length].
      replace (String.length whole + 2 - 2)%nat with (String.length whole)
        by lia.
      rewrite substring_app_l.
      change 2%nat with (String.length (String tens (String units ""))) at 1.
      rewrite substring_app_r. reflexivity.
Qed.

(** *** [formatAmount] *)

Lemma Prim2SF_100 :
  Prim2SF 100%float = S754_finite false 7036874417766400 (-46).
Proof. reflexivity. Qed.

(** Dividing the double of a whole number of cents by 100 and printing the
    quotient with two decimals gives the cents back: the quotient is within
    two units of its last place of the exact one, which is less than half a
    cent while the cents stay below 2^51. *)
Lemma div_100_cents x s m a K :
  Prim2SF x = S754_finite s m (- a) ->
  Z.pos m = (K * 2 ^ a)%Z -> (2 ^ 52 <= Z.pos m < 2 ^ 53)%Z ->
  (0 < K < 2 ^ 51)%Z -> (0 <= a)%Z ->
  exists mx ex,
    Prim2SF (x / 100)%float = S754_finite s mx ex
    /\ (ex < 0)%Z
    /\ Num.ge_1e21 mx ex = false
    /\ Num.round_half_up (Z.pos mx * 10 ^ Z.of_nat 2) ex = K.
Proof.
  intros Hx Hm Hb HK Ha.
  assert (Ha2 : (2 <= a)%Z).
  { destruct (Z_le_gt_dec 2 a) as [|Hlt]; [assumption|].
    assert (2 ^ a <= 2 ^ 1)%Z by (apply Z.pow_le_mono_r; lia).
    change (2 ^ 1)%Z with 2%Z in *.
    change (2 ^ 51)%Z with 2251799813685248%Z in *.
    change (2 ^ 52)%Z with 4503599627370496%Z in *. nia. }
  assert (Ha52 : (a <= 52)%Z).
  { destruct (Z_le_gt_dec a 52) as [|Hgt]; [assumption|].
    assert (2 ^ 53 <= 2 ^ a)%Z by (apply Z.pow_le_mono_r; lia). nia. }
  assert (HA : (4 <= 2 ^ a)%Z)
    by (change 4%Z with (2 ^ 2)%Z; apply Z.pow_le_mono_r; lia).
  rewrite FloatAxioms.div_spec, Hx, Prim2SF_100. unfold SF64div.
  destruct (SFdiv_bounds s m (- a) false 7036874417766400 (-46))
    as (mx & ex & -> & He & Hv);
    [ exact Hb | vm_compute; split; [discriminate | reflexivity]
    | unfold SpecFloat.emin, prec, emax; lia | unfold prec, emax; lia |].
  rewrite xorb_false_r. exists mx, ex.
  split; [reflexivity|].
  rewrite Hm in Hv. set (A := (2 ^ a)%Z) in *.
  change (2 ^ 53)%Z with 9007199254740992%Z in *.
  assert (Hex : (ex = - a - 7 \/ ex = - a - 6 \/ ex = - a - 5)%Z) by lia.
  assert (Hpow : forall c, (0 <= c)%Z -> (2 ^ (a + c) = A * 2 ^ c)%Z)
    by (intros c Hc; subst A; apply Z.pow_add_r; lia).
  split; [lia|].
  destruct Hex as [-> | [-> | ->]].
  - replace (- a - 7 - (- a - -46 - 53))%Z with 0%Z in Hv by lia.
    change (2 ^ 0)%Z with 1%Z in Hv.
    split.
    + unfold Num.ge_1e21.
      replace (0 <=? - a - 7)%Z with false by (symmetry; apply Z.leb_gt; lia).
      replace (- (- a - 7))%Z with (a + 7)%Z by lia.
      rewrite Hpow by lia. apply Z.leb_gt.
      change (10 ^ 21)%Z with 1000000000000000000000%Z.
      change (2 ^ 7)%Z with 128%Z. lia.
    + apply round_half_up_unique; [lia|].
      replace (- (- a - 7))%Z with (a + 7)%Z by lia.
      rewrite Hpow by lia. change (2 ^ 7)%Z with 128%Z.
      change (10 ^ Z.of_nat 2)%Z with 100%Z. lia.
  - replace (- a - 6 - (- a - -46 - 53))%Z with 1%Z in Hv by lia.
    change (2 ^ 1)%Z with 2%Z in Hv.
    split.
    + unfold Num.ge_1e21.
      replace (0 <=? - a - 6)%Z with false by (symmetry; apply Z.leb_gt; lia).
      replace (- (- a - 6))%Z with (a + 6)%Z by lia.
      rewrite Hpow by lia. apply Z.leb_gt.
      change (10 ^ 21)%Z with 1000000000000000000000%Z.
      change (2 ^ 6)%Z with 64%Z. lia.
    + apply round_half_up_unique; [lia|].
      replace (- (- a - 6))%Z with (a + 6)%Z by lia.
      rewrite Hpow by lia. change (2 ^ 6)%Z with 64%Z.
      change (10 ^ Z.of_nat 2)%Z with 100%Z. lia.
  - replace (- a - 5 - (- a - -46 - 53))%Z with 2%Z in Hv by lia.
    change (2 ^ 2)%Z with 4%Z in Hv.
    split.
    + unfold Num.ge_1e21.
      replace (0 <=? - a - 5)%Z with false by (symmetry; apply Z.leb_gt; lia).
      replace (- (- a - 5))%Z with (a + 5)%Z by lia.
      rewrite Hpow by lia. apply Z.leb_gt.
      change (10 ^ 21)%Z with 1000000000000000000000%Z.
      change (2 ^ 5)%Z with 32%Z. lia.
    + apply round_half_up_unique; [lia|].
      replace (- (- a - 5))%Z with (a + 5)%Z by lia.
      rewrite Hpow by lia. change (2 ^ 5)%Z with 32%Z.
      change (10 ^ Z.of_nat 2)%Z with 100%Z. lia.
Qed.

(** What [formatAmount] prints when the product [amount * 100] is finite
    and rounds to fewer than 2^51 cents. *)
Lemma formatAmount_cents rt amount s m e k :
  Prim2SF (PrimFloat.mul amount 100%float) = S754_finite s m e ->
  ((2 * k - 1) * 2 ^ (- e) <= 2 * (if s then Z.neg m else Z.pos m)
   < (2 * k + 1) * 2 ^ (- e))%Z ->
  (Z.abs k < 2 ^ 51)%Z ->
  PaypalService.formatAmount rt amount
  = (if (k <? 0)%Z then "-" else "")
    ++ NilZero.string_of_uint (N.to_uint (Z.to_N (Z.abs k / 100)))
    ++ "."
    ++ String (ascii_of_nat (48 + Z.to_nat (Z.abs k / 10 mod 10)))
         (String (ascii_of_nat (48 + Z.to_nat (Z.abs k mod 10))) "").
Proof.
  intros Hp Hk Hsmall.
  assert (He : (e < 0)%Z).
  { destruct (Z_lt_le_dec e 0) as [|Hge]; [assumption | exfalso].
    destruct (Z.eq_dec e 0%Z) as [-> | Hne].
    - pose proof (Prim2SF_valid (PrimFloat.mul amount 100%float)) as Hv.
      rewrite Hp in Hv. cbn [valid_binary] in Hv.
      unfold bounded, canonical_mantissa in Hv.
      apply andb_prop in Hv as [Hc _]. apply Z.eqb_eq in Hc.
      unfold fexp, SpecFloat.emin, prec, emax in Hc.
      pose proof (digits2_pos_bounds m) as Hb.
      assert (Hd : Z.pos (digits2_pos m) = 53%Z) by lia.
      rewrite Hd in Hb. change (2 ^ (53 - 1))%Z with (2 * 2 ^ 51)%Z in Hb.
      change (2 ^ (- 0))%Z with 1%Z in Hk. destruct s; lia.
    - rewrite Z.pow_neg_r in Hk by lia. destruct s; lia. }
  unfold PaypalService.formatAmount, Num.Math_round. rewrite Hp.
  replace (0 <=? e)%Z with false by (symmetry; apply Z.leb_gt; lia).
  rewrite (round_half_up_unique _ e k He Hk).
  assert (H52 : (2 ^ 51 < 2 ^ 52)%Z) by reflexivity.
  destruct (Z.eqb_spec k 0) as [-> | Hk0].
  - destruct s; reflexivity.
  - unfold Num.of_Z, Num.toFixed.
    destruct (Z.ltb_spec k 0) as [Hneg | Hpos].
    + destruct (of_uint63_exact (- k) ltac:(lia))
        as (m1 & a & Hx & Ha & Hm1 & Hb1).
      assert (Hx' : Prim2SF (- of_uint63 (Uint63.of_Z (- k)))%float
                    = S754_finite true m1 (- a))
        by (rewrite FloatAxioms.opp_spec, Hx; reflexivity).
      destruct (div_100_cents _ true m1 a (- k) Hx' Hm1 Hb1
                  ltac:(lia) ltac:(lia))
        as (mx & ex & -> & _ & -> & ->).
      rewrite fixed_digits_cents by lia.
      replace (Z.abs k) with (- k)%Z by lia. reflexivity.
    + destruct (of_uint63_exact k ltac:(lia))
        as (m1 & a & Hx & Ha & Hm1 & Hb1).
      destruct (div_100_cents _ false m1 a k Hx Hm1 Hb1
                  ltac:(lia) ltac:(lia))
        as (mx & ex & -> & _ & -> & ->).
      rewrite fixed_digits_cents by lia.
      replace (Z.abs k) with k by lia. reflexivity.
Qed.

(** A product that is zero, not a number or infinite is printed as such. *)
Lemma formatAmount_special rt amount :
  (forall s, Prim2SF (PrimFloat.mul amount 100%float) = S754_zero s ->
             PaypalService.formatAmount rt amount = "0.00")
  /\ (Prim2SF (PrimFloat.mul amount 100%float) = S754_nan ->
      PaypalService.formatAmount rt amount = "NaN")
  /\ (forall s, Prim2SF (PrimFloat.mul amount 100%float) = S754_infinity s ->
                PaypalService.formatAmount rt amount
                = if s then "-Infinity" else "Infinity").
Proof.
  unfold PaypalService.formatAmount, Num.Math_round, Num.toFixed.
  split; [|split]; [intros s Hp | intros Hp | intros s Hp];
    rewrite Hp, FloatAxioms.div_spec, Hp, Prim2SF_100; cbn;
    [reflexivity | reflexivity | now destruct s].
Qed.

Section Amount.

Variable rt : Js.Runtime.

(** C8, as the code has it.  [formatAmount] prints
    [Math.round(amount * 100) / 100] with [toFixed(2)].  Whenever that
    rounded number is finite and below 1e21 in magnitude the result is a
    decimal numeral with exactly two digits after the point; 19.005 gives
    "19.01" and 10 gives "10.00".  What is printed is the double product
    [amount * 100] rounded to an integer number of cents: when the product
    is a finite double [m * 2^e] (negated if [s]) and [k], the integer
    nearest to it, the larger one on a tie, is below 2^51 in magnitude
    (the exponent [e] of such a product is negative), the result is the
    sign of [k], the digits of [|k| / 100], a point, and the two digits of
    [|k| mod 100].  A product of zero is printed "0.00"; a product that is
    not a number or is infinite is printed as "NaN", "Infinity" or
    "-Infinity". *)
Theorem formatAmount_two_decimals amount :
  (below_1e21 (PrimFloat.div
                 (Num.Math_round (PrimFloat.mul amount 100%float))
                 100%float) = true ->
   two_decimals (PaypalService.formatAmount rt amount))
  /\ PaypalService.formatAmount rt 19.005%float = "19.01"
  /\ PaypalService.formatAmount rt 10%float = "10.00"
  /\ (forall s m e k,
         Prim2SF (PrimFloat.mul amount 100%float) = S754_finite s m e ->
         ((2 * k - 1) * 2 ^ (- e) <= 2 * (if s then Z.neg m else Z.pos m)
          < (2 * k + 1) * 2 ^ (- e))%Z ->
         (Z.abs k < 2 ^ 51)%Z ->
         PaypalService.formatAmount rt amount
         = (if (k <? 0)%Z then "-" else "")
           ++ NilZero.string_of_uint (N.to_uint (Z.to_N (Z.abs k / 100)))
           ++ "."
           ++ String (ascii_of_nat (48 + Z.to_nat (Z.abs k / 10 mod 10)))
                (String (ascii_of_nat (48 + Z.to_nat (Z.abs k mod 10))) ""))
  /\ (forall s, Prim2SF (PrimFloat.mul amount 100%float) = S754_zero s ->
                PaypalService.formatAmount rt amount = "0.00")
  /\ (Prim2SF (PrimFloat.mul amount 100%float) = S754_nan ->
      PaypalService.formatAmount rt amount = "NaN")
  /\ (forall s, Prim2SF (PrimFloat.mul amount 100%float) = S754_infinity s ->
                PaypalService.formatAmount rt amount
                = if s then "-Infinity" else "Infinity").
Proof.
  split; [|split; [vm_compute; reflexivity|split;
             [vm_compute; reflexivity
             |split; [intros s m e k; apply formatAmount_cents
                     |apply formatAmount_special]]]].
  unfold PaypalService.formatAmount, Num.toFixed, below_1e21, two_decimals.
  destruct (Prim2SF _) as [z | i | | sg m e]; try discriminate.
  - intros _. exists "", "0", "00". vm_compute.
    repeat split; auto. discriminate.
  - intros Hlt. apply negb_true_iff in Hlt. rewrite Hlt.
    destruct (fixed_digits_two
                (Num.round_half_up (Z.pos m * 10 ^ Z.of_nat 2) e))
      as (whole & cents & -> & Hw & Hwd & Hc & Hcd).
    exists (if sg then "-" else ""), whole, cents.
    repeat split; auto. destruct sg; auto.
Qed.

End Amount.

(** C8 does not hold as stated.  The rounding is not to the nearest cent
    of the amount: the double written 19.005 lies strictly below 19.005,
    less than half a cent above 19.00, and is printed "19.01" all the same
    (its product with 100 is the double 1900.5), and so is 2.675 printed
    "2.68"; while 1.005, 1.255 and 0.145, halves on paper, are printed
    "1.00", "1.25" and "0.14", not rounded up as 19.005 is.  Nor are there
    always two decimals: an amount that is not a number is printed as
    "NaN", which has no decimals at all ([Number(item.unit_price)] of an
    item without a unit price is such an amount). *)
Lemma formatAmount_is_not_nearest_cent :
  (Prim2SF 19.005%float = S754_finite false 5349431932386017 (-48)
   /\ (2 * 1900 * 2 ^ 48 < 2 * (100 * 5349431932386017)
       < (2 * 1900 + 1) * 2 ^ 48)%Z
   /\ PaypalService.formatAmount Fixture.rt 19.005%float = "19.01")
  /\ (Prim2SF 2.675%float = S754_finite false 6023564501608038 (-51)
      /\ (2 * 267 * 2 ^ 51 < 2 * (100 * 6023564501608038)
          < (2 * 267 + 1) * 2 ^ 51)%Z
      /\ PaypalService.formatAmount Fixture.rt 2.675%float = "2.68")
  /\ PaypalService.formatAmount Fixture.rt 1.005%float = "1.00"
  /\ PaypalService.formatAmount Fixture.rt 1.255%float = "1.25"
  /\ PaypalService.formatAmount Fixture.rt 0.145%float = "0.14"
  /\ PaypalService.formatAmount Fixture.rt nan = "NaN"
  /\ ~ two_decimals (PaypalService.formatAmount Fixture.rt nan).
Proof.
  split; [split; [reflexivity | split; [lia | vm_compute; reflexivity]]|].
  split; [split; [reflexivity | split; [lia | vm_compute; reflexivity]]|].
  split; [vm_compute; reflexivity|].
  split; [vm_compute; reflexivity|].
  split; [vm_compute; reflexivity|].
  split; [vm_compute; reflexivity|].
  intros (sign & whole & cents & Heq & _).
  assert (H : has_char "." (PaypalService.formatAmount Fixture.rt nan)
              = true).
  { rewrite Heq, !has_char_app. simpl. now rewrite !orb_true_r. }
  vm_compute in H. discriminate.
Qed.

Lemma formatAmount_two_decimals_witness :
  (below_1e21 (PrimFloat.div
                 (Num.Math_round (PrimFloat.mul 115.92%float 100%float))
                 100%float) = true
   /\ two_decimals (PaypalService.formatAmount Fixture.rt 115.92%float))
  /\ (Prim2SF (PrimFloat.mul 1.005%float 100%float)
      = S754_finite false 7072058789855231 (-46)
      /\ ((2 * 100 - 1) * 2 ^ (- -46) <= 2 * Z.pos 7072058789855231
          < (2 * 100 + 1) * 2 ^ (- -46))%Z
      /\ PaypalService.formatAmount Fixture.rt 1.005%float = "1.00").
Proof.
  assert (H : below_1e21 (PrimFloat.div
                (Num.Math_round (PrimFloat.mul 115.92%float 100%float))
                100%float) = true) by (vm_compute; reflexivity).
  assert (Hp : Prim2SF (PrimFloat.mul 1.005%float 100%float)
               = S754_finite false 7072058789855231 (-46)) by reflexivity.
  assert (Hk : ((2 * 100 - 1) * 2 ^ (- -46) <= 2 * Z.pos 7072058789855231
                < (2 * 100 + 1) * 2 ^ (- -46))%Z)
    by (split; [discriminate | reflexivity]).
  split.
  - split; [exact H|].
    exact (proj1 (formatAmount_two_decimals Fixture.rt 115.92%float) H).
  - split; [exact Hp | split; [exact Hk|]].
    exact (proj1 (proj2 (proj2 (proj2
             (formatAmount_two_decimals Fixture.rt 1.005%float))))
             false 7072058789855231%positive (-46)%Z 100%Z Hp Hk
             ltac:(vm_compute; reflexivity)).
Defined.

(* ===================================================================== *)
(** ** The rate limiter *)
(* ===================================================================== *)

(** [count >= n] stays true as the count grows. *)
Lemma ge_mono k k' n :
  RateLimiter.ge k n = true -> (k <= k')%Z -> RateLimiter.ge k' n = true.
Proof.
  destruct n as [q| | | ]; cbn; auto.
  intros H Hle. apply Qle_bool_iff in H. apply Qle_bool_iff.
  apply (Qle_trans _ _ _ H). now rewrite <- Zle_Qle.
Qed.

Lemma ge_whole k z : RateLimiter.ge k (RateLimiter.whole z) = (z <=? k)%Z.
Proof.
  unfold RateLimiter.ge, RateLimiter.whole, Qle_bool. cbn.
  now rewrite !Z.mul_1_r.
Qed.

Lemma isRateLimited_settings now c rl :
  RateLimiter.limit (RateLimiter.isRateLimited now c rl).2
  = RateLimiter.limit rl
  /\ RateLimiter.windowMs (RateLimiter.isRateLimited now c rl).2
     = RateLimiter.windowMs rl.
Proof.
  unfold RateLimiter.isRateLimited.
  destruct (RateLimiter.store rl !! c) as [e|]; [|auto].
  destruct (RateLimiter.resetTime e <? now)%Z; [auto|].
  destruct (RateLimiter.ge (RateLimiter.count e) (RateLimiter.limit rl)); auto.
Qed.

(** A request of one client leaves the entries of the others alone. *)
Lemma isRateLimited_other now c c' rl :
  c' <> c ->
  RateLimiter.store (RateLimiter.isRateLimited now c' rl).2 !! c
  = RateLimiter.store rl !! c.
Proof.
  intros Hne. unfold RateLimiter.isRateLimited.
  destruct (RateLimiter.store rl !! c') as [e|].
  - destruct (RateLimiter.resetTime e <? now)%Z;
      [cbn; now rewrite lookup_insert_ne|].
    destruct (RateLimiter.ge (RateLimiter.count e) (RateLimiter.limit rl));
      [reflexivity | cbn; now rewrite lookup_insert_ne].
  - cbn. now rewrite lookup_insert_ne.
Qed.

(** What a sweep keeps. *)
Lemma cleanup_lookup now rl c :
  RateLimiter.store (RateLimiter.cleanup now rl) !! c
  = match RateLimiter.store rl !! c with
    | Some e => if (now <=? RateLimiter.resetTime e)%Z then Some e else None
    | None => None
    end.
Proof.
  unfold RateLimiter.cleanup. cbn.
  destruct (RateLimiter.store rl !! c) as [e|] eqn:E.
  - destruct (now <=? RateLimiter.resetTime e)%Z eqn:Hle.
    + apply map_lookup_filter_Some. split; [exact E|].
      cbn. now apply Z.leb_le.
    + apply map_lookup_filter_None. right. intros e' He' Hp.
      rewrite E in He'. injection He' as <-. cbn in Hp.
      apply Z.leb_gt in Hle. lia.
  - apply map_lookup_filter_None. left. exact E.
Qed.

Lemma map_seq_all_true (f : nat -> bool) a n :
  (forall i, f i = true) -> map f (seq a n) = repeat true n.
Proof.
  intros H. revert a. induction n as [|n IH]; intros a; simpl;
    [reflexivity | now rewrite H, IH].
Qed.

(** The answers to a client whose window is open with [k] requests counted,
    for a history that stays within that window. *)
Lemma answers_in_window c uses :
  forall rl k r,
    RateLimiter.store rl !! c
    = Some {| RateLimiter.count := k; RateLimiter.resetTime := r |} ->
    RateLimiter.within c r uses = true ->
    (RateLimiter.answers c uses rl).1
    = map (fun i => RateLimiter.ge (k + Z.of_nat i) (RateLimiter.limit rl))
          (seq 0 (RateLimiter.hits c uses)).
Proof.
  induction uses as [|u uses IH]; intros rl k r Hentry Hin; [reflexivity|].
  destruct u as [now c' | now]; simpl in Hin |- *.
  - apply andb_prop in Hin as [Hnow Hrest].
    destruct (RateLimiter.isRateLimited now c' rl) as [limited rl'] eqn:Hhit.
    destruct (RateLimiter.answers c uses rl') as [later rl''] eqn:Hlater.
    destruct (String.eqb c' c) eqn:Hc.
    + apply String.eqb_eq in Hc. subst c'. cbn [negb orb] in Hnow.
      apply Z.leb_le in Hnow.
      unfold RateLimiter.isRateLimited in Hhit. rewrite Hentry in Hhit.
      cbn [RateLimiter.resetTime RateLimiter.count] in Hhit.
      destruct (r <? now)%Z eqn:Hexp; [apply Z.ltb_lt in Hexp; lia|].
      destruct (RateLimiter.ge k (RateLimiter.limit rl)) eqn:Hlim.
      * injection Hhit as <- <-.
        specialize (IH rl k r Hentry Hrest). rewrite Hlater in IH.
        cbn [fst] in IH |- *. subst later.
        rewrite !map_seq_all_true
          by (intros i; apply (ge_mono k); [exact Hlim | lia]).
        reflexivity.
      * injection Hhit as <- <-.
        specialize (IH (RateLimiter.with_store rl
                          (<[ c := {| RateLimiter.count := k + 1;
                                      RateLimiter.resetTime := r |} ]>
                             (RateLimiter.store rl)))
                       (k + 1)%Z r).
        rewrite Hlater in IH. cbn [fst] in IH |- *.
        rewrite IH; [| cbn; apply lookup_insert_eq | exact Hrest].
        cbn [RateLimiter.limit RateLimiter.with_store seq map].
        rewrite Z.add_0_r, Hlim. f_equal.
        rewrite <- seq_shift, map_map. apply map_ext. intros i.
        f_equal. lia.
    + apply String.eqb_neq in Hc.
      assert (Hrl' : rl' = (RateLimiter.isRateLimited now c' rl).2)
        by now rewrite Hhit.
      specialize (IH rl' k r). rewrite Hlater in IH. cbn [fst] in IH |- *.
      rewrite IH; [| | exact Hrest].
      * subst rl'. now rewrite (proj1 (isRateLimited_settings now c' rl)).
      * subst rl'. rewrite isRateLimited_other by exact Hc. exact Hentry.
  - apply andb_prop in Hin as [Hnow Hrest]. apply Z.leb_le in Hnow.
    rewrite (IH (RateLimiter.cleanup now rl) k r); [reflexivity | | exact Hrest].
    rewrite cleanup_lookup, Hentry. cbn [RateLimiter.resetTime].
    replace (now <=? r)%Z with true by (symmetry; apply Z.leb_le; lia).
    reflexivity.
Qed.

(** A client without an open window (no entry, or one whose window has
    passed) is let through and opens a window of [windowMs]; of the
    requests it makes until that window ends, exactly those numbered
    [limit] and up (counting the opening request as number 0) are refused,
    whatever other clients request and whichever sweeps run in between.
    The limit is any number: with minus infinity every later request is
    refused, with plus infinity or NaN none is; for an integer limit the
    comparison is the one of integers. *)
Theorem rate_limit_quota rl c t0 uses :
  (RateLimiter.store rl !! c = None
   \/ exists e, RateLimiter.store rl !! c = Some e
                /\ (RateLimiter.resetTime e < t0)%Z) ->
  RateLimiter.within c (t0 + RateLimiter.windowMs rl) uses = true ->
  (RateLimiter.isRateLimited t0 c rl).1 = false
  /\ (RateLimiter.answers c uses (RateLimiter.isRateLimited t0 c rl).2).1
     = map (fun j =>
              match RateLimiter.limit rl with
              | RateLimiter.Finite q => Qle_bool q (inject_Z (Z.of_nat j))
              | RateLimiter.MinusInfinity => true
              | RateLimiter.PlusInfinity | RateLimiter.NotANumber => false
              end)
           (seq 1 (RateLimiter.hits c uses))
  /\ (forall limit,
         RateLimiter.limit rl = RateLimiter.whole limit ->
         (RateLimiter.answers c uses (RateLimiter.isRateLimited t0 c rl).2).1
         = map (fun j => (limit <=? Z.of_nat j)%Z)
               (seq 1 (RateLimiter.hits c uses))).
Proof.
  intros Hfresh Hin.
  assert (Hgen :
            (RateLimiter.isRateLimited t0 c rl).1 = false
            /\ (RateLimiter.answers c uses
                  (RateLimiter.isRateLimited t0 c rl).2).1
               = map (fun j => RateLimiter.ge (Z.of_nat j)
                                              (RateLimiter.limit rl))
                     (seq 1 (RateLimiter.hits c uses)));
    [| destruct Hgen as [Hfirst Hlater];
       split; [exact Hfirst | split; [exact Hlater|]];
       intros limit Hlimit; rewrite Hlater, Hlimit;
       apply map_ext; intros j; apply ge_whole ].
  assert (Hopen : RateLimiter.isRateLimited t0 c rl
                  = (false,
                     RateLimiter.with_store rl
                       (<[ c := {| RateLimiter.count := 1;
                                   RateLimiter.resetTime :=
                                     t0 + RateLimiter.windowMs rl |} ]>
                          (RateLimiter.store rl)))).
  { unfold RateLimiter.isRateLimited.
    destruct Hfresh as [-> | (e & -> & Hexp)]; [reflexivity|].
    apply Z.ltb_lt in Hexp. now rewrite Hexp. }
  rewrite Hopen. split; [reflexivity|]. cbn [snd].
  rewrite (answers_in_window c uses _ 1 (t0 + RateLimiter.windowMs rl));
    [| cbn; apply lookup_insert_eq | exact Hin].
  cbn [RateLimiter.limit RateLimiter.with_store].
  rewrite <- seq_shift, map_map. apply map_ext. intros i. f_equal. lia.
Qed.

Lemma rate_limit_quota_witness :
  (RateLimiter.answers "session_payses_01"
     [ RateLimiter.Hit 1010 "session_payses_01";
       RateLimiter.Hit 1020 "session_payses_02";
       RateLimiter.Sweep 1030;
       RateLimiter.Hit 61000 "session_payses_01";
       RateLimiter.Hit 61000 "session_payses_01" ]
     (RateLimiter.isRateLimited 1000 "session_payses_01"
        (RateLimiter.create (RateLimiter.whole 2) 60000)).2).1
  = [false; true; true].
Proof.
  rewrite (proj1 (proj2 (rate_limit_quota
                    (RateLimiter.create (RateLimiter.whole 2) 60000)
                    "session_payses_01" 1000
                    [ RateLimiter.Hit 1010 "session_payses_01";
                      RateLimiter.Hit 1020 "session_payses_02";
                      RateLimiter.Sweep 1030;
                      RateLimiter.Hit 61000 "session_payses_01";
                      RateLimiter.Hit 61000 "session_payses_01" ]
                    (or_introl eq_refl) eq_refl))).
  reflexivity.
Defined.

(** A sweep is not observable: it deletes exactly the entries whose
    window has passed, and a request made at or after the sweep is answered
    the same, and leaves the same entry for its client, as if the sweep had
    not run. *)
Theorem cleanup_is_transparent rl now now' c :
  (now <= now')%Z ->
  (forall k e,
      RateLimiter.store (RateLimiter.cleanup now rl) !! k = Some e
      <-> RateLimiter.store rl !! k = Some e
          /\ (now <= RateLimiter.resetTime e)%Z)
  /\ (RateLimiter.isRateLimited now' c (RateLimiter.cleanup now rl)).1
     = (RateLimiter.isRateLimited now' c rl).1
  /\ RateLimiter.store
       (RateLimiter.isRateLimited now' c (RateLimiter.cleanup now rl)).2 !! c
     = RateLimiter.store (RateLimiter.isRateLimited now' c rl).2 !! c.
Proof.
  intros Hle. split.
  { intros k e. rewrite cleanup_lookup.
    destruct (RateLimiter.store rl !! k) as [e'|]; [|split; [discriminate|]].
    - destruct (now <=? RateLimiter.resetTime e')%Z eqn:E.
      + apply Z.leb_le in E. split; [intros [= <-]; auto | intros [H _]; auto].
      + apply Z.leb_gt in E. split; [discriminate|].
        intros [[= <-] H]. lia.
    - intros [H _]. discriminate. }
  unfold RateLimiter.isRateLimited.
  rewrite cleanup_lookup.
  destruct (RateLimiter.store rl !! c) as [e|] eqn:E.
  - destruct (now <=? RateLimiter.resetTime e)%Z eqn:Hkeep.
    + destruct (RateLimiter.resetTime e <? now')%Z;
        [cbn; now rewrite !lookup_insert_eq|].
      cbn [RateLimiter.limit RateLimiter.cleanup RateLimiter.with_store].
      destruct (RateLimiter.ge (RateLimiter.count e) (RateLimiter.limit rl)).
      * cbn [fst snd]. split; [reflexivity|].
        rewrite cleanup_lookup, E, Hkeep. reflexivity.
      * cbn. now rewrite !lookup_insert_eq.
    + apply Z.leb_gt in Hkeep.
      replace (RateLimiter.resetTime e <? now')%Z with true
        by (symmetry; apply Z.ltb_lt; lia).
      cbn. now rewrite !lookup_insert_eq.
  - cbn. now rewrite !lookup_insert_eq.
Qed.

Lemma cleanup_is_transparent_witness :
  (RateLimiter.isRateLimited 70000 "session_payses_01"
     (RateLimiter.cleanup 65000
        (RateLimiter.isRateLimited 1000 "session_payses_01"
           (RateLimiter.create (RateLimiter.whole 1) 60000)).2)).1
  = (RateLimiter.isRateLimited 70000 "session_payses_01"
       (RateLimiter.isRateLimited 1000 "session_payses_01"
          (RateLimiter.create (RateLimiter.whole 1) 60000)).2).1.
Proof.
  apply (cleanup_is_transparent
           (RateLimiter.isRateLimited 1000 "session_payses_01"
              (RateLimiter.create (RateLimiter.whole 1) 60000)).2
           65000 70000 "session_payses_01").
  lia.
Defined.

Lemma isRateLimited_keeps (P : string -> RateLimiter.ClientData -> Prop)
      now c rl :
  map_Forall P (RateLimiter.store rl) ->
  P c {| RateLimiter.count := 1;
         RateLimiter.resetTime := now + RateLimiter.windowMs rl |} ->
  (forall e, RateLimiter.store rl !! c = Some e ->
             RateLimiter.ge (RateLimiter.count e) (RateLimiter.limit rl)
             = false ->
             P c {| RateLimiter.count := RateLimiter.count e + 1;
                    RateLimiter.resetTime := RateLimiter.resetTime e |}) ->
  map_Forall P (RateLimiter.store (RateLimiter.isRateLimited now c rl).2).
Proof.
  intros Hinv Hopened Hnext. unfold RateLimiter.isRateLimited.
  destruct (RateLimiter.store rl !! c) as [e|] eqn:E.
  - destruct (RateLimiter.resetTime e <? now)%Z.
    + cbn. now apply map_Forall_insert_2.
    + destruct (RateLimiter.ge (RateLimiter.count e) (RateLimiter.limit rl))
        eqn:Hl.
      * exact Hinv.
      * cbn. apply map_Forall_insert_2; [|exact Hinv].
        apply Hnext; [reflexivity | exact Hl].
  - cbn. now apply map_Forall_insert_2.
Qed.

Lemma limiter_invariant_step c0 known uses :
  forall rl,
    (forall u, In u uses -> In u known) ->
    map_Forall (RateLimiter.entry_ok (RateLimiter.limit rl)
                                     (RateLimiter.windowMs rl) known)
               (RateLimiter.store rl) ->
    RateLimiter.limit (RateLimiter.answers c0 uses rl).2
    = RateLimiter.limit rl
    /\ RateLimiter.windowMs (RateLimiter.answers c0 uses rl).2
       = RateLimiter.windowMs rl
    /\ map_Forall (RateLimiter.entry_ok (RateLimiter.limit rl)
                                        (RateLimiter.windowMs rl) known)
                  (RateLimiter.store (RateLimiter.answers c0 uses rl).2).
Proof.
  induction uses as [|u uses IH]; intros rl Hknown Hinv; [cbn; auto|].
  assert (Hrest : forall u', In u' uses -> In u' known)
    by (intros u' Hu; apply Hknown; now right).
  destruct u as [now c | now]; simpl.
  - pose proof (isRateLimited_settings now c rl) as [Hl1 Hw1].
    assert (Hinv1 : map_Forall
                      (RateLimiter.entry_ok (RateLimiter.limit rl)
                                            (RateLimiter.windowMs rl) known)
                      (RateLimiter.store
                         (RateLimiter.isRateLimited now c rl).2)).
    { apply isRateLimited_keeps; [exact Hinv | |].
      - split; [cbn; lia|]. split.
        + destruct (RateLimiter.limit rl); cbn; [lia | exact I | | exact I].
          reflexivity.
        + exists now. split; [|reflexivity]. apply Hknown. now left.
      - intros e E Hlt. destruct (Hinv c e E) as (H1 & Hb & Hq).
        split; [cbn; lia|]. split; [|exact Hq].
        destruct (RateLimiter.limit rl) as [q| | | ];
          cbn in Hlt |- *; [| exact I | discriminate | exact I].
        assert (Hq' : (inject_Z (RateLimiter.count e) < q)%Q).
        { apply Qnot_le_lt. intros Hle. apply Qle_bool_iff in Hle.
          congruence. }
        assert (Hc : (RateLimiter.count e < Qceiling q)%Z).
        { rewrite Zlt_Qlt. apply (Qlt_le_trans _ _ _ Hq').
          apply Qle_ceiling. }
        lia. }
    destruct (RateLimiter.isRateLimited now c rl) as [limited rl1].
    cbn [snd] in Hl1, Hw1, Hinv1.
    specialize (IH rl1 Hrest). rewrite Hl1, Hw1 in IH.
    specialize (IH Hinv1).
    destruct (RateLimiter.answers c0 uses rl1) as [later rl2].
    exact IH.
  - specialize (IH (RateLimiter.cleanup now rl) Hrest).
    cbn [RateLimiter.cleanup RateLimiter.limit RateLimiter.windowMs
         RateLimiter.with_store RateLimiter.store] in IH.
    apply IH. apply map_Forall_lookup_2. intros k e Hk.
    apply map_lookup_filter_Some in Hk as [Hk _]. now apply Hinv.
Qed.

(** Whatever the history of a limiter since it was created, every entry
    it holds counts at least 1 request, and its window ends [windowMs]
    after one of that client's requests.  For a finite limit the count is
    at most the least integer that is not below the limit, or 1 if that is
    less: max(1, limit) for an integer limit, 3 for the limit 2.5.  With
    minus infinity for limit the count stays 1; with plus infinity or NaN
    it has no bound. *)
Theorem limiter_entries_stay_bounded l w c0 uses c e :
  RateLimiter.store
    (RateLimiter.answers c0 uses (RateLimiter.create l w)).2 !! c = Some e ->
  (1 <= RateLimiter.count e)%Z
  /\ match l with
     | RateLimiter.Finite q => (RateLimiter.count e <= Z.max 1 (Qceiling q))%Z
     | RateLimiter.MinusInfinity => RateLimiter.count e = 1%Z
     | RateLimiter.PlusInfinity | RateLimiter.NotANumber => True
     end
  /\ (forall limit, l = RateLimiter.whole limit ->
                    (RateLimiter.count e <= Z.max 1 limit)%Z)
  /\ exists now, In (RateLimiter.Hit now c) uses
                 /\ RateLimiter.resetTime e = (now + w)%Z.
Proof.
  intros He.
  destruct (limiter_invariant_step c0 uses uses (RateLimiter.create l w))
    as (_ & _ & Hinv).
  - auto.
  - cbn. apply map_Forall_empty.
  - destruct (Hinv c e He) as (H1 & Hb & Hq). cbn in Hb.
    split; [exact H1 | split; [exact Hb | split; [|exact Hq]]].
    intros limit ->. cbn in Hb. now rewrite Qceiling_Z in Hb.
Qed.

Lemma limiter_entries_stay_bounded_witness :
  RateLimiter.store
    (RateLimiter.answers "session_payses_01"
       [ RateLimiter.Hit 1000 "session_payses_01";
         RateLimiter.Hit 1010 "session_payses_01";
         RateLimiter.Hit 1020 "session_payses_01";
         RateLimiter.Hit 1030 "session_payses_01" ]
       (RateLimiter.create (RateLimiter.Finite (5 # 2)) 60000)).2
  !! "session_payses_01"
  = Some {| RateLimiter.count := 3; RateLimiter.resetTime := 61000 |}
  /\ (3 <= Z.max 1 (Qceiling (5 # 2)))%Z.
Proof.
  assert (He : RateLimiter.store
                 (RateLimiter.answers "session_payses_01"
                    [ RateLimiter.Hit 1000 "session_payses_01";
                      RateLimiter.Hit 1010 "session_payses_01";
                      RateLimiter.Hit 1020 "session_payses_01";
                      RateLimiter.Hit 1030 "session_payses_01" ]
                    (RateLimiter.create (RateLimiter.Finite (5 # 2)) 60000)).2
               !! "session_payses_01"
               = Some {| RateLimiter.count := 3;
                         RateLimiter.resetTime := 61000 |})
    by (vm_compute; reflexivity).
  split; [exact He|].
  exact (proj1 (proj2 (limiter_entries_stay_bounded
                         (RateLimiter.Finite (5 # 2)) 60000
                         "session_payses_01" _ "session_payses_01" _ He))).
Defined.

(* ===================================================================== *)
(** ** Cancel, delete, and the status of a capture *)
(* ===================================================================== *)

(** [cancelPayment] and [deletePayment] succeed for every non-empty
    identifier, whatever its shape, reporting the canceled status for that
    identifier at the clock reading; without one, cancel fails with its
    general message and delete with the message naming what is missing.
    Neither calls the processor: no authorization is voided there. *)
Theorem cancel_and_delete_stay_local {W} now input (s : St W) :
  (PaypalModuleServiceRest.cancelPayment now input s).2 = s
  /\ (PaypalModuleServiceRest.deletePayment now input s).2 = s
  /\ (forall input_data orderId,
         data input = Some input_data ->
         data_id input_data = Some orderId -> orderId <> "" ->
         let canceled :=
           {| refund_order_id := orderId;
              refund_session_status := PaymentSessionStatus.CANCELED;
              cancelled_at := now |} in
         (PaypalModuleServiceRest.cancelPayment now input s).1 = inr canceled
         /\ (PaypalModuleServiceRest.deletePayment now input s).1
            = inr canceled)
  /\ ((forall input_data, data input = Some input_data ->
                          Js.truthy_str (data_id input_data) = false) ->
      (PaypalModuleServiceRest.cancelPayment now input s).1
      = inl (Js.MedusaError Js.INVALID_DATA "Failed to cancel PayPal payment")
      /\ exists m,
          (PaypalModuleServiceRest.deletePayment now input s).1
          = inl (Js.MedusaError Js.INVALID_DATA m)
          /\ (m = "Payment data is required" <-> data input = None)).
Proof.
  unfold PaypalModuleServiceRest.cancelPayment,
    PaypalModuleServiceRest.deletePayment, try_catch, throw, ret.
  split; [|split; [|split]].
  - repeat break_match; repeat match goal with
                               | H : (_, _) = (_, _) |- _ =>
                                   injection H as ? ?; subst
                               end; reflexivity.
  - repeat break_match; repeat match goal with
                               | H : (_, _) = (_, _) |- _ =>
                                   injection H as ? ?; subst
                               end; reflexivity.
  - intros input_data orderId Hd Hid Hne. apply String.eqb_neq in Hne.
    rewrite Hd, Hid, Hne. auto.
  - intros Hmissing. destruct (data input) as [input_data|] eqn:Hd.
    + specialize (Hmissing input_data eq_refl).
      destruct (data_id input_data) as [orderId|]; simpl in Hmissing.
      * apply negb_false_iff in Hmissing. rewrite Hmissing.
        split; [reflexivity|]. eexists. split; [reflexivity|].
        split; discriminate.
      * split; [reflexivity|]. eexists. split; [reflexivity|].
        split; discriminate.
    + split; [reflexivity|]. eexists. split; [reflexivity|]. tauto.
Qed.

Lemma cancel_and_delete_stay_local_witness :
  (PaypalModuleServiceRest.cancelPayment "2025-09-10T12:00:00Z"
     (Fixture.input_for "../../v1/invoices")
     (Fixture.start Fixture.authorized_order)).1
  = inr {| refund_order_id := "../../v1/invoices";
           refund_session_status := PaymentSessionStatus.CANCELED;
           cancelled_at := "2025-09-10T12:00:00Z" |}.
Proof.
  assert (Hne : "../../v1/invoices" <> "") by discriminate.
  destruct (cancel_and_delete_stay_local "2025-09-10T12:00:00Z"
              (Fixture.input_for "../../v1/invoices")
              (Fixture.start Fixture.authorized_order))
    as (_ & _ & H & _).
  exact (proj1 (H _ "../../v1/invoices" eq_refl eq_refl Hne)).
Defined.

Lemma errorDetails_retryable responseCode :
  error_retryable (PaypalModuleServiceRest.errorDetails responseCode)
  = Some true
  <-> In responseCode ["5120"; "00N7"; "1330"; "5100"].
Proof.
  unfold PaypalModuleServiceRest.errorDetails,
    PaypalModuleServiceRest.processorResponseMap,
    PaypalModuleServiceRest.lookup_response.
  repeat match goal with
         | |- context [if (?k =? responseCode) then _ else _] =>
             let E := fresh "E" in
             destruct (k =? responseCode) eqn:E;
             [apply String.eqb_eq in E; subst responseCode; cbn;
              split; [intros; try discriminate; auto 6
                     | intros H; try reflexivity;
                       repeat destruct H as [H|H]; try discriminate;
                       try contradiction]
             | apply String.eqb_neq in E]
         end.
  destruct (existsb _ _); cbn; (split; [discriminate|]);
    intros H; repeat destruct H as [H|H]; try congruence; contradiction.
Qed.

(** [checkPaymentStatus] echoes the status; it reports no error exactly
    for COMPLETED; and the error it reports is marked retryable exactly for
    a DECLINED capture whose processor response code is 5120, 00N7, 1330 or
    5100.  The address and card verification codes of the response are
    passed on whenever it has a response code. *)
Theorem capture_status_errors status processorResponse :
  let r := PaypalModuleServiceRest.checkPaymentStatus status
             processorResponse in
  checked_status r = status
  /\ (checked_error r = None <-> status = "COMPLETED")
  /\ (forall e, checked_error r = Some e ->
        (error_retryable e = Some true
         <-> status = "DECLINED"
             /\ exists response c,
                 processorResponse = Some response
                 /\ response_responseCode response = Some c
                 /\ In c ["5120"; "00N7"; "1330"; "5100"]))
  /\ (forall response c e,
        status = "DECLINED" -> processorResponse = Some response ->
        response_responseCode response = Some c -> c <> "" ->
        checked_error r = Some e ->
        error_avsCode e = response_avsCode response
        /\ error_cvvCode e = response_cvvCode response).
Proof.
  unfold PaypalModuleServiceRest.checkPaymentStatus. cbv zeta.
  destruct (status =? "COMPLETED") eqn:Ec.
  { apply String.eqb_eq in Ec. subst status. cbn.
    repeat split; auto; try discriminate. }
  apply String.eqb_neq in Ec.
  destruct (status =? "DECLINED") eqn:Ed.
  2:{ apply String.eqb_neq in Ed. cbn.
      split; [reflexivity|]. split; [split; [discriminate | contradiction]|].
      split.
      - intros e [= <-]. cbn. split; [discriminate | intros [H _]; contradiction].
      - intros response c e Hs. contradiction. }
  apply String.eqb_eq in Ed. subst status.
  destruct processorResponse as [response|].
  2:{ cbn. split; [reflexivity|].
      split; [split; [discriminate | contradiction]|]. split.
      - intros e [= <-]. cbn. split; [discriminate|].
        intros [_ (response & c & H & _)]. discriminate.
      - intros response c e _ H. discriminate. }
  destruct (response_responseCode response) as [c|] eqn:Hc; cbn [Js.truthy_str].
  2:{ cbn. split; [reflexivity|].
      split; [split; [discriminate | contradiction]|]. split.
      - intros e [= <-]. cbn. split; [discriminate|].
        intros [_ (response' & c & [= <-] & H & _)]. congruence.
      - intros response' c e _ [= <-] H. congruence. }
  destruct (c =? "") eqn:Hce; cbn [negb].
  { apply String.eqb_eq in Hce. subst c. cbn.
    split; [reflexivity|].
    split; [split; [discriminate | contradiction]|]. split.
    - intros e [= <-]. cbn. split; [discriminate|].
      intros [_ (response' & c & [= <-] & H & Hin)].
      rewrite Hc in H. injection H as <-.
      repeat destruct Hin as [Hin|Hin]; try discriminate; contradiction.
    - intros response' c e _ [= <-] H Hne. congruence. }
  cbn [checked_status checked_error Js.show].
  split; [reflexivity|].
  split; [split; [discriminate | contradiction]|]. split.
  - intros e [= <-]. cbn [error_retryable].
    rewrite errorDetails_retryable. split.
    + intros Hin. split; [reflexivity|]. eauto.
    + intros [_ (response' & c' & [= <-] & H & Hin)]. congruence.
  - intros response' c' e _ [= <-] _ _ [= <-]. auto.
Qed.

Lemma capture_status_errors_witness :
  exists e,
    checked_error
      (PaypalModuleServiceRest.checkPaymentStatus "DECLINED"
         (Some {| response_avsCode := Some "Y";
                  response_cvvCode := Some "N";
                  response_responseCode := Some "00N7" |})) = Some e
    /\ error_retryable e = Some true /\ error_cvvCode e = Some "N".
Proof.
  eexists. split; [reflexivity|].
  assert (Hne : "00N7" <> "") by discriminate.
  destruct (capture_status_errors "DECLINED"
              (Some {| response_avsCode := Some "Y";
                       response_cvvCode := Some "N";
                       response_responseCode := Some "00N7" |}))
    as (_ & _ & Hr & Hp).
  split.
  - apply (Hr _ eq_refl). split; [reflexivity|].
    eexists _, "00N7". repeat split. simpl. auto.
  - exact (proj2 (Hp _ "00N7" _ eq_refl eq_refl eq_refl Hne eq_refl)).
Defined.

Lemma z_string_min1_spec v :
  PaypalModuleServiceRest.z_string_min1 v = true
  <-> exists s, v = Some (Js.JStr s) /\ s <> "".
Proof.
  destruct v as [[ | | |s| | ]|]; cbn;
    try (split; [discriminate | intros (s' & [=] & _)]).
  destruct s as [|c s]; cbn.
  - split; [discriminate | intros (s' & [= <-] & H); congruence].
  - split; [intros _; eexists; split; [reflexivity | discriminate]
           | reflexivity].
Qed.

Lemma z_string_optional_spec v :
  PaypalModuleServiceRest.z_string_optional v = true
  <-> v = None \/ exists s, v = Some (Js.JStr s).
Proof.
  destruct v as [[ | | |s| | ]|]; cbn;
    try (split; [discriminate | intros [[=] | (s' & [=])]]);
    split; eauto.
Qed.

Lemma z_boolean_default_spec v :
  PaypalModuleServiceRest.z_boolean_default v = true
  <-> v = None \/ exists b, v = Some (Js.JBool b).
Proof.
  destruct v as [[ |b| | | | ]|]; cbn;
    try (split; [discriminate | intros [[=] | (b' & [=])]]);
    split; eauto.
Qed.

(** [validateOptions] accepts the options exactly when they are an object
    whose [clientId] and [clientSecret] are non-empty strings, whose
    [isSandbox], [includeShippingData] and [includeCustomerData] are
    absent or booleans, and whose [webhookId] is absent or a string; the
    webhook identifier is not asked for, and the empty string passes for
    it.  With accepted options that have none (or the empty one), every
    webhook is answered with the failed action and nothing is sent to the
    processor, whatever the payload. *)
Theorem options_without_webhook_id describe options :
  (PaypalModuleServiceRest.validateOptions describe options = inr tt
   <-> exists fields,
       options = Some (Js.JObj fields)
       /\ (exists s, Js.assoc "clientId" fields = Some (Js.JStr s)
                     /\ s <> "")
       /\ (exists s, Js.assoc "clientSecret" fields = Some (Js.JStr s)
                     /\ s <> "")
       /\ (Js.assoc "isSandbox" fields = None
           \/ exists b, Js.assoc "isSandbox" fields = Some (Js.JBool b))
       /\ (Js.assoc "webhookId" fields = None
           \/ exists s, Js.assoc "webhookId" fields = Some (Js.JStr s))
       /\ (Js.assoc "includeShippingData" fields = None
           \/ exists b, Js.assoc "includeShippingData" fields
                        = Some (Js.JBool b))
       /\ (Js.assoc "includeCustomerData" fields = None
           \/ exists b, Js.assoc "includeCustomerData" fields
                        = Some (Js.JBool b)))
  /\ (forall fields,
         options = Some (Js.JObj fields) ->
         PaypalModuleServiceRest.validateOptions describe options = inr tt ->
         Js.assoc "webhookId" fields = None
         \/ Js.assoc "webhookId" fields = Some (Js.JStr "") ->
         forall W (R : Remote W) rt payload (s : St W),
           PaypalModuleService.getWebhookActionAndData R rt
             match Js.assoc "webhookId" fields with
             | Some (Js.JStr webhookId) => Some webhookId
             | _ => None
             end payload s
           = (inr webhook_failed, s)).
Proof.
  split.
  - unfold PaypalModuleServiceRest.validateOptions.
    destruct (PaypalModuleServiceRest.optionsSchema_success options) eqn:E;
      cbn [negb].
    + split; [intros _ | reflexivity].
      unfold PaypalModuleServiceRest.optionsSchema_success in E.
      destruct options as [[ | | | | |fields]|]; try discriminate.
      exists fields. split; [reflexivity|].
      repeat (apply andb_prop in E as [E ?]).
      repeat split;
        first [ now apply z_string_min1_spec
              | now apply z_string_optional_spec
              | now apply z_boolean_default_spec ].
    + split; [discriminate|].
      intros (fields & -> & H1 & H2 & H3 & H4 & H5 & H6).
      apply z_string_min1_spec in H1, H2.
      apply z_string_optional_spec in H4.
      apply z_boolean_default_spec in H3, H5, H6.
      cbn in E. rewrite H1, H2, H3, H4, H5, H6 in E. discriminate.
  - intros fields -> _ Hno W R rt payload s.
    rewrite getWebhookActionAndData_run.
    destruct (PaypalModuleService.constructWebhookEvent rt payload)
      as [e|event]; [reflexivity|].
    unfold PaypalService.verifyWebhook.
    destruct Hno as [-> | ->]; reflexivity.
Qed.

Lemma options_without_webhook_id_witness :
  PaypalModuleServiceRest.validateOptions (fun _ => "[]")
    (Some (Js.JObj [ ("clientId", Js.JStr "client-id");
                     ("clientSecret", Js.JStr "client-secret");
                     ("isSandbox", Js.JBool true) ])) = inr tt
  /\ PaypalModuleService.getWebhookActionAndData Fixture.remote Fixture.rt
       None (Fixture.webhook "good-signature" "PAYMENT.CAPTURE.COMPLETED")
       (Fixture.start Fixture.completed_order)
     = (inr webhook_failed, Fixture.start Fixture.completed_order).
Proof.
  destruct (options_without_webhook_id (fun _ => "[]")
              (Some (Js.JObj [ ("clientId", Js.JStr "client-id");
                               ("clientSecret", Js.JStr "client-secret");
                               ("isSandbox", Js.JBool true) ])))
    as [H1 H2].
  split.
  - reflexivity.
  - exact (H2 _ eq_refl eq_refl (or_introl eq_refl) _ Fixture.remote
              Fixture.rt _ _).
Defined.

(* ===================================================================== *)
(** ** More on capture *)
(* ===================================================================== *)

Lemma capturable_none_of_not_open o :
  has_open_authorization o = false -> capturable_authorization o = None.
Proof.
  unfold has_open_authorization, capturable_authorization.
  destruct (first_authorization o) as [a|]; [|reflexivity].
  intros ->. now rewrite andb_false_r.
Qed.

Section CaptureMore.

Context {W : Type}.
Variable R : Remote W.

(** [captureOrder] always begins by retrieving the order and makes at most
    one call that moves funds.  That call is the direct order capture
    exactly when the retrieved order has no capturable authorization (none
    with an identifier and status CREATED in first place), no completed
    first capture, intent CAPTURE and status APPROVED; without any of the
    three ways forward it throws "Cannot capture order ..." and has only
    read. *)
Theorem captureOrder_moves_funds_once id (s : St W) :
  let r := PaypalService.captureOrder R id s in
  let done := made (calls s) (calls r.2) in
  (exists rest, done = GetOrder id :: rest)
  /\ (List.length (List.filter mutating done) <= 1)%nat
  /\ (existsb is_direct_capture done = true
      <-> exists o, ordersController_getOrder R (world s) id = inr o
                    /\ capturable_authorization o = None
                    /\ has_completed_capture o = false
                    /\ intent o = Some "CAPTURE"
                    /\ status o = Some "APPROVED")
  /\ (forall o,
         ordersController_getOrder R (world s) id = inr o ->
         capturable_authorization o = None ->
         has_completed_capture o = false ->
         ~ (intent o = Some "CAPTURE" /\ status o = Some "APPROVED") ->
         r = (inl (Js.Error ("Cannot capture order " ++ id ++ " in status "
                             ++ Js.show (status o) ++ " with intent "
                             ++ Js.show (intent o))),
              mkSt (world s) (calls s ++ [GetOrder id]))).
Proof.
  cbv zeta. rewrite captureOrder_run.
  destruct (ordersController_getOrder R (world s) id) as [e|o] eqn:Hget.
  { cbn [snd calls]. rewrite made_app. cbn.
    split; [eauto|]. split; [lia|]. split; [|intros o [=]].
    split; [discriminate | intros (o & [=] & _)]. }
  destruct (capturable_authorization o) as [authorizationId|] eqn:Hcap.
  { destruct (paymentsController_captureAuthorizedPayment
                R (world s) authorizationId) as [[e|c] w'];
      cbn [snd calls]; rewrite made_app; cbn;
      (split; [eauto|]); (split; [lia|]);
      (split; [|intros o' [= <-]; congruence]);
      (split; [discriminate | intros (o' & [= <-] & Hn & _); congruence]). }
  unfold has_completed_capture.
  destruct (match first_capture o with
            | Some c => Js.seq (capture_status c) "COMPLETED"
            | None => false
            end) eqn:Hdone.
  { cbn [snd calls]. rewrite made_app. cbn.
    split; [eauto|]. split; [lia|]. split; [|intros o' [= <-] _; congruence].
    split; [discriminate|].
    intros (o' & [= <-] & _ & Hn & _). congruence. }
  destruct (Js.seq (intent o) "CAPTURE" && Js.seq (status o) "APPROVED") eqn:E.
  - apply andb_prop in E as [Hi Hs]. apply seq_true in Hi, Hs.
    destruct (ordersController_captureOrder R (world s) id) as [r w'].
    cbn [snd calls]. rewrite made_app. cbn.
    split; [eauto|]. split; [lia|]. split.
    + split; [intros _; exists o; auto 6 | reflexivity].
    + intros o' [= <-] _ _ Hnot. exfalso. apply Hnot. auto.
  - cbn [snd calls]. rewrite made_app. cbn.
    split; [eauto|]. split; [lia|]. split.
    + split; [discriminate|].
      intros (o' & [= <-] & _ & _ & Hi & Hs).
      apply seq_true in Hi, Hs. rewrite Hi, Hs in E. discriminate.
    + intros o' [= <-] _ _ _. reflexivity.
Qed.


(** An order that is neither COMPLETED nor carries an authorization with
    status CREATED is captured only as an approved direct-capture order:
    when it is APPROVED with another intent (and without a completed
    capture) the capture fails after two retrievals, and when it is not
    APPROVED it fails after one; no call that moves funds is made. *)
Theorem capturePayment_refuses_unauthorized_orders
        now input input_data orderId o (s : St W) :
  data input = Some input_data ->
  data_id input_data = Some orderId ->
  PaypalModuleService.validatePayPalOrderId (Some orderId) = true ->
  ordersController_getOrder R (world s) orderId = inr o ->
  status o <> Some "COMPLETED" ->
  has_open_authorization o = false ->
  (status o = Some "APPROVED" ->
   has_completed_capture o = false -> intent o <> Some "CAPTURE" ->
   PaypalModuleService.capturePayment R now input s
   = (inl (Js.MedusaError Js.INVALID_DATA
             ("Failed to capture PayPal payment: Cannot capture order "
              ++ orderId ++ " in status APPROVED with intent "
              ++ Js.show (intent o))),
      mkSt (world s) (calls s ++ [GetOrder orderId; GetOrder orderId])))
  /\ (status o <> Some "APPROVED" ->
      PaypalModuleService.capturePayment R now input s
      = (inl (Js.MedusaError Js.INVALID_DATA
                ("Failed to capture PayPal payment: PayPal order "
                 ++ orderId ++ " is in status " ++ Js.show (status o)
                 ++ " with no valid authorization, cannot capture")),
         mkSt (world s) (calls s ++ [GetOrder orderId]))).
Proof.
  intros Hd Hid Hv Hget Hnc Hopen.
  rewrite (capturePayment_run R now input input_data orderId s Hd Hid Hv),
    Hget.
  apply seq_false in Hnc. rewrite Hnc.
  unfold has_open_authorization in Hopen. rewrite Hopen. cbn [orb].
  split.
  - intros Hst Hcap Hint. pose proof Hst as Hst'.
    apply seq_true in Hst. rewrite Hst.
    rewrite captureOrder_run. cbn [world calls]. rewrite Hget.
    rewrite (capturable_none_of_not_open o Hopen).
    unfold has_completed_capture in Hcap. rewrite Hcap.
    apply seq_false in Hint. rewrite Hint. cbn [andb].
    rewrite Hst'. cbn [Js.show Js.message]. now rewrite <- app_assoc.
  - intros Hst. apply seq_false in Hst. rewrite Hst. reflexivity.
Qed.

End CaptureMore.

Lemma captureOrder_moves_funds_once_witness :
  existsb is_direct_capture
    (made [] (calls (PaypalService.captureOrder Fixture.remote
                       Fixture.order_id
                       (Fixture.start
                          (Fixture.order "APPROVED" "CAPTURE" None None))).2))
  = true.
Proof.
  apply (proj1 (proj2 (proj2 (captureOrder_moves_funds_once Fixture.remote
                                Fixture.order_id
                                (Fixture.start
                                   (Fixture.order "APPROVED" "CAPTURE"
                                                  None None)))))).
  exists (Fixture.order "APPROVED" "CAPTURE" None None).
  repeat split; vm_compute; reflexivity.
Defined.


Lemma capturePayment_refuses_unauthorized_orders_witness :
  PaypalModuleService.capturePayment Fixture.remote "2025-09-10T12:00:00Z"
    (Fixture.input_for Fixture.order_id)
    (Fixture.start Fixture.approved_order)
  = (inl (Js.MedusaError Js.INVALID_DATA
            ("Failed to capture PayPal payment: Cannot capture order "
             ++ Fixture.order_id
             ++ " in status APPROVED with intent AUTHORIZE")),
     mkSt (world (Fixture.start Fixture.approved_order))
          [GetOrder Fixture.order_id; GetOrder Fixture.order_id]).
Proof.
  assert (H1 : status Fixture.approved_order <> Some "COMPLETED")
    by discriminate.
  assert (H2 : intent Fixture.approved_order <> Some "CAPTURE")
    by discriminate.
  exact (proj1 (capturePayment_refuses_unauthorized_orders Fixture.remote
                  "2025-09-10T12:00:00Z" (Fixture.input_for Fixture.order_id)
                  _ Fixture.order_id Fixture.approved_order
                  (Fixture.start Fixture.approved_order)
                  eq_refl eq_refl eq_refl eq_refl H1 eq_refl)
               eq_refl eq_refl H2).
Defined.

(* ===================================================================== *)
(** ** Tokens and refunds *)
(* ===================================================================== *)

Section TokensAndRefunds.

Context {W : Type}.
Variable R : Remote W.

(** [getAccessToken] makes the token request and nothing else; a token it
    returns is the processor's and is not empty; every failure, a missing
    or empty token included, is an [Error] whose message starts with
    "Failed to get access token: ", the missing token being reported as
    "Failed to get access token: Failed to get access token" because the
    function catches its own throw. *)
Theorem getAccessToken_outcomes (s : St W) :
  let r := PaypalService.getAccessToken R s in
  r.2 = mkSt (world s) (calls s ++ [RequestToken])
  /\ (forall token,
         r.1 = inr token <->
         authController_requestToken R (world s) = inr (Some token)
         /\ token <> "")
  /\ (forall e, r.1 = inl e ->
        exists m, e = Js.Error ("Failed to get access token: " ++ m))
  /\ (authController_requestToken R (world s) = inr None
      \/ authController_requestToken R (world s) = inr (Some "") ->
      r.1 = inl (Js.Error
                   "Failed to get access token: Failed to get access token")).
Proof.
  cbv zeta. rewrite getAccessToken_run. cbn [fst snd].
  split; [reflexivity|].
  destruct (authController_requestToken R (world s)) as [e|[t|]].
  - split; [intros token; split; [discriminate | intros [[=] _]]|].
    split; [intros e' [= <-]; eauto|]. intros [[=]|[=]].
  - destruct (t =? "") eqn:E.
    + apply String.eqb_eq in E. subst t.
      split; [intros token; split;
                [discriminate | intros [[= <-] H]; contradiction]|].
      split; [intros e' [= <-]; eauto | reflexivity].
    + apply String.eqb_neq in E.
      split; [intros token; split;
                [intros [= <-]; auto | intros [[= <-] _]; reflexivity]|].
      split; [discriminate|]. intros [[=]|[= ->]]. contradiction.
  - split; [intros token; split; [discriminate | intros [[=] _]]|].
    split; [intros e' [= <-]; eauto | reflexivity].
Qed.

Lemma client_refundPayment_step captureId rest (s : St W) :
  PaypalService.refundPayment R (captureId :: rest) s
  = match paymentsController_refundCapturedPayment R (world s) captureId with
    | (inl e, w') =>
        (inl e, mkSt w' (calls s ++ [RefundCapturedPayment captureId]))
    | (inr refund, w') =>
        match PaypalService.refundPayment R rest
                (mkSt w' (calls s ++ [RefundCapturedPayment captureId]))
        with
        | (inl e, s') => (inl e, s')
        | (inr refunds, s') => (inr (refund :: refunds), s')
        end
    end.
Proof.
  cbn [PaypalService.refundPayment]. unfold bind, command, ret.
  destruct (paymentsController_refundCapturedPayment R (world s) captureId)
    as [[e|refund] w']; [reflexivity|].
  destruct (PaypalService.refundPayment R rest _) as [[e|refunds] s'];
    reflexivity.
Qed.

(** The processor after the refunds of [captureIds] were requested, one
    after the other, starting from [w]. *)
Lemma client_refundPayment_all captureIds :
  forall s : St W,
    (forall i, (i < List.length captureIds)%nat ->
       exists refund,
         (paymentsController_refundCapturedPayment R
            (fold_left (fun w captureId =>
                          (paymentsController_refundCapturedPayment R w
                             captureId).2)
                       (firstn i captureIds) (world s))
            (nth i captureIds "")).1 = inr refund) ->
    exists refunds,
      PaypalService.refundPayment R captureIds s
      = (inr refunds,
         mkSt (fold_left (fun w captureId =>
                            (paymentsController_refundCapturedPayment R w
                               captureId).2)
                         captureIds (world s))
              (calls s ++ map RefundCapturedPayment captureIds)).
Proof.
  induction captureIds as [|captureId rest IH]; intros s Hall.
  - exists []. cbn. rewrite app_nil_r. now destruct s.
  - rewrite client_refundPayment_step.
    destruct (Hall 0%nat ltac:(cbn; lia)) as (refund & H0). cbn in H0.
    destruct (paymentsController_refundCapturedPayment R (world s) captureId)
      as [[e|refund'] w'] eqn:Hcall; cbn [fst] in H0; [discriminate|].
    destruct (IH (mkSt w' (calls s ++ [RefundCapturedPayment captureId])))
      as (refunds & Hrest).
    { intros i Hi. specialize (Hall (S i) ltac:(cbn; lia)).
      cbn [firstn fold_left nth] in Hall. rewrite Hcall in Hall.
      exact Hall. }
    rewrite Hrest. exists (refund' :: refunds).
    cbn [world calls fold_left map]. rewrite Hcall. cbn [snd].
    now rewrite <- app_assoc.
Qed.

Lemma client_refundPayment_stops captureIds :
  forall (s : St W) k,
    (k < List.length captureIds)%nat ->
    (forall i, (i < k)%nat ->
       exists refund,
         (paymentsController_refundCapturedPayment R
            (fold_left (fun w captureId =>
                          (paymentsController_refundCapturedPayment R w
                             captureId).2)
                       (firstn i captureIds) (world s))
            (nth i captureIds "")).1 = inr refund) ->
    (forall refund,
        (paymentsController_refundCapturedPayment R
           (fold_left (fun w captureId =>
                         (paymentsController_refundCapturedPayment R w
                            captureId).2)
                      (firstn k captureIds) (world s))
           (nth k captureIds "")).1 <> inr refund) ->
    exists e,
      PaypalService.refundPayment R captureIds s
      = (inl e,
         mkSt (fold_left (fun w captureId =>
                            (paymentsController_refundCapturedPayment R w
                               captureId).2)
                         (firstn (S k) captureIds) (world s))
              (calls s
               ++ map RefundCapturedPayment (firstn (S k) captureIds))).
Proof.
  induction captureIds as [|captureId rest IH]; intros s k Hk Hbefore Hfail.
  - cbn in Hk. lia.
  - rewrite client_refundPayment_step.
    destruct (paymentsController_refundCapturedPayment R (world s) captureId)
      as [[e|refund] w'] eqn:Hcall.
    + destruct k as [|k].
      * exists e. cbn. now rewrite Hcall.
      * destruct (Hbefore 0%nat ltac:(lia)) as (refund & H0).
        cbn in H0. rewrite Hcall in H0. discriminate.
    + destruct k as [|k].
      * exfalso. apply (Hfail refund). cbn. now rewrite Hcall.
      * destruct (IH (mkSt w' (calls s ++ [RefundCapturedPayment captureId]))
                    k) as (e & Hrest).
        -- cbn in Hk. lia.
        -- intros i Hi. specialize (Hbefore (S i) ltac:(lia)).
           cbn [firstn fold_left nth] in Hbefore. rewrite Hcall in Hbefore.
           exact Hbefore.
        -- intros refund0. specialize (Hfail refund0).
           cbn [firstn fold_left nth] in Hfail. rewrite Hcall in Hfail.
           exact Hfail.
        -- rewrite Hrest. exists e. cbn [world calls].
           cbn [firstn fold_left map]. rewrite Hcall. cbn [snd].
           now rewrite <- app_assoc.
Qed.

Lemma flat_map_map {A B C} (g : B -> list C) (h : A -> B) (l : list A) :
  flat_map g (map h l) = flat_map (fun x => g (h x)) l.
Proof. induction l as [|x l IH]; cbn; [reflexivity | now rewrite IH]. Qed.

(** The capture identifiers of a refund request, unit by unit and capture
    by capture. *)
Lemma captureIds_of_spec units :
  PaypalModuleService.captureIds_of units
  = flat_map
      (fun item =>
         match payments item with
         | Some p =>
             match captures p with
             | Some cs =>
                 flat_map (fun c => match capture_id c with
                                    | Some captureId => [captureId]
                                    | None => []
                                    end) cs
             | None => []
             end
         | None => []
         end) units.
Proof.
  unfold PaypalModuleService.captureIds_of.
  induction units as [|item units IH]; [reflexivity|].
  cbn [flat_map]. rewrite flat_map_app, IH. f_equal.
  destruct (payments item) as [p|]; [|reflexivity].
  destruct (captures p) as [cs|]; [|reflexivity].
  apply flat_map_map.
Qed.

(** For an accepted refund request (an order identifier of the right shape
    and, in the purchase units, at least one capture identifier, all of the
    right shape), [refundPayment] asks for the refund of every capture of
    every unit, in order, one call each, as long as the refunds go through.
    When all do, it reports the canceled status.  When the refund of
    capture number [k] is the first to fail, it stops there with the one
    error "Failed to refund PayPal payment": the calls made are the refunds
    of the captures up to number [k], no later capture is refunded, and
    the processor is left as those calls left it, the refunds issued
    before the failure included.  Every other failure of [refundPayment]
    is reported by the same error. *)
Theorem refundPayment_refunds_in_order now input (s : St W) :
  (forall e, (PaypalModuleService.refundPayment R now input s).1 = inl e ->
             e = Js.MedusaError Js.INVALID_DATA
                   "Failed to refund PayPal payment")
  /\ (forall input_data orderId units,
         data input = Some input_data ->
         data_id input_data = Some orderId ->
         data_purchaseUnits input_data = Some units ->
         PaypalModuleService.validatePayPalOrderId (Some orderId) = true ->
         let captureIds :=
           flat_map
             (fun item =>
                match payments item with
                | Some p =>
                    match captures p with
                    | Some cs =>
                        flat_map (fun c => match capture_id c with
                                           | Some captureId => [captureId]
                                           | None => []
                                           end) cs
                    | None => []
                    end
                | None => []
                end) units in
         captureIds <> [] ->
         (forall captureId,
             In captureId captureIds ->
             PaypalModuleService.validatePayPalCaptureId (Some captureId)
             = true) ->
         let after n :=
           fold_left (fun w captureId =>
                        (paymentsController_refundCapturedPayment R w
                           captureId).2)
                     (firstn n captureIds) (world s) in
         let refunded i :=
           exists refund,
             (paymentsController_refundCapturedPayment R (after i)
                (nth i captureIds "")).1 = inr refund in
         ((forall i, (i < List.length captureIds)%nat -> refunded i) ->
          PaypalModuleService.refundPayment R now input s
          = (inr {| refund_order_id := orderId;
                    refund_session_status := PaymentSessionStatus.CANCELED;
                    cancelled_at := now |},
             mkSt (after (List.length captureIds))
                  (calls s ++ map RefundCapturedPayment captureIds)))
         /\ (forall k,
                (k < List.length captureIds)%nat ->
                (forall i, (i < k)%nat -> refunded i) ->
                ~ refunded k ->
                PaypalModuleService.refundPayment R now input s
                = (inl (Js.MedusaError Js.INVALID_DATA
                          "Failed to refund PayPal payment"),
                   mkSt (after (S k))
                        (calls s
                         ++ map RefundCapturedPayment
                              (firstn (S k) captureIds))))).
Proof.
  split.
  - intros e. unfold PaypalModuleService.refundPayment, try_catch.
    match goal with
    | |- context [match ?body s with _ => _ end] =>
        destruct (body s) as [[e'|out] s']
    end; cbn [fst throw]; intros [= <-]. reflexivity.
  - intros input_data orderId units Hd Hid Hu Hv captureIds Hne Hall
           after refunded.
    pose proof (validatePayPalOrderId_nonempty _ Hv) as Hne'.
    assert (Hrun : PaypalModuleService.refundPayment R now input s
                   = match PaypalService.refundPayment R captureIds s with
                     | (inr _, s') =>
                         (inr {| refund_order_id := orderId;
                                 refund_session_status :=
                                   PaymentSessionStatus.CANCELED;
                                 cancelled_at := now |}, s')
                     | (inl _, s') =>
                         (inl (Js.MedusaError Js.INVALID_DATA
                                 "Failed to refund PayPal payment"), s')
                     end).
    { unfold PaypalModuleService.refundPayment, try_catch.
      rewrite Hd, Hid, Hu, captureIds_of_spec. fold captureIds.
      destruct captureIds as [|c cs] eqn:Eids; [congruence|].
      rewrite Hne', Hv. cbn [negb].
      replace (forallb _ (c :: cs)) with true.
      2:{ symmetry. apply List.forallb_forall. intros x Hx.
          now apply Hall. }
      cbn [negb]. unfold bind.
      destruct (PaypalService.refundPayment R (c :: cs) s)
        as [[e|refunds] s']; reflexivity. }
    rewrite Hrun. split.
    + intros Hok.
      destruct (client_refundPayment_all captureIds s Hok)
        as (refunds & ->).
      unfold after. now rewrite firstn_all.
    + intros k Hk Hbefore Hfail.
      destruct (client_refundPayment_stops captureIds s k Hk Hbefore)
        as (e & ->); [|reflexivity].
      intros refund H. apply Hfail. exists refund. exact H.
Qed.

End TokensAndRefunds.

Lemma getAccessToken_outcomes_witness :
  (PaypalService.getAccessToken Fixture.remote
     (Fixture.start Fixture.approved_order)).1
  = inr "A21AAFexampletoken".
Proof.
  apply (proj1 (proj2 (getAccessToken_outcomes Fixture.remote
                         (Fixture.start Fixture.approved_order)))
           "A21AAFexampletoken").
  split; [reflexivity | discriminate].
Defined.

Lemma refundPayment_refunds_in_order_witness :
  PaypalModuleService.refundPayment StrictProcessor.remote
    "2025-09-10T12:00:00Z"
    {| data :=
         Some {| data_id := Some Fixture.order_id;
                 data_amount := None;
                 data_currency_code := None;
                 data_purchaseUnits :=
                   Some [ StrictProcessor.unit_with ["0CP12345678901234"];
                          StrictProcessor.unit_with
                            [StrictProcessor.declined_capture;
                             "0CP12345678905678"] ] |} |}
    (Fixture.start Fixture.completed_order)
  = (inl (Js.MedusaError Js.INVALID_DATA "Failed to refund PayPal payment"),
     mkSt (<[ "0CP12345678901234" := StrictProcessor.refunded ]>
             (<[ Fixture.order_id := Fixture.completed_order ]> ∅))
          [ RefundCapturedPayment "0CP12345678901234";
            RefundCapturedPayment StrictProcessor.declined_capture ]).
Proof.
  apply (proj2 (proj2 (refundPayment_refunds_in_order StrictProcessor.remote
                         "2025-09-10T12:00:00Z"
                         {| data :=
                              Some {| data_id := Some Fixture.order_id;
                                      data_amount := None;
                                      data_currency_code := None;
                                      data_purchaseUnits :=
                                        Some [ StrictProcessor.unit_with
                                                 ["0CP12345678901234"];
                                               StrictProcessor.unit_with
                                                 [StrictProcessor.declined_capture;
                                                  "0CP12345678905678"] ] |} |}
                         (Fixture.start Fixture.completed_order))
                  _ Fixture.order_id _ eq_refl eq_refl eq_refl eq_refl
                  ltac:(discriminate)
                  ltac:(intros c [<-|[<-|[<-|[]]]]; reflexivity))
           1%nat).
  - cbn. lia.
  - intros i Hi. assert (i = 0)%nat as -> by lia.
    eexists. vm_compute. reflexivity.
  - intros (refund & H). vm_compute in H. discriminate H.
Defined.

(* ===================================================================== *)
(** ** How authorize fails *)
(* ===================================================================== *)

Section AuthorizeFailures.

Context {W : Type}.
Variable R : Remote W.
Variable rt : Js.Runtime.

(** [authorizePayment] refuses a request without calling the processor
    when the data, the identifier, the amount or the currency is missing,
    an amount of 0 (or NaN) counting as missing.  A failed retrieval is
    reported by the one message "Failed to retrieve PayPal order status",
    whatever the processor answered.  A failed authorize call of an
    APPROVED order is reported as "PayPal authorization failed: " followed
    by the [message] of the JSON body of the error when it has one that is
    a non-empty string, and by "Failed to authorize payment" when the error
    has no body. *)
Theorem authorize_failure_modes input (s : St W) :
  ((data input = None
    \/ exists input_data,
        data input = Some input_data
        /\ (Js.truthy_str (data_id input_data) = false
            \/ Js.truthy_num (data_amount input_data) = false
            \/ Js.truthy_str (data_currency_code input_data) = false)) ->
   exists m, PaypalModuleService.authorizePayment R rt input s
             = (inl (Js.MedusaError Js.INVALID_DATA m), s))
  /\ (forall input_data orderId,
         data input = Some input_data ->
         data_id input_data = Some orderId -> orderId <> "" ->
         Js.truthy_num (data_amount input_data) = true ->
         Js.truthy_str (data_currency_code input_data) = true ->
         (forall e,
             ordersController_getOrder R (world s) orderId = inl e ->
             PaypalModuleService.authorizePayment R rt input s
             = (inl (Js.MedusaError Js.INVALID_DATA
                       "Failed to retrieve PayPal order status"),
                mkSt (world s) (calls s ++ [GetOrder orderId])))
         /\ (forall o e w',
                ordersController_getOrder R (world s) orderId = inr o ->
                purchaseUnits o <> Some [] ->
                status o = Some "APPROVED" ->
                ordersController_authorizeOrder R (world s) orderId
                = (inl e, w') ->
                let after :=
                  mkSt w' (calls s ++ [GetOrder orderId;
                                       AuthorizeOrder orderId]) in
                (Js.body e = None ->
                 PaypalModuleService.authorizePayment R rt input s
                 = (inl (Js.MedusaError Js.INVALID_DATA
                           "PayPal authorization failed: Failed to authorize payment"),
                    after))
                /\ (forall text fields m,
                       Js.body e = Some text -> text <> "" ->
                       Js.JSON_parse rt text = Some (Js.JObj fields) ->
                       Js.assoc "message" fields = Some (Js.JStr m) ->
                       m <> "" ->
                       PaypalModuleService.authorizePayment R rt input s
                       = (inl (Js.MedusaError Js.INVALID_DATA
                                 ("PayPal authorization failed: " ++ m)),
                          after)))).
Proof.
  split.
  - unfold PaypalModuleService.authorizePayment.
    intros [-> | (input_data & -> & Hmiss)]; [eexists; reflexivity|].
    destruct (data_id input_data) as [orderId|]; [|eexists; reflexivity].
    destruct (orderId =? "") eqn:E; [eexists; reflexivity|].
    destruct Hmiss as [H | [H | H]].
    + simpl in H. rewrite E in H. discriminate.
    + rewrite H. eexists. reflexivity.
    + rewrite H, orb_true_r. eexists. reflexivity.
  - intros input_data orderId Hd Hid Hne Hamt Hcur. split.
    + intros e Hget. apply String.eqb_neq in Hne.
      unfold PaypalModuleService.authorizePayment.
      rewrite Hd, Hid, Hne, Hamt, Hcur. cbn [negb orb].
      unfold bind at 1, try_catch at 1. rewrite retrieveOrder_run, Hget.
      reflexivity.
    + intros o e w' Hget Hpu Hst Hauth after. subst after.
      rewrite (authorizePayment_run R rt input input_data orderId o s
                 Hd Hid Hne Hamt Hcur Hget Hpu).
      apply seq_true in Hst. rewrite Hst, Hauth.
      unfold authorize_failure, PaypalModuleService.authorize_error_message.
      split.
      * intros ->. reflexivity.
      * intros text fields m -> Hne' Hparse Hm Hmne.
        apply String.eqb_neq in Hne', Hmne.
        cbn [Js.truthy_str Js.show]. rewrite Hne'. cbn [negb].
        rewrite Hparse. cbn [Js.opt_get]. rewrite Hm.
        unfold Js.or_else. cbn [Js.truthy]. rewrite Hmne. reflexivity.
Qed.

End AuthorizeFailures.

Lemma authorize_failure_modes_witness :
  exists m,
    PaypalModuleService.authorizePayment Fixture.remote Fixture.rt
      {| data := Some {| data_id := Some Fixture.order_id;
                         data_amount := Some 0%float;
                         data_currency_code := Some "USD";
                         data_purchaseUnits := None |} |}
      (Fixture.start Fixture.approved_order)
    = (inl (Js.MedusaError Js.INVALID_DATA m),
       Fixture.start Fixture.approved_order).
Proof.
  apply (proj1 (authorize_failure_modes Fixture.remote Fixture.rt
                  {| data := Some {| data_id := Some Fixture.order_id;
                                     data_amount := Some 0%float;
                                     data_currency_code := Some "USD";
                                     data_purchaseUnits := None |} |}
                  (Fixture.start Fixture.approved_order))).
  right. eexists. split; [reflexivity|]. right. left. reflexivity.
Defined.

(* ===================================================================== *)
(** ** More on webhooks *)
(* ===================================================================== *)

Lemma is_str_true v lit : Js.is_str v lit = true <-> v = Some (Js.JStr lit).
Proof.
  destruct v as [[ | | | t | | ]|]; simpl; try (split; discriminate).
  rewrite String.eqb_eq. split; congruence.
Qed.

Section WebhookMore.

Context {W : Type}.
Variable R : Remote W.
Variable rt : Js.Runtime.
Variable webhookId : option string.

(** A webhook whose raw data is not a string is never parsed: its body is
    the raw data itself, which has no event type, so that even when the
    signature is verified the answer is the not-supported action, and
    otherwise the failed one; in neither case with session data. *)
Theorem unparsed_webhook_is_not_acted_upon payload bytes (s : St W) :
  rawData payload = RawBuffer bytes ->
  (forall event,
      PaypalModuleService.constructWebhookEvent rt payload = inr event ->
      event_body event = BodyBuffer bytes
      /\ event_headers event = headers payload)
  /\ exists result s',
      PaypalModuleService.getWebhookActionAndData R rt webhookId payload s
      = (inr result, s')
      /\ action_data result = None
      /\ (action result = PaymentActions.NOT_SUPPORTED
          \/ action result = PaymentActions.FAILED)
      /\ (action result = PaymentActions.NOT_SUPPORTED <->
          exists event verification,
            PaypalModuleService.constructWebhookEvent rt payload = inr event
            /\ PaypalService.verifyWebhook R webhookId (event_headers event)
                 (event_body event) s = (inr verification, s')).
Proof.
  intros Hraw.
  assert (Hev : forall event,
             PaypalModuleService.constructWebhookEvent rt payload = inr event ->
             event = {| event_headers := headers payload;
                        event_body := BodyBuffer bytes |}).
  { intros event. unfold PaypalModuleService.constructWebhookEvent.
    rewrite Hraw. destruct (PaypalModuleService.check_headers _ _);
      [discriminate | now intros [= <-]]. }
  split; [intros event H; rewrite (Hev event H); auto|].
  rewrite getWebhookActionAndData_run.
  destruct (PaypalModuleService.constructWebhookEvent rt payload)
    as [e|event] eqn:Hc.
  { exists webhook_failed, s. cbn. repeat split; auto.
    - discriminate.
    - intros (event & v & [=] & _). }
  rewrite (Hev event eq_refl). cbn [event_headers event_body].
  destruct (PaypalService.verifyWebhook R webhookId (headers payload)
              (BodyBuffer bytes) s) as [[e|v] s'] eqn:Hv.
  - exists webhook_failed, s'. cbn. repeat split; auto.
    + discriminate.
    + intros (event' & v & [= <-] & H). cbn in H. rewrite Hv in H.
      discriminate.
  - cbn. eexists _, s'. split; [reflexivity|]. cbn.
    repeat split; auto.
    intros _. exists {| event_headers := headers payload;
                        event_body := BodyBuffer bytes |}, v. auto.
Qed.

Lemma webhookAction_partition eventType sessionId amount :
  let result :=
    PaypalModuleService.webhookAction eventType sessionId amount in
  (action result = PaymentActions.SUCCESSFUL <->
   exists t, eventType = Some (Js.JStr t)
             /\ In t ["PAYMENT.CAPTURE.COMPLETED"; "PAYMENT.CAPTURE.REFUNDED";
                      "PAYMENT.REFUND.COMPLETED"])
  /\ (action result = PaymentActions.FAILED <->
      exists t, eventType = Some (Js.JStr t)
                /\ In t ["PAYMENT.CAPTURE.DENIED"; "PAYMENT.CAPTURE.FAILED";
                         "CHECKOUT.PAYMENT-APPROVAL.REVERSED"])
  /\ (action result = PaymentActions.CANCELED <->
      eventType = Some (Js.JStr "PAYMENT.AUTHORIZATION.VOIDED"))
  /\ (action result = PaymentActions.REQUIRES_MORE <->
      eventType = Some (Js.JStr "CHECKOUT.ORDER.APPROVED"))
  /\ (action result = PaymentActions.PENDING <->
      eventType = Some (Js.JStr "PAYMENT.CAPTURE.PENDING"))
  /\ (action result = PaymentActions.AUTHORIZED <->
      eventType = Some (Js.JStr "PAYMENT.AUTHORIZATION.CREATED"))
  /\ (action_data result
      = Some {| session_id := sessionId; amount := amount |}
      <-> exists t, eventType = Some (Js.JStr t) /\ In t switch_cases)
  /\ (action_data result = None
      <-> action result = PaymentActions.NOT_SUPPORTED).
Proof.
  cbv zeta. unfold PaypalModuleService.webhookAction, switch_cases.
  repeat match goal with
         | |- context [Js.is_str eventType ?lit] =>
             let E := fresh "E" in
             destruct (Js.is_str eventType lit) eqn:E;
             [apply is_str_true in E; subst eventType; cbn;
              repeat split; intros; try discriminate; try reflexivity;
              try (eexists; split; [reflexivity|]; simpl; tauto);
              repeat match goal with
                     | H : exists _, _ |- _ => destruct H as (? & [= <-] & H)
                     | H : In _ _ |- _ => simpl in H
                     | H : _ \/ _ |- _ => destruct H as [H|H]
                     | H : _ = _ |- _ => discriminate H
                     | H : False |- _ => destruct H
                     end
             | cbn [orb] ]
         end.
  cbn.
  repeat split; intros H; try discriminate H; try reflexivity; exfalso;
    repeat match goal with
           | H : exists _, _ |- _ => destruct H as (? & ? & ?)
           end;
    simplify_eq; simpl in *;
    repeat match goal with
           | H : _ \/ _ |- _ => destruct H as [H|H]
           | H : False |- _ => destruct H
           end;
    simplify_eq; simpl in *; try discriminate;
    repeat match goal with
           | H : (?a =? ?a) = false |- _ =>
               rewrite String.eqb_refl in H; discriminate H
           end.
Qed.

(** How the switch groups the event types of a verified event: the
    successful action is given to completed captures and, no refund action
    existing, to the two refund events as well; the failed action to denied
    and failed captures and to reversed approvals; and the session
    identifier and amount read from the resource accompany the action
    exactly for the event types the switch names. *)
Theorem webhook_actions_by_event_type payload event eventType resource
        verification (s s' : St W) :
  PaypalModuleService.constructWebhookEvent rt payload = inr event ->
  PaypalService.verifyWebhook R webhookId (event_headers event)
                              (event_body event) s
  = (inr verification, s') ->
  PaypalModuleService.body_get (event_body event) "event_type"
  = inr eventType ->
  PaypalModuleService.body_get (event_body event) "resource"
  = inr resource ->
  exists result,
    PaypalModuleService.getWebhookActionAndData R rt webhookId payload s
    = (inr result, s')
    /\ (action result = PaymentActions.SUCCESSFUL <->
        exists t, eventType = Some (Js.JStr t)
                  /\ In t ["PAYMENT.CAPTURE.COMPLETED";
                           "PAYMENT.CAPTURE.REFUNDED";
                           "PAYMENT.REFUND.COMPLETED"])
    /\ (action result = PaymentActions.FAILED <->
        exists t, eventType = Some (Js.JStr t)
                  /\ In t ["PAYMENT.CAPTURE.DENIED"; "PAYMENT.CAPTURE.FAILED";
                           "CHECKOUT.PAYMENT-APPROVAL.REVERSED"])
    /\ (action result = PaymentActions.CANCELED <->
        eventType = Some (Js.JStr "PAYMENT.AUTHORIZATION.VOIDED"))
    /\ (action result = PaymentActions.REQUIRES_MORE <->
        eventType = Some (Js.JStr "CHECKOUT.ORDER.APPROVED"))
    /\ (action result = PaymentActions.PENDING <->
        eventType = Some (Js.JStr "PAYMENT.CAPTURE.PENDING"))
    /\ (action result = PaymentActions.AUTHORIZED <->
        eventType = Some (Js.JStr "PAYMENT.AUTHORIZATION.CREATED"))
    /\ (action_data result
        = Some {| session_id := session_of resource;
                  amount := amount_of rt resource |}
        <-> exists t, eventType = Some (Js.JStr t) /\ In t switch_cases)
    /\ (action_data result = None
        <-> action result = PaymentActions.NOT_SUPPORTED).
Proof.
  intros Hev Hver Hty Hres.
  eexists. split.
  { rewrite getWebhookActionAndData_run, Hev, Hver, Hty, Hres. reflexivity. }
  apply webhookAction_partition.
Qed.

End WebhookMore.

Lemma unparsed_webhook_is_not_acted_upon_witness :
  exists result s',
    PaypalModuleService.getWebhookActionAndData Fixture.remote Fixture.rt
      (Some "WH-2WR32451HC0233532")
      {| headers := Fixture.signed_headers "good-signature";
         rawData := RawBuffer [] |}
      (Fixture.start Fixture.completed_order) = (inr result, s')
    /\ action_data result = None.
Proof.
  destruct (unparsed_webhook_is_not_acted_upon Fixture.remote Fixture.rt
              (Some "WH-2WR32451HC0233532")
              {| headers := Fixture.signed_headers "good-signature";
                 rawData := RawBuffer [] |} []
              (Fixture.start Fixture.completed_order) eq_refl)
    as (_ & result & s' & H1 & H2 & _).
  exists result, s'. auto.
Defined.

Lemma webhook_actions_by_event_type_witness :
  exists result s',
    PaypalModuleService.getWebhookActionAndData Fixture.remote Fixture.rt
      (Some "WH-2WR32451HC0233532")
      (Fixture.webhook "good-signature" "PAYMENT.CAPTURE.COMPLETED")
      (Fixture.start Fixture.completed_order)
    = (inr result, s')
    /\ action result = PaymentActions.SUCCESSFUL
    /\ action_data result <> None.
Proof.
  destruct (webhook_actions_by_event_type Fixture.remote Fixture.rt
              (Some "WH-2WR32451HC0233532")
              (Fixture.webhook "good-signature" "PAYMENT.CAPTURE.COMPLETED")
              {| event_headers := Fixture.signed_headers "good-signature";
                 event_body :=
                   BodyJson (Fixture.event_json "PAYMENT.CAPTURE.COMPLETED"
                                                "payses_01") |}
              (Some (Js.JStr "PAYMENT.CAPTURE.COMPLETED"))
              (Js.assoc "resource"
                 match Fixture.event_json "PAYMENT.CAPTURE.COMPLETED"
                                          "payses_01" with
                 | Js.JObj fields => fields
                 | _ => []
                 end)
              ("SUCCESS",
               BodyJson (Fixture.event_json "PAYMENT.CAPTURE.COMPLETED"
                                            "payses_01"))
              (Fixture.start Fixture.completed_order)
              (mkSt (world (Fixture.start Fixture.completed_order))
                    [RequestToken;
                     VerifyWebhookSignature
                       (verify_request "WH-2WR32451HC0233532"
                          (Fixture.signed_headers "good-signature")
                          (BodyJson
                             (Fixture.event_json "PAYMENT.CAPTURE.COMPLETED"
                                                 "payses_01")))]))
    as (result & Hrun & Hs & _ & _ & _ & _ & _ & Hd & _);
    try (vm_compute; reflexivity).
  exists result. eexists. split; [exact Hrun|]. split.
  - apply Hs. eexists. split; [reflexivity|]. simpl. tauto.
  - intros Hnone.
    assert (Hsome : action_data result
                    = Some {| session_id :=
                                session_of
                                  (Js.assoc "resource"
                                     match Fixture.event_json
                                             "PAYMENT.CAPTURE.COMPLETED"
                                             "payses_01" with
                                     | Js.JObj fields => fields
                                     | _ => []
                                     end);
                              amount :=
                                amount_of Fixture.rt
                                  (Js.assoc "resource"
                                     match Fixture.event_json
                                             "PAYMENT.CAPTURE.COMPLETED"
                                             "payses_01" with
                                     | Js.JObj fields => fields
                                     | _ => []
                                     end) |}).
    { apply Hd. eexists. split; [reflexivity|].
      unfold switch_cases. simpl. tauto. }
    rewrite Hnone in Hsome. discriminate Hsome.
Defined.

(* ===================================================================== *)
(** ** Text: regular expressions, e-mail addresses, sanitized input *)
(* ===================================================================== *)

Lemma append_eq_nil (a b : string) : a ++ b = "" -> a = "" /\ b = "".
Proof.
  destruct a; [rewrite append_nil_l; auto | rewrite append_cons; discriminate].
Qed.

Lemma matches_seq_inv r1 r2 s :
  Regex.matches (Regex.Seq r1 r2) s ->
  exists s1 s2, s = s1 ++ s2 /\ Regex.matches r1 s1 /\ Regex.matches r2 s2.
Proof. intros H. inversion H; subst. eauto. Qed.

Lemma matches_alt_inv r1 r2 s :
  Regex.matches (Regex.Alt r1 r2) s ->
  Regex.matches r1 s \/ Regex.matches r2 s.
Proof. intros H. inversion H; subst; auto. Qed.

Lemma matches_class_inv cls s :
  Regex.matches (Regex.Class cls) s ->
  exists c, s = String c "" /\ cls c = true.
Proof. intros H. inversion H; subst. eauto. Qed.

Lemma nullable_matches r : Regex.nullable r = true <-> Regex.matches r "".
Proof.
  induction r as [| |cls|r1 IH1 r2 IH2|r1 IH1 r2 IH2|r IH]; cbn.
  - split; [discriminate | intros H; inversion H].
  - split; [constructor | reflexivity].
  - split; [discriminate | intros H; inversion H].
  - rewrite andb_true_iff, IH1, IH2. split.
    + intros [H1 H2]. exact (Regex.MSeq _ _ "" "" H1 H2).
    + intros H. apply matches_seq_inv in H as (s1 & s2 & Heq & H1 & H2).
      symmetry in Heq. apply append_eq_nil in Heq as [-> ->]. auto.
  - rewrite orb_true_iff, IH1, IH2. split.
    + intros [H|H]; [now apply Regex.MAltL | now apply Regex.MAltR].
    + intros H. apply matches_alt_inv in H. tauto.
  - split; [constructor | reflexivity].
Qed.

(** A non-empty match of [Star r] starts with a non-empty match of [r]. *)
Lemma matches_star_cons r s :
  Regex.matches (Regex.Star r) s ->
  forall c rest, s = String c rest ->
  exists s1 s2, rest = s1 ++ s2
                /\ Regex.matches r (String c s1)
                /\ Regex.matches (Regex.Star r) s2.
Proof.
  intros H. remember (Regex.Star r) as r' eqn:Hr.
  induction H as [| | | | | r0 | r0 s1 s2 H1 _ H2 IH2]; try discriminate.
  injection Hr as ->. intros c rest Heq.
  destruct s1 as [|c1 s1].
  - rewrite append_nil_l in Heq. exact (IH2 eq_refl c rest Heq).
  - rewrite append_cons in Heq. injection Heq as -> <-.
    exists s1, s2. auto.
Qed.

Lemma derive_matches r : forall c s,
  Regex.matches (Regex.derive c r) s <-> Regex.matches r (String c s).
Proof.
  induction r as [| |cls|r1 IH1 r2 IH2|r1 IH1 r2 IH2|r IH]; intros c s; cbn.
  - split; intros H; inversion H.
  - split; intros H; inversion H.
  - destruct (cls c) eqn:E; split; intros H.
    + inversion H; subst. now constructor.
    + apply matches_class_inv in H as (c' & [= -> ->] & _). constructor.
    + inversion H.
    + apply matches_class_inv in H as (c' & [= -> ->] & H). congruence.
  - assert (Hseq : Regex.matches (Regex.Seq (Regex.derive c r1) r2) s ->
                   Regex.matches (Regex.Seq r1 r2) (String c s)).
    { intros H. apply matches_seq_inv in H as (s1 & s2 & -> & H1 & H2).
      apply IH1 in H1. exact (Regex.MSeq _ _ (String c s1) s2 H1 H2). }
    assert (Hinv : Regex.matches (Regex.Seq r1 r2) (String c s) ->
                   Regex.matches (Regex.Seq (Regex.derive c r1) r2) s
                   \/ (Regex.matches r1 "" /\ Regex.matches r2 (String c s))).
    { intros H. apply matches_seq_inv in H as (s1 & s2 & Heq & H1 & H2).
      destruct s1 as [|c1 s1].
      - rewrite append_nil_l in Heq. subst s2. auto.
      - rewrite append_cons in Heq. injection Heq as <- ->. left.
        apply Regex.MSeq; [now apply IH1 | assumption]. }
    destruct (Regex.nullable r1) eqn:En.
    + split.
      * intros H. apply matches_alt_inv in H as [H|H]; [now apply Hseq|].
        apply nullable_matches in En.
        exact (Regex.MSeq _ _ "" (String c s) En (proj1 (IH2 c s) H)).
      * intros H. destruct (Hinv H) as [H'|[_ H']];
          [now apply Regex.MAltL | apply Regex.MAltR; now apply IH2].
    + split; [exact Hseq|].
      intros H. destruct (Hinv H) as [H'|[H' _]]; [exact H'|].
      apply nullable_matches in H'. congruence.
  - split; intros H; apply matches_alt_inv in H as [H|H].
    + apply Regex.MAltL. now apply IH1.
    + apply Regex.MAltR. now apply IH2.
    + apply Regex.MAltL. now apply IH1.
    + apply Regex.MAltR. now apply IH2.
  - split.
    + intros H. apply matches_seq_inv in H as (s1 & s2 & -> & H1 & H2).
      apply IH in H1. exact (Regex.MStarApp r (String c s1) s2 H1 H2).
    + intros H.
      destruct (matches_star_cons r _ H c s eq_refl) as (s1 & s2 & -> & H1 & H2).
      apply Regex.MSeq; [now apply IH | assumption].
Qed.

(** The derivative matcher decides the denotation. *)
Lemma test_matches s : forall r,
  Regex.test r s = true <-> Regex.matches r s.
Proof.
  induction s as [|c s IH]; intros r; cbn.
  - apply nullable_matches.
  - rewrite IH. apply derive_matches.
Qed.

Lemma matches_class_star p s :
  Regex.matches (Regex.Star (Regex.Class p)) s <-> Text.all p s = true.
Proof.
  split.
  - intros H. remember (Regex.Star (Regex.Class p)) as r eqn:Hr.
    induction H as [| | | | | r0 | r0 s1 s2 H1 _ H2 IH2]; try discriminate.
    + reflexivity.
    + injection Hr as ->.
      apply matches_class_inv in H1 as (c & -> & Hc).
      rewrite append_cons, append_nil_l. cbn.
      rewrite IH2 by reflexivity. now rewrite Hc.
  - induction s as [|c s IH]; cbn; [constructor|].
    intros H. apply andb_prop in H as [Hc Hs].
    exact (Regex.MStarApp _ (String c "") s (Regex.MClass p c Hc) (IH Hs)).
Qed.

Lemma matches_class_plus p s :
  Regex.matches (Regex.Plus (Regex.Class p)) s
  <-> s <> "" /\ Text.all p s = true.
Proof.
  unfold Regex.Plus. split.
  - intros H. apply matches_seq_inv in H as (s1 & s2 & -> & H1 & H2).
    apply matches_class_inv in H1 as (c & -> & Hc).
    apply matches_class_star in H2.
    rewrite append_cons, append_nil_l. cbn.
    split; [discriminate | now rewrite Hc, H2].
  - intros [Hne H]. destruct s as [|c s]; [congruence|]. cbn in H.
    apply andb_prop in H as [Hc Hs].
    exact (Regex.MSeq _ _ (String c "") s (Regex.MClass p c Hc)
             (proj2 (matches_class_star p s) Hs)).
Qed.

Lemma matches_char c s :
  Regex.matches (Regex.Class (Ascii.eqb c)) s <-> s = String c "".
Proof.
  split.
  - intros H. apply matches_class_inv in H as (c' & -> & Hc).
    apply Ascii.eqb_eq in Hc. now subst.
  - intros ->. constructor. apply Ascii.eqb_refl.
Qed.

Lemma plain_spec s :
  SecurityText.plain s = true
  <-> s <> "" /\ Text.all SecurityText.not_space_or_at s = true.
Proof.
  unfold SecurityText.plain. rewrite andb_true_iff, negb_true_iff.
  now rewrite String.eqb_neq.
Qed.

Lemma all_app p a b : Text.all p (a ++ b) = Text.all p a && Text.all p b.
Proof.
  induction a as [|c a IH]; [reflexivity|].
  rewrite append_cons. cbn. now rewrite IH, andb_assoc.
Qed.

Lemma all_impl (p q : ascii -> bool) s :
  (forall c, p c = true -> q c = true) ->
  Text.all p s = true -> Text.all q s = true.
Proof.
  intros Hpq. induction s as [|c s IH]; cbn; [reflexivity|].
  intros H. apply andb_prop in H as [Hc Hs].
  now rewrite (Hpq c Hc), (IH Hs).
Qed.

Lemma count_char_app c a b :
  Text.count_char c (a ++ b)
  = (Text.count_char c a + Text.count_char c b)%nat.
Proof.
  induction a as [|c' a IH]; [reflexivity|].
  rewrite append_cons. cbn.
  destruct (Ascii.eqb c' c); cbn; now rewrite IH.
Qed.

Lemma count_char_none p c s :
  Text.all p s = true -> p c = false -> Text.count_char c s = 0%nat.
Proof.
  intros H Hc. induction s as [|c' s IH]; cbn in *; [reflexivity|].
  apply andb_prop in H as [Hc' Hs].
  destruct (Ascii.eqb c' c) eqn:E; [|auto].
  apply Ascii.eqb_eq in E. congruence.
Qed.

(** [isValidEmail] accepts exactly the strings [local@domain.tld] whose
    three parts are non-empty and hold neither white space nor [@]; the
    parts may hold dots.  An accepted string therefore holds exactly one
    [@] and no white space, and is at least five characters long; nothing
    else is asked of it. *)
Theorem isValidEmail_accepts email :
  (SecurityText.isValidEmail email = true <->
   exists local domain tld,
     email = local ++ "@" ++ domain ++ "." ++ tld
     /\ SecurityText.plain local = true
     /\ SecurityText.plain domain = true
     /\ SecurityText.plain tld = true)
  /\ (SecurityText.isValidEmail email = true ->
      Text.count_char "@" email = 1%nat
      /\ Text.all (fun c => negb (Text.white_space c)) email = true
      /\ (5 <= String.length email)%nat).
Proof.
  assert (Hiff : SecurityText.isValidEmail email = true <->
   exists local domain tld,
     email = local ++ "@" ++ domain ++ "." ++ tld
     /\ SecurityText.plain local = true
     /\ SecurityText.plain domain = true
     /\ SecurityText.plain tld = true).
  { unfold SecurityText.isValidEmail, SecurityText.emailPattern.
    rewrite test_matches. split.
    - intros H.
      apply matches_seq_inv in H as (u & s1 & -> & Hu & H).
      apply matches_seq_inv in H as (a & s2 & -> & Ha & H).
      apply matches_seq_inv in H as (v & s3 & -> & Hv & H).
      apply matches_seq_inv in H as (d & w & -> & Hd & Hw).
      apply matches_char in Ha, Hd. subst a d.
      apply matches_class_plus, plain_spec in Hu, Hv, Hw.
      exists u, v, w. auto.
    - intros (u & v & w & -> & Hu & Hv & Hw).
      apply plain_spec, matches_class_plus in Hu, Hv, Hw.
      apply Regex.MSeq; [exact Hu|].
      apply (Regex.MSeq _ _ "@"); [now apply matches_char|].
      apply Regex.MSeq; [exact Hv|].
      apply (Regex.MSeq _ _ "."); [now apply matches_char | exact Hw]. }
  split; [exact Hiff|].
  intros H. apply Hiff in H as (u & v & w & -> & Hu & Hv & Hw).
  apply plain_spec in Hu as [Hu1 Hu2], Hv as [Hv1 Hv2], Hw as [Hw1 Hw2].
  assert (Hat : forall s,
             Text.all SecurityText.not_space_or_at s = true ->
             Text.count_char "@" s = 0%nat).
  { intros s Hs. apply (count_char_none _ _ _ Hs). reflexivity. }
  assert (Hwh : forall s,
             Text.all SecurityText.not_space_or_at s = true ->
             Text.all (fun c => negb (Text.white_space c)) s = true).
  { intros s. apply all_impl. intros c Hc.
    unfold SecurityText.not_space_or_at in Hc.
    apply negb_true_iff, orb_false_iff in Hc as [-> _]. reflexivity. }
  split; [|split].
  - rewrite !count_char_app, (Hat u Hu2), (Hat v Hv2), (Hat w Hw2).
    reflexivity.
  - rewrite !all_app, (Hwh u Hu2), (Hwh v Hv2), (Hwh w Hw2). reflexivity.
  - rewrite !length_app_string. cbn.
    destruct u; [congruence|]. destruct v; [congruence|].
    destruct w; [congruence|]. cbn. lia.
Qed.

Lemma prefix_append p : forall s,
  String.prefix p s = true <-> exists t, s = p ++ t.
Proof.
  induction p as [|x p IH]; intros s.
  - split; [intros _; exists s; reflexivity | intros _; now destruct s].
  - destruct s as [|y s]; cbn.
    + split; [discriminate | intros (t & Ht)].
      rewrite append_cons in Ht. discriminate.
    + destruct (ascii_dec x y) as [->|Hne].
      * rewrite IH. split; intros (t & Ht); exists t.
        -- now rewrite append_cons, Ht.
        -- rewrite append_cons in Ht. now injection Ht.
      * split; [discriminate | intros (t & Ht)].
        rewrite append_cons in Ht. injection Ht as Hxy _. congruence.
Qed.

(** A prefix of visible characters found in [rest ++ b], where [b] has
    none, lies within [rest]. *)
Lemma prefix_before_blanks p : forall rest b,
  Text.all Text.visible p = true ->
  Text.all (fun c => negb (Text.visible c)) b = true ->
  String.prefix p (rest ++ b) = true -> String.prefix p rest = true.
Proof.
  induction p as [|x p IH]; intros rest b Hp Hb H; [now destruct rest|].
  cbn in Hp. apply andb_prop in Hp as [Hx Hp].
  destruct rest as [|y rest].
  - rewrite append_nil_l in H. destruct b as [|y b]; [discriminate H|].
    cbn in H, Hb. destruct (ascii_dec x y) as [->|]; [|discriminate].
    rewrite Hx in Hb. discriminate.
  - rewrite append_cons in H. cbn in H |- *.
    destruct (ascii_dec x y); [|discriminate]. exact (IH rest b Hp Hb H).
Qed.

Lemma amp_escaped_suffix a : forall s,
  Text.amp_escaped (a ++ s) = true -> Text.amp_escaped s = true.
Proof.
  induction a as [|c a IH]; intros s H; [exact H|].
  rewrite append_cons in H. cbn in H. apply andb_prop in H as [_ H]. auto.
Qed.

Lemma amp_escaped_before_blanks s : forall b,
  Text.all (fun c => negb (Text.visible c)) b = true ->
  Text.amp_escaped (s ++ b) = true -> Text.amp_escaped s = true.
Proof.
  induction s as [|c s IH]; intros b Hb H; [reflexivity|].
  rewrite append_cons in H. cbn in H |- *.
  apply andb_prop in H as [Hc H]. rewrite (IH b Hb H), andb_true_r.
  destruct (Ascii.eqb c "&"); [|reflexivity].
  exact (prefix_before_blanks "amp;" s b eq_refl Hb Hc).
Qed.

Lemma replace_class_app cls r a b :
  Text.replace_class cls r (a ++ b)
  = Text.replace_class cls r a ++ Text.replace_class cls r b.
Proof.
  induction a as [|c a IH]; [reflexivity|].
  rewrite append_cons. cbn. destruct (cls c).
  - now rewrite IH, append_assoc.
  - now rewrite IH, append_cons.
Qed.

Lemma replace_class_id cls r s :
  Text.all (fun c => negb (cls c)) s = true -> Text.replace_class cls r s = s.
Proof.
  induction s as [|c s IH]; cbn; [reflexivity|].
  intros H. apply andb_prop in H as [Hc Hs].
  apply negb_true_iff in Hc. now rewrite Hc, IH.
Qed.

Lemma all_replace_class (p q : ascii -> bool) cls r s :
  Text.all q r = true ->
  (forall c, cls c = false -> p c = true -> q c = true) ->
  Text.all p s = true -> Text.all q (Text.replace_class cls r s) = true.
Proof.
  intros Hr Hpq. induction s as [|c s IH]; cbn; [reflexivity|].
  intros H. apply andb_prop in H as [Hc Hs].
  destruct (cls c) eqn:E.
  - now rewrite all_app, Hr, IH.
  - cbn. now rewrite (Hpq c E Hc), IH.
Qed.

Lemma all_true s : Text.all (fun _ => true) s = true.
Proof. induction s as [|c s IH]; cbn; auto. Qed.

Lemma prefix_nil s : String.prefix "" s = true.
Proof. now destruct s. Qed.

Lemma in_class_amp c : Text.in_class ["&"%char] c = Ascii.eqb c "&".
Proof. unfold Text.in_class. cbn. apply orb_false_r. Qed.

Lemma amp_escaped_after_escaping s :
  Text.amp_escaped
    (Text.replace_class (Text.in_class ["&"%char]) "&amp;" s) = true.
Proof.
  induction s as [|c s IH]; [reflexivity|].
  cbn [Text.replace_class]. rewrite in_class_amp.
  destruct (Ascii.eqb c "&") eqn:E.
  - change ("&amp;" ++ ?x) with (String "&" (String "a" (String "m"
             (String "p" (String ";" x))))).
    cbn -[Text.in_class]. now rewrite prefix_nil, IH.
  - cbn -[Text.in_class]. now rewrite E, IH.
Qed.

Lemma amp_escaped_newlines s :
  Text.amp_escaped s = true ->
  Text.amp_escaped
    (Text.replace_class (Text.in_class [Text.CR; Text.LF]) " " s) = true.
Proof.
  induction s as [|c s IH]; [reflexivity|].
  cbn [Text.amp_escaped Text.replace_class].
  intros H. apply andb_prop in H as [Hc Hs].
  destruct (Text.in_class [Text.CR; Text.LF] c) eqn:E.
  - change (" " ++ ?x) with (String " " x). cbn -[Text.in_class]. auto.
  - cbn [Text.amp_escaped]. rewrite (IH Hs), andb_true_r.
    destruct (Ascii.eqb c "&"); [|reflexivity].
    apply prefix_append in Hc as (t & ->). apply prefix_append.
    exists (Text.replace_class (Text.in_class [Text.CR; Text.LF]) " " t).
    rewrite replace_class_app. reflexivity.
Qed.

Ltac by_cases_on_class c :=
  unfold SecurityText.special, Text.in_class in *; cbn [existsb] in *;
  repeat match goal with
         | H : context [Ascii.eqb c ?x] |- _ => destruct (Ascii.eqb c x)
         | |- context [Ascii.eqb c ?x] => destruct (Ascii.eqb c x)
         end;
  cbn in *; congruence.

(** What [sanitizeInput] returns holds no angle bracket, no quote and no
    line break, and every ampersand in it starts [&amp;] (so an ampersand
    of the input that was already written [&amp;] comes out as
    [&amp;amp;]); an input without any of these characters is only
    trimmed.  [trim] is assumed to take characters off the two ends only,
    none of them a visible ASCII character. *)
Theorem sanitizeInput_result rt input :
  Text.trim_strips_ends rt ->
  Text.all (fun c => negb (Text.in_class
                             ["<"%char; ">"%char; "'"%char; Text.double_quote;
                              Text.CR; Text.LF] c))
           (SecurityText.sanitizeInput rt input) = true
  /\ Text.amp_escaped (SecurityText.sanitizeInput rt input) = true
  /\ (forall s,
         input = Some s ->
         Text.all (fun c => negb (SecurityText.special c)) s = true ->
         SecurityText.sanitizeInput rt input = Js.String_trim rt s).
Proof.
  intros Htrim. destruct input as [s|]; [|repeat split; discriminate].
  unfold SecurityText.sanitizeInput.
  set (x1 := Text.replace_class (Text.in_class ["<"%char; ">"%char]) "" s).
  set (x2 := Text.replace_class
               (Text.in_class ["'"%char; Text.double_quote]) "" x1).
  set (x3 := Text.replace_class (Text.in_class ["&"%char]) "&amp;" x2).
  set (x4 := Text.replace_class (Text.in_class [Text.CR; Text.LF]) " " x3).
  destruct (Htrim x4) as (a & b & Hx4 & Ha & Hb).
  assert (H1 : Text.all (fun c => negb (Text.in_class ["<"%char; ">"%char] c))
                        x1 = true).
  { unfold x1.
    eapply (all_replace_class (fun _ => true)); [reflexivity | | apply all_true].
    intros c Hc _. now rewrite Hc. }
  assert (H2 : Text.all (fun c => negb (Text.in_class
                                          ["<"%char; ">"%char; "'"%char;
                                           Text.double_quote] c))
                        x2 = true).
  { unfold x2. eapply all_replace_class; [reflexivity | | exact H1].
    intros c Hc Hp. by_cases_on_class c. }
  assert (H3 : Text.all (fun c => negb (Text.in_class
                                          ["<"%char; ">"%char; "'"%char;
                                           Text.double_quote] c))
                        x3 = true).
  { unfold x3. eapply all_replace_class; [reflexivity | | exact H2]. auto. }
  assert (H4 : Text.all (fun c => negb (Text.in_class
                                          ["<"%char; ">"%char; "'"%char;
                                           Text.double_quote;
                                           Text.CR; Text.LF] c))
                        x4 = true).
  { unfold x4. eapply all_replace_class; [reflexivity | | exact H3].
    intros c Hc Hp. by_cases_on_class c. }
  assert (E4 : Text.amp_escaped x4 = true).
  { apply amp_escaped_newlines, amp_escaped_after_escaping. }
  split; [|split].
  - rewrite Hx4, !all_app in H4.
    apply andb_prop in H4 as [_ H4]. now apply andb_prop in H4 as [H4 _].
  - rewrite Hx4 in E4. apply amp_escaped_suffix in E4.
    exact (amp_escaped_before_blanks _ b Hb E4).
  - intros s' [= <-] Hs.
    assert (Hx : x4 = s); [|now rewrite Hx].
    subst x4 x3 x2 x1.
    rewrite (replace_class_id _ _ s)
      by (revert Hs; apply all_impl; intros c Hc; by_cases_on_class c).
    rewrite (replace_class_id _ _ s)
      by (revert Hs; apply all_impl; intros c Hc; by_cases_on_class c).
    rewrite (replace_class_id _ _ s)
      by (revert Hs; apply all_impl; intros c Hc; by_cases_on_class c).
    apply replace_class_id.
    revert Hs. apply all_impl. intros c Hc. by_cases_on_class c.
Qed.

Lemma sanitizeInput_result_witness :
  Text.amp_escaped
    (SecurityText.sanitizeInput Fixture.rt (Some "<b>Tom & 'Jerry'</b>"))
  = true
  /\ SecurityText.sanitizeInput Fixture.rt (Some "<b>Tom & 'Jerry'</b>")
     = "bTom &amp; Jerry/b".
Proof.
  split.
  - apply (sanitizeInput_result Fixture.rt (Some "<b>Tom & 'Jerry'</b>")).
    intros s. exists "", "". cbn [Js.String_trim Fixture.rt].
    rewrite append_nil_l, append_nil_r. auto.
  - vm_compute. reflexivity.
Defined.

(* ===================================================================== *)
(** ** The client-token route *)
(* ===================================================================== *)

Lemma clientKey_inj a b :
  ClientTokenRoute.clientKey a = ClientTokenRoute.clientKey b -> a = b.
Proof. unfold ClientTokenRoute.clientKey. apply String.app_inj. Qed.

Lemma isRateLimited_limited now c rl :
  (RateLimiter.isRateLimited now c rl).1 = true ->
  (RateLimiter.isRateLimited now c rl).2 = rl.
Proof.
  unfold RateLimiter.isRateLimited.
  destruct (RateLimiter.store rl !! c) as [e|]; [|discriminate].
  destruct (RateLimiter.resetTime e <? now)%Z; [discriminate|].
  destruct (RateLimiter.ge (RateLimiter.count e) (RateLimiter.limit rl));
    [reflexivity | discriminate].
Qed.

(** What [guard] answers and leaves, by cases. *)
Lemma guard_run req rl :
  ClientTokenRoute.guard req rl =
  match ClientTokenRoute.session_of_request req with
  | None => (inl ClientTokenRoute.invalid_session, rl)
  | Some sessionId =>
      let hit :=
        RateLimiter.isRateLimited (ClientTokenRoute.clock req)
          (ClientTokenRoute.clientKey sessionId) rl in
      if hit.1 then (inl ClientTokenRoute.too_many_requests, rl)
      else if PrimFloat.ltb (ClientTokenRoute.random req) 0.01%float then
        (inr tt, RateLimiter.cleanup (ClientTokenRoute.clock_cleanup req) hit.2)
      else (inr tt, hit.2)
  end.
Proof.
  unfold ClientTokenRoute.guard.
  destruct (ClientTokenRoute.session_of_request req) as [sid|]; [|reflexivity].
  cbv zeta.
  pose proof (isRateLimited_limited (ClientTokenRoute.clock req)
                (ClientTokenRoute.clientKey sid) rl) as Hl.
  destruct (RateLimiter.isRateLimited (ClientTokenRoute.clock req)
              (ClientTokenRoute.clientKey sid) rl) as [limited rl1].
  cbn [fst snd] in *. destruct limited; [now rewrite Hl|reflexivity].
Qed.

Section RouteFacts.

Context {W : Type}.
Variable service : PluginOptions -> Remote W.
Variable fetch_generate_token :
  string -> string -> M W (bool * (Js.exn + Js.json)).




End RouteFacts.

Lemma cleanup_settings now rl :
  RateLimiter.limit (RateLimiter.cleanup now rl) = RateLimiter.limit rl
  /\ RateLimiter.windowMs (RateLimiter.cleanup now rl)
     = RateLimiter.windowMs rl.
Proof. split; reflexivity. Qed.

Lemma guard_settings req rl :
  RateLimiter.limit (ClientTokenRoute.guard req rl).2 = RateLimiter.limit rl
  /\ RateLimiter.windowMs (ClientTokenRoute.guard req rl).2
     = RateLimiter.windowMs rl.
Proof.
  rewrite guard_run.
  destruct (ClientTokenRoute.session_of_request req) as [sid|]; [|auto].
  cbv zeta.
  destruct (RateLimiter.isRateLimited _ _ rl).1; [auto|].
  destruct (PrimFloat.ltb _ _); cbn [snd];
    [rewrite (proj1 (cleanup_settings _ _)), (proj2 (cleanup_settings _ _))|];
    apply isRateLimited_settings.
Qed.

Lemma guards_settings reqs : forall rl,
  RateLimiter.limit (ClientTokenRoute.guards reqs rl).2 = RateLimiter.limit rl
  /\ RateLimiter.windowMs (ClientTokenRoute.guards reqs rl).2
     = RateLimiter.windowMs rl.
Proof.
  induction reqs as [|req reqs IH]; intros rl; cbn; [auto|].
  pose proof (guard_settings req rl) as Hg.
  destruct (ClientTokenRoute.guard req rl) as [outcome rl'].
  specialize (IH rl').
  destruct (ClientTokenRoute.guards reqs rl') as [outcomes rl''].
  cbn [snd] in *. destruct IH as [-> ->]. exact Hg.
Qed.

(** A sweep made before the window of an entry ends keeps the entry. *)
Lemma cleanup_keeps now rl c e :
  RateLimiter.store rl !! c = Some e ->
  (now <= RateLimiter.resetTime e)%Z ->
  RateLimiter.store (RateLimiter.cleanup now rl) !! c = Some e.
Proof.
  intros He Hle. rewrite cleanup_lookup, He.
  now replace (now <=? RateLimiter.resetTime e)%Z with true
    by (symmetry; apply Z.leb_le; lia).
Qed.

(** What [guard] does to a session whose window is open with [k] requests
    counted, for a request served before the window ends. *)
Lemma guard_in_window req rl sid k r :
  RateLimiter.store rl !! ClientTokenRoute.clientKey sid
  = Some {| RateLimiter.count := k; RateLimiter.resetTime := r |} ->
  (ClientTokenRoute.clock req <= r)%Z ->
  (ClientTokenRoute.clock_cleanup req <= r)%Z ->
  match ClientTokenRoute.session_of_request req with
  | Some sid' =>
      if sid' =? sid then
        ClientTokenRoute.refused (ClientTokenRoute.guard req rl).1
        = RateLimiter.ge k (RateLimiter.limit rl)
        /\ RateLimiter.store (ClientTokenRoute.guard req rl).2
             !! ClientTokenRoute.clientKey sid
           = Some {| RateLimiter.count :=
                       if RateLimiter.ge k (RateLimiter.limit rl) then k
                       else (k + 1)%Z;
                     RateLimiter.resetTime := r |}
      else
        RateLimiter.store (ClientTokenRoute.guard req rl).2
          !! ClientTokenRoute.clientKey sid
        = Some {| RateLimiter.count := k; RateLimiter.resetTime := r |}
  | None =>
      RateLimiter.store (ClientTokenRoute.guard req rl).2
        !! ClientTokenRoute.clientKey sid
      = Some {| RateLimiter.count := k; RateLimiter.resetTime := r |}
  end.
Proof.
  intros Hentry Hclock Hsweep. rewrite guard_run.
  destruct (ClientTokenRoute.session_of_request req) as [sid'|];
    [|exact Hentry].
  cbv zeta. destruct (sid' =? sid) eqn:Hs.
  - apply String.eqb_eq in Hs. subst sid'.
    unfold RateLimiter.isRateLimited. rewrite Hentry.
    cbn [RateLimiter.resetTime RateLimiter.count].
    replace (r <? ClientTokenRoute.clock req)%Z with false
      by (symmetry; apply Z.ltb_ge; lia).
    destruct (RateLimiter.ge k (RateLimiter.limit rl)); cbn [fst snd].
    + split; [reflexivity | exact Hentry].
    + destruct (PrimFloat.ltb _ _); cbn [fst snd]; (split; [reflexivity|]).
      * apply cleanup_keeps; [cbn; apply lookup_insert_eq | cbn; lia].
      * cbn. apply lookup_insert_eq.
  - apply String.eqb_neq in Hs.
    assert (Hk : ClientTokenRoute.clientKey sid'
                 <> ClientTokenRoute.clientKey sid)
      by (intros H; apply Hs; now apply clientKey_inj).
    pose proof (isRateLimited_other (ClientTokenRoute.clock req)
                  (ClientTokenRoute.clientKey sid)
                  (ClientTokenRoute.clientKey sid') rl Hk) as Ho.
    destruct (RateLimiter.isRateLimited (ClientTokenRoute.clock req)
                (ClientTokenRoute.clientKey sid') rl) as [limited rl1].
    cbn [fst snd] in *. destruct limited; [exact Hentry|].
    rewrite Hentry in Ho.
    destruct (PrimFloat.ltb _ _); cbn [snd]; [|exact Ho].
    apply cleanup_keeps; [exact Ho | cbn; lia].
Qed.

Lemma guards_in_window sid reqs : forall rl k r,
  RateLimiter.store rl !! ClientTokenRoute.clientKey sid
  = Some {| RateLimiter.count := k; RateLimiter.resetTime := r |} ->
  ClientTokenRoute.all_by r reqs = true ->
  map ClientTokenRoute.refused
      (ClientTokenRoute.outcomes_of sid reqs
         (ClientTokenRoute.guards reqs rl).1)
  = map (fun i => RateLimiter.ge (k + Z.of_nat i) (RateLimiter.limit rl))
        (seq 0 (ClientTokenRoute.requests_of sid reqs)).
Proof.
  induction reqs as [|req reqs IH]; intros rl k r Hentry Hby; [reflexivity|].
  cbn [ClientTokenRoute.all_by forallb] in Hby.
  apply andb_prop in Hby as [Hreq Hby]. apply andb_prop in Hreq as [Hc Hs].
  apply Z.leb_le in Hc, Hs.
  pose proof (guard_in_window req rl sid k r Hentry Hc Hs) as Hg.
  pose proof (guard_settings req rl) as [Hlim _].
  cbn [ClientTokenRoute.guards].
  destruct (ClientTokenRoute.guard req rl) as [outcome rl'].
  cbn [fst snd] in Hg, Hlim.
  pose proof (IH rl') as IH'.
  destruct (ClientTokenRoute.guards reqs rl') as [outcomes rl''].
  cbn [fst] in *.
  unfold ClientTokenRoute.requests_of in *.
  cbn [ClientTokenRoute.outcomes_of List.filter].
  destruct (ClientTokenRoute.session_of_request req) as [sid'|].
  - destruct (sid' =? sid).
    + destruct Hg as [Href Hst]. cbn [map List.length seq].
      rewrite Href, Z.add_0_r. f_equal.
      rewrite (IH' _ r Hst Hby), Hlim.
      rewrite <- seq_shift, map_map. apply map_ext_in. intros i _.
      destruct (RateLimiter.ge k (RateLimiter.limit rl)) eqn:E.
      * transitivity true; [| symmetry];
          (apply (ge_mono k); [exact E | lia]).
      * f_equal. lia.
    + rewrite (IH' k r Hg Hby), Hlim. reflexivity.
  - rewrite (IH' k r Hg Hby), Hlim. reflexivity.
Qed.

(** The quota of the route.  A session without an open window is let
    through to the token request and opens a window of one minute; of the
    requests made for it while all clock readings stay within that minute,
    the first ten (the opening one included) pass and every later one is
    answered 429, whatever the other sessions request in between and
    whenever the limiter is swept. *)
Theorem client_token_quota before first rest sessionId :
  let rl :=
    (ClientTokenRoute.guards before ClientTokenRoute.rateLimiter).2 in
  ClientTokenRoute.session_of_request first = Some sessionId ->
  (RateLimiter.store rl !! ClientTokenRoute.clientKey sessionId = None
   \/ exists e,
       RateLimiter.store rl !! ClientTokenRoute.clientKey sessionId = Some e
       /\ (RateLimiter.resetTime e < ClientTokenRoute.clock first)%Z) ->
  ClientTokenRoute.all_by (ClientTokenRoute.clock first + 60000)
                          (first :: rest) = true ->
  map ClientTokenRoute.refused
      (ClientTokenRoute.outcomes_of sessionId (first :: rest)
         (ClientTokenRoute.guards (first :: rest) rl).1)
  = map (fun j => (10 <=? Z.of_nat j)%Z)
        (seq 0 (S (ClientTokenRoute.requests_of sessionId rest))).
Proof.
  intros rl Hsid Hfresh Hby.
  pose proof (guards_settings before ClientTokenRoute.rateLimiter)
    as [Hlim Hwin].
  fold rl in Hlim, Hwin. cbn in Hlim, Hwin.
  cbn [ClientTokenRoute.all_by forallb] in Hby.
  apply andb_prop in Hby as [Hreq Hby]. apply andb_prop in Hreq as [_ Hs].
  apply Z.leb_le in Hs.
  assert (Hopen : RateLimiter.isRateLimited (ClientTokenRoute.clock first)
                    (ClientTokenRoute.clientKey sessionId) rl
                  = (false,
                     RateLimiter.with_store rl
                       (<[ ClientTokenRoute.clientKey sessionId :=
                             {| RateLimiter.count := 1;
                                RateLimiter.resetTime :=
                                  ClientTokenRoute.clock first + 60000 |} ]>
                          (RateLimiter.store rl)))).
  { unfold RateLimiter.isRateLimited. rewrite Hwin.
    destruct Hfresh as [-> | (e & -> & Hexp)]; [reflexivity|].
    apply Z.ltb_lt in Hexp. now rewrite Hexp. }
  assert (Hguard : exists rl',
             ClientTokenRoute.guard first rl = (inr tt, rl')
             /\ RateLimiter.limit rl' = RateLimiter.whole 10
             /\ RateLimiter.store rl' !! ClientTokenRoute.clientKey sessionId
                = Some {| RateLimiter.count := 1;
                          RateLimiter.resetTime :=
                            ClientTokenRoute.clock first + 60000 |}).
  { rewrite guard_run, Hsid. cbv zeta. rewrite Hopen. cbn [fst snd].
    destruct (PrimFloat.ltb _ _); eexists; (split; [reflexivity|]);
      (split; [exact Hlim|]).
    - apply cleanup_keeps; [cbn; apply lookup_insert_eq | cbn; lia].
    - cbn. apply lookup_insert_eq. }
  destruct Hguard as (rl' & Hg & Hlim' & Hentry).
  cbn [ClientTokenRoute.guards]. rewrite Hg.
  pose proof (guards_in_window sessionId rest rl' 1 _ Hentry Hby) as Hrest.
  destruct (ClientTokenRoute.guards rest rl') as [outcomes rl''].
  cbn [fst] in *. cbn [ClientTokenRoute.outcomes_of]. rewrite Hsid.
  rewrite String.eqb_refl. cbn [map seq ClientTokenRoute.refused].
  f_equal. rewrite Hrest, Hlim'.
  rewrite <- seq_shift, map_map. apply map_ext_in. intros i _.
  rewrite ge_whole. f_equal. lia.
Qed.

Lemma client_token_quota_witness :
  map ClientTokenRoute.refused
      (ClientTokenRoute.outcomes_of "payses_0123456789"
         (RouteFixture.request_at 1000 :: RouteFixture.burst_after 1000)
         (ClientTokenRoute.guards
            (RouteFixture.request_at 1000 :: RouteFixture.burst_after 1000)
            (ClientTokenRoute.guards [] ClientTokenRoute.rateLimiter).2).1)
  = [false; false; false; false; false; false; false; false; false; false;
     true; true].
Proof.
  rewrite (client_token_quota [] (RouteFixture.request_at 1000)
             (RouteFixture.burst_after 1000)
             "payses_0123456789" eq_refl (or_introl eq_refl) eq_refl).
  reflexivity.
Defined.

(* ===================================================================== *)
(** ** The two read operations *)
(* ===================================================================== *)

Lemma made_nothing (cs : list Call) : made cs cs = [].
Proof. unfold made. apply skipn_all. Qed.

Section StatusQueries.

Context {W : Type}.
Variable R : Remote W.

Lemma retrievePayment_run input (s : St W) :
  PaypalModuleService.retrievePayment R input s =
  match data_id input with
  | Some orderId =>
      if PaypalModuleService.validatePayPalOrderId (Some orderId) then
        (ordersController_getOrder R (world s) orderId,
         mkSt (world s) (calls s ++ [GetOrder orderId]))
      else
        (inl (Js.MedusaError Js.INVALID_DATA "Invalid PayPal order ID"), s)
  | None => (inl (Js.MedusaError Js.INVALID_DATA "Invalid PayPal order ID"), s)
  end.
Proof.
  unfold PaypalModuleService.retrievePayment, try_catch.
  destruct (data_id input) as [orderId|]; [|reflexivity].
  destruct (PaypalModuleService.validatePayPalOrderId (Some orderId)) eqn:Hv.
  - rewrite (validatePayPalOrderId_nonempty _ Hv). cbn [negb orb].
    unfold bind. rewrite retrieveOrder_run.
    destruct (ordersController_getOrder R (world s) orderId); reflexivity.
  - rewrite orb_true_r. reflexivity.
Qed.

(** [getPaymentStatus] and [retrievePayment] look at the same order: on the
    same payment data they make the same calls (one retrieval, or none when
    the identifier is refused) and never change the processor; a status is
    answered exactly when the order is retrieved with a non-empty status,
    and it is read off that order; and an error of the retrieval reaches
    the caller of either operation as the processor raised it. *)
Theorem status_queries_agree input input_data (s : St W) :
  data input = Some input_data ->
  let status_run := PaypalModuleService.getPaymentStatus R input s in
  let order_run := PaypalModuleService.retrievePayment R input_data s in
  status_run.2 = order_run.2
  /\ world status_run.2 = world s
  /\ read_only (made (calls s) (calls status_run.2)) = true
  /\ (forall out,
         status_run.1 = inr out <->
         exists order,
           order_run.1 = inr order
           /\ Js.truthy_str (status order) = true
           /\ out = if Js.seq (status order) "COMPLETED"
                    then PaymentSessionStatus.CAPTURED
                    else PaymentSessionStatus.AUTHORIZED)
  /\ (forall orderId e,
         data_id input_data = Some orderId ->
         PaypalModuleService.validatePayPalOrderId (Some orderId) = true ->
         ordersController_getOrder R (world s) orderId = inl e ->
         status_run.1 = inl e /\ order_run.1 = inl e).
Proof.
  intros Hd. cbv zeta. rewrite retrievePayment_run.
  destruct (data_id input_data) as [orderId|] eqn:Hid.
  2:{ unfold PaypalModuleService.getPaymentStatus, try_catch.
      rewrite Hd, Hid. unfold throw. cbn [fst snd]. rewrite made_nothing.
      repeat split; try discriminate;
        try (intros (order & [=] & _)); try (intros orderId e [=]). }
  destruct (PaypalModuleService.validatePayPalOrderId (Some orderId)) eqn:Hv.
  - rewrite (getPaymentStatus_run R input input_data orderId s Hd Hid Hv).
    cbn [fst snd world calls]. rewrite made_app.
    split; [reflexivity|]. split; [reflexivity|]. split; [reflexivity|].
    split.
    + intros out.
      destruct (ordersController_getOrder R (world s) orderId) as [e|order].
      * split; [discriminate | intros (order & [=] & _)].
      * destruct (Js.truthy_str (status order)) eqn:Ht.
        -- split.
           ++ intros [= <-]. exists order. auto.
           ++ intros (order' & [= <-] & _ & ->). reflexivity.
        -- split; [discriminate|].
           intros (order' & [= <-] & Ht' & _). congruence.
    + intros orderId' e [= <-] _ ->. auto.
  - assert (Hrun : PaypalModuleService.getPaymentStatus R input s
                   = (inl (Js.MedusaError Js.INVALID_DATA
                             (if orderId =? ""
                              then "PayPal order ID is required to get payment status"
                              else "Invalid PayPal order ID format")), s)).
    { unfold PaypalModuleService.getPaymentStatus, try_catch.
      rewrite Hd, Hid, Hv. destruct (orderId =? ""); reflexivity. }
    rewrite Hrun. cbn [fst snd]. rewrite made_nothing.
    repeat split; try discriminate;
      try (intros (order & [=] & _));
      try (intros orderId' e [= <-] Hv'; congruence);
      match goal with
      | H : Some _ = Some _ |- _ => injection H as <-; congruence
      end.
Qed.

End StatusQueries.

Lemma status_queries_agree_witness :
  (PaypalModuleService.getPaymentStatus Fixture.remote
     (Fixture.input_for Fixture.order_id)
     (Fixture.start Fixture.completed_order)).1
  = inr PaymentSessionStatus.CAPTURED
  /\ (PaypalModuleService.getPaymentStatus Fixture.remote
        (Fixture.input_for Fixture.order_id)
        (Fixture.start Fixture.completed_order)).2
     = (PaypalModuleService.retrievePayment Fixture.remote
          {| data_id := Some Fixture.order_id;
             data_amount := Some 10%float;
             data_currency_code := Some "USD";
             data_purchaseUnits := None |}
          (Fixture.start Fixture.completed_order)).2.
Proof.
  destruct (status_queries_agree Fixture.remote
              (Fixture.input_for Fixture.order_id)
              {| data_id := Some Fixture.order_id;
                 data_amount := Some 10%float;
                 data_currency_code := Some "USD";
                 data_purchaseUnits := None |}
              (Fixture.start Fixture.completed_order) eq_refl)
    as (Hsame & _ & _ & Hout & _).
  split; [|exact Hsame].
  apply Hout. exists Fixture.completed_order.
  split; [vm_compute; reflexivity|]. split; reflexivity.
Defined.

(* ===================================================================== *)
(** ** What [createOrder] sends *)
(* ===================================================================== *)

Section CreateOrderFacts.

Context {W : Type}.
Variable rt : Js.Runtime.
Variable parsePhoneNumberFromString :
  string -> option CreateOrder.ParsedPhoneNumber.
Variable ordersController_createOrder :
  CreateOrder.OrderRequest -> M W (option Order).

Lemma request_without_customer includeShippingData input :
  CreateOrder.request rt parsePhoneNumberFromString false includeShippingData
    (CreateOrder.without_customer input)
  = CreateOrder.request rt parsePhoneNumberFromString false
      includeShippingData input.
Proof.
  unfold CreateOrder.request, CreateOrder.without_customer,
    CreateOrder.mapShippingData.
  cbn [CreateOrder.amount CreateOrder.currency CreateOrder.sessionId
       CreateOrder.items CreateOrder.shipping_info CreateOrder.email].
  match goal with
  | |- context [match ?m with inl _ => _ | inr _ => _ end] =>
      destruct m as [e|paypalItems]; [reflexivity|]
  end.
  destruct (CreateOrder.shipping_info input) as [info|]; reflexivity.
Qed.

Lemma request_without_address includeCustomerData input :
  CreateOrder.request rt parsePhoneNumberFromString includeCustomerData false
    (CreateOrder.without_address input)
  = CreateOrder.request rt parsePhoneNumberFromString includeCustomerData
      false input.
Proof.
  unfold CreateOrder.request, CreateOrder.without_address,
    CreateOrder.mapCustomerData.
  cbn [CreateOrder.amount CreateOrder.currency CreateOrder.sessionId
       CreateOrder.items CreateOrder.shipping_info CreateOrder.email].
  match goal with
  | |- context [match ?m with inl _ => _ | inr _ => _ end] =>
      destruct m as [e|paypalItems]; [reflexivity|]
  end.
  destruct (CreateOrder.shipping_info input) as [info|]; reflexivity.
Qed.

(** [createOrder] sends personal data only as far as the two plugin options
    allow.  With [includeCustomerData] off, the request made (and so the
    outcome) is the one for the input without e-mail address, names and
    phone number; with [includeShippingData] off, it is the one for the
    input without postal address.  In general the request has one purchase
    unit, tagged with the session identifier; a shipping object is sent
    exactly when the cart has an address, with a name exactly when
    [includeCustomerData] is on and with a postal address exactly when
    [includeShippingData] is on and the cart address has a country code;
    the provided address is asked to be used whenever
    [includeShippingData] is on and the cart has an address, with a country
    code or not. *)
Theorem createOrder_sends_only_enabled_data input (s : St W) :
  (forall includeShippingData,
      CreateOrder.createOrder rt parsePhoneNumberFromString
        ordersController_createOrder false includeShippingData input s
      = CreateOrder.createOrder rt parsePhoneNumberFromString
          ordersController_createOrder false includeShippingData
          (CreateOrder.without_customer input) s)
  /\ (forall includeCustomerData,
         CreateOrder.createOrder rt parsePhoneNumberFromString
           ordersController_createOrder includeCustomerData false input s
         = CreateOrder.createOrder rt parsePhoneNumberFromString
             ordersController_createOrder includeCustomerData false
             (CreateOrder.without_address input) s)
  /\ (forall includeCustomerData includeShippingData body,
         CreateOrder.request rt parsePhoneNumberFromString includeCustomerData
           includeShippingData input = inr body ->
         exists unit,
           CreateOrder.purchaseUnits body = [unit]
           /\ CreateOrder.intent body = "AUTHORIZE"
           /\ CreateOrder.customId unit = CreateOrder.sessionId input
           /\ (CreateOrder.shippingPreference body
               = Some "SET_PROVIDED_ADDRESS"
               <-> includeShippingData = true
                   /\ CreateOrder.shipping_info input <> None)
           /\ (CreateOrder.shippingPreference body = None
               <-> ~ (includeShippingData = true
                      /\ CreateOrder.shipping_info input <> None))
           /\ (CreateOrder.shipping unit = None
               <-> CreateOrder.shipping_info input = None)
           /\ (forall sh,
                  CreateOrder.shipping unit = Some sh ->
                  (CreateOrder.address sh <> None
                   <-> includeShippingData = true
                       /\ exists info,
                           CreateOrder.shipping_info input = Some info
                           /\ Js.truthy_str (CreateOrder.country_code info)
                              = true)
                  /\ (CreateOrder.fullName sh <> None
                      <-> includeCustomerData = true)
                  /\ (includeCustomerData = false ->
                      CreateOrder.emailAddress sh = None
                      /\ CreateOrder.phoneNumber sh = None))).
Proof.
  split; [|split].
  - intros includeShippingData. unfold CreateOrder.createOrder.
    now rewrite request_without_customer.
  - intros includeCustomerData. unfold CreateOrder.createOrder.
    now rewrite request_without_address.
  - intros includeCustomerData includeShippingData body.
    unfold CreateOrder.request.
    match goal with
    | |- context [match ?m with inl _ => _ | inr _ => _ end] =>
        destruct m as [e|paypalItems]; [discriminate|]
    end.
    intros [= <-]. eexists. split; [reflexivity|].
    cbn [CreateOrder.intent CreateOrder.customId CreateOrder.shippingPreference
         CreateOrder.shipping].
    split; [reflexivity|]. split; [reflexivity|].
    unfold CreateOrder.mapShippingData, CreateOrder.mapCustomerData.
    destruct (CreateOrder.shipping_info input) as [info|].
    + destruct includeShippingData, includeCustomerData;
        destruct (Js.truthy_str (CreateOrder.country_code info)) eqn:Hcc;
        cbn [negb option_map];
        (split;
         [first [ split; [intros _; split; congruence
                         | intros [H _]; congruence]
                | split; [discriminate | intros [H _]; discriminate H] ]|]);
        (split;
         [first [ split; [discriminate
                         | intros H; exfalso; apply H; split; congruence]
                | split; [intros _ [H _]; discriminate H | reflexivity] ]|]);
        (split; [split; [discriminate | discriminate]|]);
        intros sh [= <-];
        cbn [CreateOrder.address CreateOrder.fullName CreateOrder.emailAddress
             CreateOrder.phoneNumber];
        (split;
         [first [ split; [intros _; split; [reflexivity | exists info; auto]
                         | discriminate]
                | split; [congruence
                         | intros [H (info' & [= <-] & H')]; congruence] ]|]);
        (split;
         [first [ split; [reflexivity | discriminate]
                | split; [congruence | discriminate] ]
         | try discriminate; auto]).
    + destruct includeShippingData;
        (split; [split; [discriminate | intros [_ H]; congruence]|]);
        (split; [split; [intros _ [_ H]; congruence | reflexivity]|]);
        (split; [split; reflexivity|]);
        intros sh [=].
Qed.

End CreateOrderFacts.

Lemma createOrder_sends_only_enabled_data_witness :
  CreateOrder.request Fixture.rt (fun _ => None) false true
    {| CreateOrder.amount := 115.92%float;
       CreateOrder.currency := "EUR";
       CreateOrder.sessionId := Some "payses_01";
       CreateOrder.shipping_info :=
         Some {| CreateOrder.first_name := Some "Ada";
                 CreateOrder.last_name := Some "Lovelace";
                 CreateOrder.phone := Some "+441234567890";
                 CreateOrder.country_code := None;
                 CreateOrder.postal_code := Some "W1";
                 CreateOrder.province := None;
                 CreateOrder.city := Some "London";
                 CreateOrder.address_1 := Some "12 St James Square" |};
       CreateOrder.items := None;
       CreateOrder.email := Some "ada@example.com" |}
  = inr {| CreateOrder.intent := "AUTHORIZE";
           CreateOrder.purchaseUnits :=
             [ {| CreateOrder.unit_amount :=
                    {| CreateOrder.amount_currencyCode := "EUR";
                       CreateOrder.amount_value := "115.92";
                       CreateOrder.breakdown_itemTotal := None |};
                  CreateOrder.customId := Some "payses_01";
                  CreateOrder.unit_items := None;
                  CreateOrder.shipping :=
                    Some {| CreateOrder.fullName := None;
                            CreateOrder.emailAddress := None;
                            CreateOrder.phoneNumber := None;
                            CreateOrder.address := None;
                            CreateOrder.type := "SHIPPING" |} |} ];
           CreateOrder.shippingPreference := Some "SET_PROVIDED_ADDRESS";
           CreateOrder.userAction := "PAY_NOW" |}
  /\ exists unit,
      [ {| CreateOrder.unit_amount :=
             {| CreateOrder.amount_currencyCode := "EUR";
                CreateOrder.amount_value := "115.92";
                CreateOrder.breakdown_itemTotal := None |};
           CreateOrder.customId := Some "payses_01";
           CreateOrder.unit_items := None;
           CreateOrder.shipping :=
             Some {| CreateOrder.fullName := None;
                     CreateOrder.emailAddress := None;
                     CreateOrder.phoneNumber := None;
                     CreateOrder.address := None;
                     CreateOrder.type := "SHIPPING" |} |} ] = [unit]
      /\ CreateOrder.customId unit = Some "payses_01".
Proof.
  assert (Hreq : CreateOrder.request Fixture.rt (fun _ => None) false true
    {| CreateOrder.amount := 115.92%float;
       CreateOrder.currency := "EUR";
       CreateOrder.sessionId := Some "payses_01";
       CreateOrder.shipping_info :=
         Some {| CreateOrder.first_name := Some "Ada";
                 CreateOrder.last_name := Some "Lovelace";
                 CreateOrder.phone := Some "+441234567890";
                 CreateOrder.country_code := None;
                 CreateOrder.postal_code := Some "W1";
                 CreateOrder.province := None;
                 CreateOrder.city := Some "London";
                 CreateOrder.address_1 := Some "12 St James Square" |};
       CreateOrder.items := None;
       CreateOrder.email := Some "ada@example.com" |}
  = inr {| CreateOrder.intent := "AUTHORIZE";
           CreateOrder.purchaseUnits :=
             [ {| CreateOrder.unit_amount :=
                    {| CreateOrder.amount_currencyCode := "EUR";
                       CreateOrder.amount_value := "115.92";
                       CreateOrder.breakdown_itemTotal := None |};
                  CreateOrder.customId := Some "payses_01";
                  CreateOrder.unit_items := None;
                  CreateOrder.shipping :=
                    Some {| CreateOrder.fullName := None;
                            CreateOrder.emailAddress := None;
                            CreateOrder.phoneNumber := None;
                            CreateOrder.address := None;
                            CreateOrder.type := "SHIPPING" |} |} ];
           CreateOrder.shippingPreference := Some "SET_PROVIDED_ADDRESS";
           CreateOrder.userAction := "PAY_NOW" |})
    by (vm_compute; reflexivity).
  split; [exact Hreq|].
  destruct (proj2 (proj2 (createOrder_sends_only_enabled_data
                            (W := gmap string Order)
                            Fixture.rt (fun _ => None) (fun _ => ret None)
                            _ (Fixture.start Fixture.approved_order)))
              false true _ Hreq)
    as (unit & Hunit & _ & Hid & _).
  exists unit. split; [exact Hunit | exact Hid].
Defined.

(* ===================================================================== *)
(** ** Initiating a payment *)
(* ===================================================================== *)

Section InitiateFacts.

Context {W : Type}.
Variable rt : Js.Runtime.
Variable parsePhoneNumberFromString :
  string -> option CreateOrder.ParsedPhoneNumber.
Variable ordersController_createOrder :
  CreateOrder.OrderRequest -> M W (option Order).
Variable includeCustomerData includeShippingData : bool.

Lemma createOrder_returns_identified input (s : St W) order s' :
  CreateOrder.createOrder rt parsePhoneNumberFromString
    ordersController_createOrder includeCustomerData includeShippingData
    input s = (inr order, s') ->
  Js.truthy_str (id order) = true
  /\ exists body,
      CreateOrder.request rt parsePhoneNumberFromString includeCustomerData
        includeShippingData input = inr body
      /\ ordersController_createOrder body s = (inr (Some order), s').
Proof.
  unfold CreateOrder.createOrder. unfold bind at 1, lift at 1.
  destruct (CreateOrder.request _ _ _ _ input) as [e|body]; [discriminate|].
  unfold bind at 1.
  destruct (ordersController_createOrder body s) as [[e|[result|]] s1]
    eqn:Hpost; try discriminate.
  destruct (Js.truthy_str (id result)) eqn:Hid; [|discriminate].
  intros [= <- <-]. split; [exact Hid|]. exists body. auto.
Qed.

(** [initiatePayment] refuses a request without data, without amount (an
    amount of 0 counting as none) or without currency code before anything
    is sent.  When it returns, the identifier it returns is not empty and
    is the one of the order the processor created, and the request that
    created it carried the idempotency key of the context as the custom
    identifier of its only purchase unit: the value the webhook handler
    later reads the session from. *)
Theorem initiatePayment_outcomes input (s : St W) :
  let run :=
    InitiatePayment.initiatePayment
      (CreateOrder.createOrder rt parsePhoneNumberFromString
         ordersController_createOrder includeCustomerData includeShippingData)
      rt input s in
  ((InitiatePayment.input_data input = None
    \/ Js.truthy (InitiatePayment.input_amount input) = false
    \/ Js.truthy_str (InitiatePayment.input_currency_code input) = false) ->
   exists m, run = (inl (Js.MedusaError Js.INVALID_DATA m), s))
  /\ (forall out,
         run.1 = inr out ->
         exists orderId body unit,
           InitiatePayment.out_id out = Some orderId
           /\ orderId <> ""
           /\ id (InitiatePayment.from_order (InitiatePayment.out_data out))
              = Some orderId
           /\ ordersController_createOrder body s
              = (inr (Some (InitiatePayment.from_order
                              (InitiatePayment.out_data out))), run.2)
           /\ CreateOrder.purchaseUnits body = [unit]
           /\ CreateOrder.customId unit
              = match InitiatePayment.input_context input with
                | Some context => InitiatePayment.idempotency_key context
                | None => None
                end).
Proof.
  cbv zeta. unfold InitiatePayment.initiatePayment, try_catch. split.
  - intros Hmissing.
    destruct (InitiatePayment.input_data input) as [data|];
      [|eexists; reflexivity].
    destruct (InitiatePayment.input_amount input) as [amount|];
      [|eexists; reflexivity].
    destruct (InitiatePayment.input_currency_code input) as [currency_code|];
      [|eexists; reflexivity].
    destruct Hmissing as [H | [H | H]]; [discriminate | |].
    + rewrite H. eexists. reflexivity.
    + cbn in H. apply negb_false_iff in H. rewrite H, orb_true_r.
      eexists. reflexivity.
  - intros out.
    destruct (InitiatePayment.input_data input) as [data|]; [|discriminate].
    destruct (InitiatePayment.input_amount input) as [amount|];
      [|discriminate].
    destruct (InitiatePayment.input_currency_code input) as [currency_code|];
      [|discriminate].
    destruct (negb (Js.truthy (Some amount)) || (currency_code =? ""));
      [discriminate|].
    unfold bind.
    match goal with
    | |- context [CreateOrder.createOrder _ _ _ _ _ ?i s] =>
        pose proof (createOrder_returns_identified i s) as Hc;
        destruct (CreateOrder.createOrder rt parsePhoneNumberFromString
                    ordersController_createOrder includeCustomerData
                    includeShippingData i s) as [[e|order] s'] eqn:Hrun
    end; [discriminate|].
    destruct (Hc order s' eq_refl) as (Hid & body & Hreq & Hpost).
    cbn [fst snd]. intros [= <-].
    cbn [InitiatePayment.out_id InitiatePayment.out_data
         InitiatePayment.from_order].
    destruct (id order) as [orderId|] eqn:Eid; [|discriminate Hid].
    cbn in Hid. apply negb_true_iff, String.eqb_neq in Hid.
    unfold CreateOrder.request in Hreq.
    match type of Hreq with
    | context [match ?m with inl _ => _ | inr _ => _ end] =>
        destruct m as [e|paypalItems]; [discriminate|]
    end.
    injection Hreq as <-.
    eexists orderId, _, _. repeat split; try eassumption; reflexivity.
Qed.

End InitiateFacts.

Lemma initiatePayment_outcomes_witness :
  exists m,
    InitiatePayment.initiatePayment
      (CreateOrder.createOrder Fixture.rt (fun _ => None)
         (fun _ => ret (Some Fixture.approved_order)) true true)
      Fixture.rt
      {| InitiatePayment.input_data :=
           Some {| InitiatePayment.data_items := None;
                   InitiatePayment.data_shipping_info := None;
                   InitiatePayment.data_email := None |};
         InitiatePayment.input_amount := Some (Js.JNum 0%float);
         InitiatePayment.input_currency_code := Some "EUR";
         InitiatePayment.input_context := None |}
      (Fixture.start Fixture.approved_order)
    = (inl (Js.MedusaError Js.INVALID_DATA m),
       Fixture.start Fixture.approved_order).
Proof.
  apply (proj1 (initiatePayment_outcomes Fixture.rt (fun _ => None)
                  (fun _ => ret (Some Fixture.approved_order)) true true
                  {| InitiatePayment.input_data :=
                       Some {| InitiatePayment.data_items := None;
                               InitiatePayment.data_shipping_info := None;
                               InitiatePayment.data_email := None |};
                     InitiatePayment.input_amount := Some (Js.JNum 0%float);
                     InitiatePayment.input_currency_code := Some "EUR";
                     InitiatePayment.input_context := None |}
                  (Fixture.start Fixture.approved_order))).
  right. left. reflexivity.
Defined.

(* ===================================================================== *)
(** ** Sanitized identifiers *)
(* ===================================================================== *)

Lemma upper_alnum_visible s :
  IdPattern.all_upper_alnum s = true -> Text.all Text.visible s = true.
Proof.
  induction s as [|c s IH]; cbn; [reflexivity|].
  intros H. apply andb_prop in H as [Hc Hs]. rewrite (IH Hs), andb_true_r.
  unfold IdPattern.upper_alnum in Hc. unfold Text.visible.
  apply orb_prop in Hc as [Hc|Hc]; apply andb_prop in Hc as [H1 H2];
    apply Nat.leb_le in H1, H2; apply andb_true_intro;
    split; apply Nat.leb_le; lia.
Qed.

Lemma visible_not_blank s :
  Text.all Text.visible s = true ->
  Text.all (fun c => negb (Text.visible c)) s = true -> s = "".
Proof.
  destruct s as [|c s]; [reflexivity|]. cbn. intros H1 H2.
  apply andb_prop in H1 as [H1 _]. apply andb_prop in H2 as [H2 _].
  rewrite H1 in H2. discriminate.
Qed.

(** [trim] leaves a string of visible characters as it is. *)
Lemma trim_visible rt s :
  Text.trim_strips_ends rt ->
  Text.all Text.visible s = true -> Js.String_trim rt s = s.
Proof.
  intros Htrim Hs. destruct (Htrim s) as (a & b & Heq & Ha & Hb).
  rewrite Heq, !all_app in Hs.
  apply andb_prop in Hs as [Hva Hs]. apply andb_prop in Hs as [_ Hvb].
  rewrite (visible_not_blank a Hva Ha), (visible_not_blank b Hvb Hb) in Heq.
  rewrite append_nil_l, append_nil_r in Heq. now symmetry.
Qed.

(** What the helpers of utils/security.ts return is stable and fits the
    provider's own checks: an identifier returned by one of them is returned
    unchanged when it is validated again, and passes the corresponding
    check of the provider; an order identifier is moreover accepted as an
    authorization and as a capture identifier, the converse failing for
    identifiers of 18 to 20 characters.  A padded identifier, on the other
    hand, is accepted by the helper (which trims) and refused by the
    provider (which does not).  [trim] is assumed to take characters off
    the two ends only, none of them a visible ASCII character. *)
Theorem sanitized_identifiers_are_stable rt value id :
  Text.trim_strips_ends rt ->
  (Security.validateAndSanitizeOrderId rt value = inr id ->
   Security.validateAndSanitizeOrderId rt (Some id) = inr id
   /\ Security.validateAndSanitizeAuthorizationId rt (Some id) = inr id
   /\ Security.validateAndSanitizeCaptureId rt (Some id) = inr id
   /\ PaypalModuleService.validatePayPalOrderId (Some id) = true
   /\ PaypalModuleService.validatePayPalCaptureId (Some id) = true)
  /\ (Security.validateAndSanitizeAuthorizationId rt value = inr id
      \/ Security.validateAndSanitizeCaptureId rt value = inr id ->
      Security.validateAndSanitizeAuthorizationId rt (Some id) = inr id
      /\ Security.validateAndSanitizeCaptureId rt (Some id) = inr id
      /\ PaypalModuleService.validatePayPalCaptureId (Some id) = true
      /\ (PaypalModuleService.validatePayPalOrderId (Some id) = true
          <-> String.length id = 17%nat))
  /\ (forall raw,
         value = Some raw -> Js.String_trim rt raw = id -> raw <> id ->
         Security.validateAndSanitizeOrderId rt value = inr id ->
         PaypalModuleService.validatePayPalOrderId value = false).
Proof.
  intros Htrim.
  assert (Hgen : forall lo hi m1 m2 v,
             Security.validateAndSanitize rt (IdPattern.test lo hi) m1 m2 v
             = inr id ->
             (lo <= String.length id <= hi)%nat
             /\ IdPattern.all_upper_alnum id = true
             /\ exists raw, v = Some raw /\ id = Js.String_trim rt raw).
  { intros lo hi m1 m2 v. unfold Security.validateAndSanitize.
    destruct v as [raw|]; [|discriminate].
    destruct (raw =? ""); [discriminate|].
    destruct (IdPattern.test lo hi (Js.String_trim rt raw)) eqn:E;
      [|discriminate].
    cbn [negb]. intros [= <-]. apply test_shape in E as [Hlen Hall]. eauto. }
  assert (Hback : forall lo hi m1 m2,
             (lo <= String.length id <= hi)%nat ->
             (0 < String.length id)%nat ->
             IdPattern.all_upper_alnum id = true ->
             Security.validateAndSanitize rt (IdPattern.test lo hi) m1 m2
               (Some id) = inr id).
  { intros lo hi m1 m2 Hlen Hpos Hall. unfold Security.validateAndSanitize.
    destruct (id =? "") eqn:E;
      [apply String.eqb_eq in E; subst id; cbn in Hpos; lia|].
    rewrite (trim_visible rt id Htrim (upper_alnum_visible id Hall)).
    now rewrite (proj2 (test_shape lo hi id) (conj Hlen Hall)). }
  split; [|split].
  - intros H. apply Hgen in H as (Hlen & Hall & _).
    split; [apply Hback; auto; lia|]. split; [apply Hback; auto; lia|].
    split; [apply Hback; auto; lia|].
    split; [apply validatePayPalOrderId_shape; split; [lia | exact Hall]|].
    apply validatePayPalCaptureId_shape. split; [lia | exact Hall].
  - intros [H|H]; apply Hgen in H as (Hlen & Hall & _);
      (split; [apply Hback; auto; lia|]); (split; [apply Hback; auto; lia|]);
      (split; [apply validatePayPalCaptureId_shape; auto|]);
      rewrite validatePayPalOrderId_shape; tauto.
  - intros raw -> Hid Hne H.
    unfold Security.validateAndSanitizeOrderId, IdPattern.orderIdPattern in H.
    apply Hgen in H as (Hlen & Hall & _).
    destruct (PaypalModuleService.validatePayPalOrderId (Some raw)) eqn:E;
      [|reflexivity].
    apply validatePayPalOrderId_shape in E as [_ Hraw].
    rewrite (trim_visible rt raw Htrim (upper_alnum_visible raw Hraw)) in Hid.
    congruence.
Qed.

Lemma sanitized_identifiers_are_stable_witness :
  Security.validateAndSanitizeOrderId Fixture.rt (Some Fixture.order_id)
  = inr Fixture.order_id
  /\ PaypalModuleService.validatePayPalCaptureId (Some Fixture.order_id)
     = true.
Proof.
  assert (Htrim : Text.trim_strips_ends Fixture.rt).
  { intros s. exists "", "". cbn [Js.String_trim Fixture.rt].
    rewrite append_nil_l, append_nil_r. auto. }
  destruct (proj1 (sanitized_identifiers_are_stable Fixture.rt
                     (Some Fixture.order_id) Fixture.order_id Htrim)
              eq_refl)
    as (H1 & _ & _ & _ & H5).
  split; [exact H1 | exact H5].
Defined.
